(** * Email-to-PDF converter: a shallow embedding of [email_processor.py]
      and of the HTTP handlers of [main.py]

    Python text ([str]) is modelled as the [string] of its UTF-8 encoding:
    a character is one [ascii] below 128, or a lead byte followed by
    continuation bytes.  Comparison, concatenation, search and the
    replacement of ASCII characters are then the byte-wise operations;
    slicing counts characters ([Text.take]) and lower-casing, which depends
    on the interpreter's Unicode tables, is taken from the environment.
    File contents ([bytes]) are [list byte]; a body field, which holds
    whatever the parsing library returned, is a [Body]: text or bytes.
    Dictionaries with a fixed set of
    keys ([email_data], the attachment entries, the conversion result) are
    records; the file system and the JSON request body are finite maps.
    The libraries the program calls (the MIME parser, the .msg decoder, the
    HTML-to-PDF engine, the PDF merger, the network client, the sources of
    temporary names) are fields of an environment record [Env]; the program
    itself, including its [try]/[except] structure, is written over a
    state-and-exception monad whose state (the file system) survives a raised
    exception, as it does in Python.  Console and logger output is not
    modelled. *)

From Stdlib Require Import Ascii NArith Lia Sorting.Sorted Sorting.Permutation.
From Stdlib Require Import Strings.Byte DecimalString.
From stdpp Require Import gmap strings list fin_maps sorting.

#[global] Instance byte_eq_decision : EqDecision byte := Byte.byte_eq_dec.

(** ** Text helpers: the built-in [str] operations the program uses *)

Module Text.

(** The double quote character, for the attribute values of the templates. *)
Definition dq : string := String "034"%char EmptyString.

(** What [str.lower()] does to text made of ASCII characters only: the
    letters [A]..[Z] become [a]..[z], every other character is kept.  The
    lower-casing of arbitrary text is [str_lower] of the environment. *)
Definition lower_char (c : ascii) : ascii :=
  let n := N_of_ascii c in
  if ((65 <=? n) && (n <=? 90))%N then ascii_of_N (n + 32) else c.

Fixpoint lower_ascii (s : string) : string :=
  match s with
  | EmptyString => EmptyString
  | String c r => String (lower_char c) (lower_ascii r)
  end.

(** [s.isascii()] *)
Fixpoint is_ascii (s : string) : bool :=
  match s with
  | EmptyString => true
  | String c r => (N_of_ascii c <? 128)%N && is_ascii r
  end.

(** [sub in s] for strings. *)
Fixpoint contains (sub s : string) : bool :=
  String.prefix sub s ||
  match s with
  | EmptyString => false
  | String _ r => contains sub r
  end.

(** [s.replace(old, new)] where [old] is a one-character string, as at the
    three call sites of [create_gmail_html]. *)
Fixpoint replace (old : ascii) (new : string) (s : string) : string :=
  match s with
  | EmptyString => EmptyString
  | String c r =>
      if Ascii.eqb c old then new +:+ replace old new r
      else String c (replace old new r)
  end.

(** A byte [10xxxxxx], which continues the character begun before it. *)
Definition is_continuation (c : ascii) : bool :=
  let n := N_of_ascii c in ((128 <=? n) && (n <? 192))%N.

(** The first [n] characters of [s]: every byte that starts a character
    uses up one of the [n]; its continuation bytes go with it. *)
Fixpoint take_chars (n : nat) (s : string) : string :=
  match s with
  | EmptyString => EmptyString
  | String c r =>
      if is_continuation c then String c (take_chars n r)
      else
        match n with
        | O => EmptyString
        | S k => String c (take_chars k r)
        end
  end.

(** [s[:n]] *)
Definition take (n : N) (s : string) : string := take_chars (N.to_nat n) s.

(** Python truthiness of a string: [not s] is [is_empty s]. *)
Definition is_empty (s : string) : bool :=
  match s with EmptyString => true | _ => false end.

(** [x or default] on strings. *)
Definition or_else (s default : string) : string :=
  if is_empty s then default else s.

(** Decimal rendering of a non-negative integer, [str(n)]. *)
Definition decimal (n : N) : string := NilZero.string_of_uint (N.to_uint n).

(** [f'{n:02d}'] : decimal, padded with zeros on the left to width two. *)
Definition format_02d (n : N) : string :=
  if (n <? 10)%N then "0" +:+ decimal n else decimal n.

(** [f'{size / 1024:.1f}'] for a byte count [size].  The quotient by a power
    of two is exact in binary floating point (for sizes below 2^53), and the
    [.1f] conversion rounds that exact value to the nearest tenth, ties to
    the even digit; the result is computed here on integers: [tenths] is
    the rounded number of tenths of a KiB. *)
Definition tenths_of_kib (size : N) : N :=
  let q := (size * 10 / 1024)%N in
  let r := (size * 10 mod 1024)%N in
  if (r <? 512)%N then q
  else if (512 <? r)%N then (q + 1)%N
  else if N.even q then q else (q + 1)%N.

Definition format_kb (size : N) : string :=
  let t := tenths_of_kib size in
  decimal (t / 10) +:+ "." +:+ decimal (t mod 10).

End Text.

(** ** [posixpath]: the three path functions the program uses *)

Module Path.

Definition sep : ascii := "/"%char.
Definition extsep : ascii := "."%char.

(** The part of [p] after its last [/] (all of [p] when it has none),
    computed with an accumulator that restarts at every separator. *)
Fixpoint basename_go (acc : string) (p : string) : string :=
  match p with
  | EmptyString => String.rev acc
  | String c r =>
      if Ascii.eqb c sep then basename_go EmptyString r
      else basename_go (String c acc) r
  end.

Definition basename (p : string) : string := basename_go EmptyString p.

(** [os.path.join(a, b)]: an absolute [b] replaces [a]; otherwise one
    separator is put between them unless [a] is empty or ends with one. *)
Definition ends_with_sep (a : string) : bool :=
  match String.rev a with
  | String c _ => Ascii.eqb c sep
  | EmptyString => false
  end.

Definition join (a b : string) : string :=
  match b with
  | String c _ =>
      if Ascii.eqb c sep then b
      else if Text.is_empty a || ends_with_sep a then a +:+ b
      else a +:+ "/" +:+ b
  | EmptyString =>
      if Text.is_empty a || ends_with_sep a then a else a +:+ "/"
  end.

(** [_splitext]: the extension starts at the last dot of the last path
    component, provided some character before that dot (in the component)
    is not itself a dot.  [ext_of_rev] reads the component backwards: [acc]
    collects the characters after the last dot. *)
Fixpoint all_dots (s : string) : bool :=
  match s with
  | EmptyString => true
  | String c r => Ascii.eqb c extsep && all_dots r
  end.

Fixpoint ext_of_rev (acc : string) (rev_name : string) : string :=
  match rev_name with
  | EmptyString => EmptyString
  | String c r =>
      if Ascii.eqb c extsep
      then (if all_dots r then EmptyString else String extsep acc)
      else ext_of_rev (String c acc) r
  end.

(** [os.path.splitext(p)[1]] *)
Definition splitext_ext (p : string) : string :=
  ext_of_rev EmptyString (String.rev (basename p)).

(** [os.path.splitext(p)]: root and extension; the root is [p] without
    the extension. *)
Definition splitext (p : string) : string * string :=
  let ext := splitext_ext p in
  (String.substring 0 (String.length p - String.length ext) p, ext).

End Path.

(** ** The regular expression of [create_gmail_html] *)

Module Re.

(** The pattern [<[^<]+?>] read at the start of a string: a [<], one
    character other than [<], then lazily more such characters up to the
    first [>].  The lazy quantifier is the only choice point, so the match
    at a given position, when there is one, is the shortest one; meeting a
    second [<] (or the end of the text) before a [>] means no match starts
    here.  [tag_tail] runs after the [<] and the first character have been
    read and returns how many further characters the match takes. *)
Fixpoint tag_tail (s : string) : option nat :=
  match s with
  | EmptyString => None
  | String c r =>
      if Ascii.eqb c ">"%char then Some 1
      else if Ascii.eqb c "<"%char then None
      else S <$> tag_tail r
  end.

(** Length of the match starting at the first character of [s]. *)
Definition tag_match (s : string) : option nat :=
  match s with
  | String c0 (String c1 r) =>
      if Ascii.eqb c0 "<"%char && negb (Ascii.eqb c1 "<"%char)
      then (fun n => 2 + n) <$> tag_tail r
      else None
  | _ => None
  end.

(** [re.sub('<[^<]+?>', '', s)]: scan from the left; where a match starts,
    drop it whole and resume after it; elsewhere copy the character.
    [skip] counts the characters of the current match still to drop. *)
Fixpoint sub_tags_go (skip : nat) (s : string) : string :=
  match s with
  | EmptyString => EmptyString
  | String c r =>
      match skip with
      | S k => sub_tags_go k r
      | O =>
          match tag_match s with
          | Some (S k) => sub_tags_go k r
          | _ => String c (sub_tags_go 0 r)
          end
      end
  end.

Definition sub_tags (s : string) : string := sub_tags_go 0 s.

End Re.

(** ** Exceptions *)

(** A raised exception; [str e] is its message.  Every exception of the model
    is an instance of [Exception], so [except Exception] and a bare [except]
    both catch it. *)
Inductive exn := Exception (message : string).

Definition str (e : exn) : string := let '(Exception m) := e in m.

Inductive outcome (A : Type) :=
| Return (a : A)
| Raise (e : exn).
Arguments Return {A} a.
Arguments Raise {A} e.

(** ** Data model *)

(** What a body field of [email_data] holds.  The parsers store there
    what the libraries return: text ([str]) for a text part and for the
    body of a .msg file, a [bytes] object for the content of a single-part
    message that is not text and for the HTML body of a .msg file. *)
Inductive Body :=
| Str (s : string)
| Bytes (b : list byte).

(** One entry of [email_data['attachments']]. *)
Record Attachment := mkAttachment {
  filename : string;
  path : string;
  content_type : string;
  size : N
}.

(** The [email_data] dictionary built by both parsers. *)
Record EmailData := mkEmailData {
  from : string;
  to : string;
  cc : string;
  subject : string;
  date : string;
  body_text : Body;
  body_html : Body;
  attachments : list Attachment
}.

(** Python truthiness of a body value: [not v] is [negb (is_true v)]. *)
Definition is_true (v : Body) : bool :=
  match v with
  | Str s => negb (Text.is_empty s)
  | Bytes b => negb (bool_decide (b = []))
  end.

(** The dictionary returned by [process_email_to_pdf]. *)
Record ConversionResult := mkConversionResult {
  success : bool;
  output_path : string;
  email_subject : string;
  email_from : string;
  attachment_count : nat;
  total_pages : nat
}.

(** ** The HTML renderer *)

(** Gmail-style CSS for email rendering. *)
Definition GMAIL_STYLE : string := "
<style>
    body {
        font-family: Arial, sans-serif;
        margin: 0;
        padding: 20px;
        background-color: #f5f5f5;
    }
    .email-container {
        max-width: 800px;
        margin: 0 auto;
        background-color: white;
        box-shadow: 0 1px 3px rgba(0,0,0,0.12), 0 1px 2px rgba(0,0,0,0.24);
        border-radius: 2px;
    }
    .email-header {
        padding: 20px 24px;
        border-bottom: 1px solid #e0e0e0;
    }
    .email-subject {
        font-size: 20px;
        font-weight: 400;
        color: #202124;
        margin: 0 0 16px 0;
    }
    .email-meta {
        font-size: 12px;
        color: #5f6368;
    }
    .email-meta-row {
        margin: 4px 0;
        display: flex;
    }
    .email-meta-label {
        font-weight: 500;
        min-width: 60px;
        color: #202124;
    }
    .email-meta-value {
        color: #5f6368;
        word-break: break-word;
    }
    .email-body {
        padding: 24px;
        font-size: 14px;
        line-height: 1.6;
        color: #202124;
        white-space: pre-wrap;
        word-wrap: break-word;
    }
    .email-attachments {
        padding: 16px 24px;
        border-top: 1px solid #e0e0e0;
        background-color: #f8f9fa;
    }
    .attachments-title {
        font-size: 13px;
        font-weight: 500;
        color: #5f6368;
        margin-bottom: 12px;
    }
    .attachment-item {
        display: inline-block;
        padding: 8px 12px;
        margin: 4px 8px 4px 0;
        background-color: white;
        border: 1px solid #dadce0;
        border-radius: 4px;
        font-size: 13px;
        color: #202124;
    }
    .attachment-icon {
        display: inline-block;
        width: 16px;
        height: 16px;
        margin-right: 8px;
        vertical-align: middle;
    }
    .gmail-logo {
        color: #ea4335;
        font-size: 11px;
        text-align: right;
        padding: 8px 24px;
        color: #5f6368;
    }
</style>
".

Module Html.

Import Text.

(** Opening tags with a [class] attribute, and the [meta] line shared by
    all templates. *)
Definition div (class : string) : string :=
  "<div class=" +:+ dq +:+ class +:+ dq +:+ ">".

Definition span (class : string) : string :=
  "<span class=" +:+ dq +:+ class +:+ dq +:+ ">".

Definition meta_charset : string :=
  "<meta charset=" +:+ dq +:+ "UTF-8" +:+ dq +:+ ">".

(** The three [replace] calls that escape the body, in source order. *)
Definition escape_body (s : string) : string :=
  replace ">" "&gt;" (replace "<" "&lt;" (replace "&" "&amp;" s)).

(** One attachment chip: name and size in KiB to one decimal. *)
Definition attachment_item (att : Attachment) : string :=
  div "attachment-item" +:+ "📎 " +:+ filename att +:+
  " (" +:+ format_kb (size att) +:+ " KB)</div>".

(** The optional Cc row. *)
Definition cc_row (ed : EmailData) : string :=
  if is_empty (cc ed) then ""
  else div "email-meta-row" +:+ span "email-meta-label" +:+ "Cc:</span>" +:+
       span "email-meta-value" +:+ cc ed +:+ "</span></div>".

End Html.

(** [re.sub('<[^<]+?>', '', v)]: a text pattern applies to text only, and
    [re] raises [TypeError] for a [bytes] object. *)
Definition re_sub_tags (v : Body) : outcome Body :=
  match v with
  | Str s => Return (Str (Re.sub_tags s))
  | Bytes _ => Raise (Exception "cannot use a string pattern on a bytes-like object")
  end.

(** [v.replace('&', '&amp;').replace('<', '&lt;').replace('>', '&gt;')]:
    the [replace] of a [bytes] object raises [TypeError] for text arguments. *)
Definition escape (v : Body) : outcome string :=
  match v with
  | Str s => Return (Html.escape_body s)
  | Bytes _ => Raise (Exception "a bytes-like object is required, not 'str'")
  end.

(** The value that is escaped into the body block: [body_text], or the
    tag-stripped [body_html] when [body_text] is empty, or the fixed words
    when both give nothing. *)
Definition body_content (ed : EmailData) : outcome Body :=
  let body_content := body_text ed in
  match
    (if negb (is_true body_content) && is_true (body_html ed)
     then re_sub_tags (body_html ed)
     else Return body_content)
  with
  | Raise e => Raise e
  | Return body_content =>
      Return (if is_true body_content then body_content else Str "No content")
  end.

(** The attachments block: empty without attachments, else one chip each. *)
Definition attachments_html (ed : EmailData) : string :=
  match attachments ed with
  | [] => ""
  | atts =>
      fold_left (fun acc att => acc +:+ Html.attachment_item att) atts
        (Html.div "email-attachments" +:+
         Html.div "attachments-title" +:+ "Attachments</div>")
      +:+ "</div>"
  end.

(** The page of [create_gmail_html], given the escaped body. *)
Definition gmail_page (ed : EmailData) (body_content : string) : string :=
  let date_str := date ed in
  let attachments_html := attachments_html ed in
  "
<!DOCTYPE html>
<html>
<head>
    " +:+ Html.meta_charset +:+ "
    " +:+ GMAIL_STYLE +:+ "
</head>
<body>
    " +:+ Html.div "email-container" +:+ "
        " +:+ Html.div "email-header" +:+ "
            " +:+ Html.div "email-subject" +:+ subject ed +:+ "</div>
            " +:+ Html.div "email-meta" +:+ "
                " +:+ Html.div "email-meta-row" +:+ "
                    " +:+ Html.span "email-meta-label" +:+ "From:</span>
                    " +:+ Html.span "email-meta-value" +:+ from ed +:+ "</span>
                </div>
                " +:+ Html.div "email-meta-row" +:+ "
                    " +:+ Html.span "email-meta-label" +:+ "To:</span>
                    " +:+ Html.span "email-meta-value" +:+ to ed +:+ "</span>
                </div>
                " +:+ Html.cc_row ed +:+ "
                " +:+ Html.div "email-meta-row" +:+ "
                    " +:+ Html.span "email-meta-label" +:+ "Date:</span>
                    " +:+ Html.span "email-meta-value" +:+ date_str +:+ "</span>
                </div>
            </div>
        </div>
        " +:+ Html.div "email-body" +:+ body_content +:+ "</div>
        " +:+ attachments_html +:+ "
        " +:+ Html.div "gmail-logo" +:+ "Generated from email file</div>
    </div>
</body>
</html>
".

(** Create Gmail-style HTML for the email *)
Definition create_gmail_html (ed : EmailData) : outcome string :=
  match body_content ed with
  | Raise e => Raise e
  | Return v =>
      match escape v with
      | Raise e => Raise e
      | Return body_content => Return (gmail_page ed body_content)
      end
  end.

(** ** The world, and the monad of the effectful code *)

(** The mutable surroundings of a run: the files by path, and how many
    temporary directories and random names have been drawn so far. *)
Record World := mkWorld {
  files : gmap string (list byte);
  temp_count : nat;
  random_count : nat
}.

Definition M (A : Type) : Type := World -> outcome A * World.

Definition ret {A} (a : A) : M A := fun w => (Return a, w).

Definition raise {A} (e : exn) : M A := fun w => (Raise e, w).

Definition bind {A B} (c : M A) (k : A -> M B) : M B :=
  fun w =>
    match c w with
    | (Return a, w') => k a w'
    | (Raise e, w') => (Raise e, w')
    end.

(** [try: c  except Exception as e: h e] *)
Definition try_except {A} (c : M A) (h : exn -> M A) : M A :=
  fun w =>
    match c w with
    | (Return a, w') => (Return a, w')
    | (Raise e, w') => h e w'
    end.

(** A library call that returns or raises without touching the world. *)
Definition lift {A} (o : outcome A) : M A := fun w => (o, w).

Declare Scope monad_scope.
Delimit Scope monad_scope with monad.
Notation "x <- c ;; k" := (bind c (fun x => k))
  (at level 100, c at next level, right associativity) : monad_scope.
Notation "c ;;; k" := (bind c (fun _ => k))
  (at level 100, right associativity) : monad_scope.
Open Scope monad_scope.

(** ** The libraries, as the program sees them *)

Module Mime.

(** One part yielded by [msg.walk()]: the values of the calls the parser
    makes on it.  [get_payload] is [None] where [get_payload(decode=True)]
    returns [None].  [get_content] is called on parts of type text/plain
    and text/html only, for which the library returns text, or raises. *)
Record Part := mkPart {
  get_content_type : string;
  content_disposition : string;        (* str(part.get("Content-Disposition", "")) *)
  get_filename : option string;
  get_payload : option (list byte);
  get_content : outcome string
}.

(** The parsed message: header lookup [get], and its parts in the order
    [walk()] yields them (the message itself first).  [get_content] of a
    message that is not multipart returns text when its content type is
    [text/*] and the decoded payload, a [bytes] object, otherwise. *)
Record Message := mkMessage {
  get : string -> option string;
  is_multipart : bool;
  walk : list Part;
  msg_get_content : outcome Body
}.

End Mime.

Module ExtractMsg.

(** [body] is text, [htmlBody] the undecoded HTML, a [bytes] object; both
    are [None] when the file has none. *)
Record Attachment := mkAttachment {
  longFilename : option string;
  shortFilename : option string;
  data : option (list byte)            (* [None]: not a bytes object *)
}.

Record Message := mkMessage {
  sender : option string;
  to : option string;
  cc : option string;
  subject : option string;
  date : option string;                (* str(msg.date), when there is one *)
  body : option string;
  htmlBody : option (list byte);
  attachments : list Attachment
}.

End ExtractMsg.

(** What the program takes from outside itself. *)
Record Env := mkEnv {
  (** [BytesParser(policy=policy.default).parse(f)] on the file's bytes *)
  BytesParser_parse : list byte -> outcome Mime.Message;
  (** [extract_msg.Message(file_path)] on the file's bytes *)
  extract_msg_Message : list byte -> outcome ExtractMsg.Message;
  (** the bytes [HTML(string=html).write_pdf] produces, or its exception *)
  weasyprint_render : string -> outcome (list byte);
  (** [PdfMerger]: [append] of each input in turn, then the written bytes *)
  PdfMerger_merge : list (list byte) -> outcome (list byte);
  (** the directory [tempfile.mkdtemp()] returns at its n-th call *)
  mkdtemp_name : nat -> string;
  (** whether the system lets a file be created at this path *)
  can_create : string -> bool;
  (** reading a file as text with [encoding='utf-8', errors='ignore'] *)
  decode_utf8_ignore : list byte -> string;
  (** [s.lower()], which follows the interpreter's Unicode tables; on text
      made of ASCII characters it changes the letters [A]..[Z] only *)
  str_lower : string -> string;
  str_lower_ascii :
    forall s, Text.is_ascii s = true -> str_lower s = Text.lower_ascii s;
  (** [tempfile.gettempdir()] *)
  gettempdir : string;
  (** [os.urandom(k).hex()] at the n-th draw *)
  urandom_hex : nat -> nat -> string;
  (** [requests.get(url, stream=True, timeout=30)]: status code and body *)
  requests_get : string -> outcome (nat * list byte)
}.

(** ** File system and temporary names *)

Section FileSystem.

Context (E : Env).

Definition no_such_file (path : string) : exn :=
  Exception ("[Errno 2] No such file or directory: '" +:+ path +:+ "'").

(** [open(path, 'rb').read()] *)
Definition read_file (path : string) : M (list byte) :=
  fun w =>
    match files w !! path with
    | Some b => (Return b, w)
    | None => (Raise (no_such_file path), w)
    end.

Definition set_file (path : string) (b : list byte) (w : World) : World :=
  mkWorld (<[path := b]> (files w)) (temp_count w) (random_count w).

(** [open(path, 'wb')]: creates or truncates the file. *)
Definition open_wb (path : string) : M unit :=
  fun w =>
    if can_create E path then (Return tt, set_file path [] w)
    else (Raise (no_such_file path), w).

(** [f.write(b)] on a file opened at [path]. *)
Definition f_write (path : string) (b : list byte) : M unit :=
  fun w => (Return tt, set_file path b w).

Definition write_file (path : string) (b : list byte) : M unit :=
  open_wb path ;;; f_write path b.

(** [os.path.getsize(path)] *)
Definition getsize (path : string) : M N :=
  b <- read_file path ;; ret (N.of_nat (length b)).

(** [os.unlink(path)] *)
Definition unlink (path : string) : M unit :=
  fun w =>
    match files w !! path with
    | Some _ =>
        (Return tt, mkWorld (delete path (files w)) (temp_count w) (random_count w))
    | None => (Raise (no_such_file path), w)
    end.

(** [shutil.copy(src, dst)] *)
Definition copy (src dst : string) : M unit :=
  b <- read_file src ;; write_file dst b.

(** [tempfile.mkdtemp()] *)
Definition mkdtemp : M string :=
  fun w =>
    (Return (mkdtemp_name E (temp_count w)),
     mkWorld (files w) (S (temp_count w)) (random_count w)).

(** [os.urandom(k).hex()] *)
Definition urandom_hex_ (k : nat) : M string :=
  fun w =>
    (Return (urandom_hex E k (random_count w)),
     mkWorld (files w) (temp_count w) (S (random_count w))).

(** [HTML(string=html).write_pdf(output_path)] *)
Definition write_pdf (html : string) (output_path : string) : M unit :=
  pdf <- lift (weasyprint_render E html) ;;
  write_file output_path pdf.

End FileSystem.

(** ** The templates of [convert_attachment_to_pdf] *)

Module Templates.

Definition text_template (filename content : string) : string :=
  "
<!DOCTYPE html>
<html>
<head>
    " +:+ Html.meta_charset +:+ "
    <style>
        body { font-family: monospace; padding: 20px; font-size: 10px; white-space: pre-wrap; }
        h1 { font-size: 14px; margin-bottom: 20px; }
    </style>
</head>
<body>
    <h1>" +:+ filename +:+ "</h1>
    <pre>" +:+ content +:+ "</pre>
</body>
</html>
".

Definition image_template (filename attachment_path : string) : string :=
  "
<!DOCTYPE html>
<html>
<head>
    " +:+ Html.meta_charset +:+ "
    <style>
        body { margin: 0; padding: 20px; text-align: center; }
        h1 { font-size: 14px; margin-bottom: 20px; }
        img { max-width: 100%; height: auto; }
    </style>
</head>
<body>
    <h1>" +:+ filename +:+ "</h1>
    <img src=" +:+ Text.dq +:+ "file://" +:+ attachment_path +:+ Text.dq +:+ " />
</body>
</html>
".

Definition unsupported_template (filename ext : string) : string :=
  "
<!DOCTYPE html>
<html>
<head>
    " +:+ Html.meta_charset +:+ "
    <style>
        body { font-family: Arial; padding: 40px; text-align: center; }
        h1 { color: #666; }
        p { color: #999; }
    </style>
</head>
<body>
    <h1>📄 " +:+ filename +:+ "</h1>
    <p>File type: " +:+ ext +:+ "</p>
    <p>This file type cannot be converted to PDF automatically.</p>
</body>
</html>
".

Definition error_template (filename message : string) : string :=
  "
<!DOCTYPE html>
<html>
<head>
    " +:+ Html.meta_charset +:+ "
    <style>
        body { font-family: Arial; padding: 40px; text-align: center; }
        h1 { color: #d32f2f; }
        p { color: #666; }
    </style>
</head>
<body>
    <h1>⚠️ " +:+ filename +:+ "</h1>
    <p>Error converting file: " +:+ message +:+ "</p>
</body>
</html>
".

End Templates.

(** ** The parsers *)

(** Python truthiness of a value that is [None] or a string. *)
Definition truthy (o : option string) : bool :=
  match o with
  | Some s => negb (Text.is_empty s)
  | None => false
  end.

(** [a or b] on such values. *)
Definition or_ (a b : option string) : option string :=
  if truthy a then a else b.

Definition set_body_text (ed : EmailData) (s : Body) : EmailData :=
  mkEmailData (from ed) (to ed) (cc ed) (subject ed) (date ed)
    s (body_html ed) (attachments ed).

Definition set_body_html (ed : EmailData) (s : Body) : EmailData :=
  mkEmailData (from ed) (to ed) (cc ed) (subject ed) (date ed)
    (body_text ed) s (attachments ed).

(** [email_data['attachments'].append(att)] *)
Definition append_attachment (ed : EmailData) (att : Attachment) : EmailData :=
  mkEmailData (from ed) (to ed) (cc ed) (subject ed) (date ed)
    (body_text ed) (body_html ed) (attachments ed ++ [att]).

(** A [for] loop whose body updates a value and may raise. *)
Fixpoint for_each {A S : Type} (l : list A) (body : S -> A -> M S) (s : S) : M S :=
  match l with
  | [] => ret s
  | x :: r => s' <- body s x ;; for_each r body s'
  end.

(** The test that sends a part to the attachment branch of the walk. *)
Definition is_attachment_part (part : Mime.Part) : bool :=
  Text.contains "attachment" (Mime.content_disposition part)
  || truthy (Mime.get_filename part).

Section Parsers.

Context (E : Env).

Definition not_bytes : exn :=
  Exception "a bytes-like object is required, not 'NoneType'".

(** Save one attachment to [attachment_path] and describe it; this is the
    body of the [try] both parsers use. *)
Definition save_attachment (ed : EmailData) (filename attachment_path content_type : string)
    (payload : option (list byte)) : M EmailData :=
  open_wb E attachment_path ;;;
  b <- match payload with Some b => ret b | None => raise not_bytes end ;;
  f_write attachment_path b ;;;
  sz <- getsize attachment_path ;;
  ret (append_attachment ed (mkAttachment filename attachment_path content_type sz)).

(** The body of the loop over [msg.walk()]. *)
Definition walk_part (email_data : EmailData) (part : Mime.Part) : M EmailData :=
  let content_type := Mime.get_content_type part in
  if is_attachment_part part then
    let filename := Mime.get_filename part in
    match filename with
    | Some (String _ _ as filename) =>
        temp_dir <- mkdtemp E ;;
        let attachment_path := Path.join temp_dir filename in
        try_except
          (save_attachment email_data filename attachment_path content_type
             (Mime.get_payload part))
          (fun _ => ret email_data)
    | _ => ret email_data
    end
  else if String.eqb content_type "text/plain" && negb (is_true (body_text email_data)) then
    try_except
      (c <- lift (Mime.get_content part) ;; ret (set_body_text email_data (Str c)))
      (fun _ => ret email_data)
  else if String.eqb content_type "text/html" && negb (is_true (body_html email_data)) then
    try_except
      (c <- lift (Mime.get_content part) ;; ret (set_body_html email_data (Str c)))
      (fun _ => ret email_data)
  else ret email_data.

Definition header (msg : Mime.Message) (name : string) : string :=
  default "" (Mime.get msg name).

(** Parse .eml file and extract all data including attachments *)
Definition parse_eml_file (file_path : string) : M EmailData :=
  f <- read_file file_path ;;
  msg <- lift (BytesParser_parse E f) ;;
  let email_data :=
    mkEmailData (header msg "From") (header msg "To") (header msg "CC")
      (header msg "Subject") (header msg "Date") (Str "") (Str "") [] in
  if Mime.is_multipart msg then
    for_each (Mime.walk msg) walk_part email_data
  else
    try_except
      (c <- lift (Mime.msg_get_content msg) ;; ret (set_body_text email_data c))
      (fun _ => ret email_data).

(** The body of the loop over [msg.attachments]. *)
Definition msg_attachment (temp_dir : string) (email_data : EmailData)
    (attachment : ExtractMsg.Attachment) : M EmailData :=
  let filename :=
    default "unknown"
      (or_ (or_ (ExtractMsg.longFilename attachment)
                (ExtractMsg.shortFilename attachment))
           (Some "unknown")) in
  let attachment_path := Path.join temp_dir filename in
  try_except
    (save_attachment email_data filename attachment_path "application/octet-stream"
       (ExtractMsg.data attachment))
    (fun _ => ret email_data).

Definition or_empty (o : option string) : string :=
  default "" (or_ o (Some "")).

(** [msg.htmlBody or '']: the bytes when there are some, else the empty
    text. *)
Definition html_body_or_empty (o : option (list byte)) : Body :=
  match o with
  | Some ((_ :: _) as b) => Bytes b
  | _ => Str ""
  end.

(** Parse .msg file and extract all data including attachments *)
Definition parse_msg_file (file_path : string) : M EmailData :=
  f <- read_file file_path ;;
  msg <- lift (extract_msg_Message E f) ;;
  let email_data :=
    mkEmailData (or_empty (ExtractMsg.sender msg)) (or_empty (ExtractMsg.to msg))
      (or_empty (ExtractMsg.cc msg)) (or_empty (ExtractMsg.subject msg))
      (or_empty (ExtractMsg.date msg))
      (Str (or_empty (ExtractMsg.body msg)))
      (html_body_or_empty (ExtractMsg.htmlBody msg)) [] in
  temp_dir <- mkdtemp E ;;
  for_each (ExtractMsg.attachments msg) (msg_attachment temp_dir) email_data.

End Parsers.

(** ** [sorted] *)

(** [sorted(l, key=key)]: Python's sort is stable and compares keys with [<]
    only, which fixes its result; it is computed here by stable insertion.
    An element goes in front of the first one whose key is not smaller. *)
Section Sorted.

Context {A : Type} (key : A -> string).

Fixpoint insert_by_key (x : A) (l : list A) : list A :=
  match l with
  | [] => [x]
  | y :: r =>
      if String.ltb (key y) (key x) then y :: insert_by_key x r
      else x :: y :: r
  end.

Definition sorted (l : list A) : list A := foldr insert_by_key [] l.

End Sorted.

(** The sort key of step 3: [lambda x: x['filename'].lower()] *)
Definition sort_key (E : Env) (att : Attachment) : string :=
  str_lower E (filename att).

(** ** Conversion, merge, and the orchestrator *)

Section Orchestrator.

Context (E : Env).

(** Convert HTML to PDF using WeasyPrint *)
Definition convert_html_to_pdf (html_content output_path : string) : M unit :=
  write_pdf E html_content output_path.

Definition one_of (ext : string) (l : list string) : bool :=
  existsb (String.eqb ext) l.

(** The [try] block of [convert_attachment_to_pdf]: dispatch on the
    lower-cased extension. *)
Definition convert_attachment_try (attachment_path output_pdf_path : string)
    (filename ext : string) : M bool :=
  if one_of ext [".eml"; ".msg"] then
    nested_email <-
      (if String.eqb ext ".eml" then parse_eml_file E attachment_path
       else parse_msg_file E attachment_path) ;;
    html <- lift (create_gmail_html nested_email) ;;
    convert_html_to_pdf html output_pdf_path ;;;
    ret true
  else if String.eqb ext ".pdf" then
    copy E attachment_path output_pdf_path ;;;
    ret true
  else if one_of ext [".txt"; ".log"; ".csv"] then
    f <- read_file attachment_path ;;
    let content := decode_utf8_ignore E f in
    let html := Templates.text_template filename (Text.take 10000 content) in
    write_pdf E html output_pdf_path ;;;
    ret true
  else if one_of ext [".png"; ".jpg"; ".jpeg"; ".gif"; ".bmp"] then
    let html := Templates.image_template filename attachment_path in
    write_pdf E html output_pdf_path ;;;
    ret true
  else
    let html := Templates.unsupported_template filename ext in
    write_pdf E html output_pdf_path ;;;
    ret true.

(** The [except] block: the error placeholder, then [False]. *)
Definition convert_attachment_except (output_pdf_path filename : string) (e : exn)
    : M bool :=
  let html := Templates.error_template filename (Text.take 200 (str e)) in
  write_pdf E html output_pdf_path ;;;
  ret false.

(** Convert various file types to PDF *)
Definition convert_attachment_to_pdf (attachment_path output_pdf_path : string) : M bool :=
  let filename := Path.basename attachment_path in
  let ext := str_lower E (Path.splitext_ext filename) in
  try_except
    (convert_attachment_try attachment_path output_pdf_path filename ext)
    (convert_attachment_except output_pdf_path filename).

(** The contents of the listed paths that exist, in list order: what the
    loop of [merge_pdfs] appends. *)
Fixpoint existing (pdf_list : list string) (w : World) : list (list byte) :=
  match pdf_list with
  | [] => []
  | pdf_path :: r =>
      match files w !! pdf_path with
      | Some b => b :: existing r w
      | None => existing r w
      end
  end.

(** Merge multiple PDFs into one *)
Definition merge_pdfs (pdf_list : list string) (output_path : string) : M unit :=
  inputs <- (fun w => (Return (existing pdf_list w), w)) ;;
  merged <- lift (PdfMerger_merge E inputs) ;;
  write_file E output_path merged.

Definition unsupported_file_type (ext : string) : exn :=
  Exception ("Unsupported file type: " +:+ ext).

(** The magic number of a compound document. *)
Definition magic : list byte := [xd0; xcf; x11; xe0].

(** [b.startswith(prefix)] on bytes *)
Fixpoint startswith (prefix b : list byte) : bool :=
  match prefix, b with
  | [], _ => true
  | p :: ps, c :: cs => Byte.eqb p c && startswith ps cs
  | _ :: _, [] => false
  end.

(** Step 1, first half: the type from the extension, or from the first
    bytes when there is no extension. *)
Definition detect_type (email_file_path : string) : M string :=
  let ext := str_lower E (Path.splitext_ext email_file_path) in
  if Text.is_empty ext then
    f <- read_file email_file_path ;;
    let header := take 10 f in
    if startswith magic header then ret ".msg" else ret ".eml"
  else ret ext.

(** Step 1: parse the email with the parser of its type. *)
Definition step1_parse (email_file_path : string) : M EmailData :=
  ext <- detect_type email_file_path ;;
  if String.eqb ext ".eml" then parse_eml_file E email_file_path
  else if String.eqb ext ".msg" then parse_msg_file E email_file_path
  else raise (unsupported_file_type ext).

(** Step 2: the email page, as [00_email.pdf] in a fresh directory. *)
Definition step2_email_page (email_data : EmailData) : M (string * string) :=
  html <- lift (create_gmail_html email_data) ;;
  temp_dir <- mkdtemp E ;;
  let email_pdf_path := Path.join temp_dir "00_email.pdf" in
  convert_html_to_pdf html email_pdf_path ;;;
  ret (temp_dir, email_pdf_path).

Definition att_pdf_path (temp_dir : string) (idx : N) (att : Attachment) : string :=
  Path.join temp_dir (Text.format_02d idx +:+ "_" +:+ filename att +:+ ".pdf").

(** The loop of step 3 over [enumerate(sorted_attachments, start=idx)]. *)
Fixpoint convert_attachments (temp_dir : string) (idx : N)
    (sorted_attachments : list Attachment) (pdf_list : list string) : M (list string) :=
  match sorted_attachments with
  | [] => ret pdf_list
  | att :: r =>
      let att_pdf_path := att_pdf_path temp_dir idx att in
      converted <- convert_attachment_to_pdf (path att) att_pdf_path ;;
      convert_attachments temp_dir (idx + 1) r
        (if converted : bool then pdf_list ++ [att_pdf_path] else pdf_list)
  end.

(** Step 3: the list of PDFs to merge. *)
Definition step3_attachments (email_data : EmailData) (temp_dir email_pdf_path : string)
    : M (list string) :=
  let pdf_list := [email_pdf_path] in
  match attachments email_data with
  | [] => ret pdf_list
  | atts =>
      let sorted_attachments := sorted (sort_key E) atts in
      convert_attachments temp_dir 1 sorted_attachments pdf_list
  end.

(** Steps 1 to 3: the parsed email and the list handed to [merge_pdfs]. *)
Definition collect_pdfs (email_file_path : string) : M (EmailData * list string) :=
  email_data <- step1_parse email_file_path ;;
  dirs <- step2_email_page email_data ;;
  pdf_list <- step3_attachments email_data (fst dirs) (snd dirs) ;;
  ret (email_data, pdf_list).

(** Main function to process email and all attachments to PDF *)
Definition process_email_to_pdf (email_file_path output_pdf_path : string)
    : M ConversionResult :=
  collected <- collect_pdfs email_file_path ;;
  let email_data := fst collected in
  let pdf_list := snd collected in
  (* Step 4: Merge all PDFs *)
  merge_pdfs pdf_list output_pdf_path ;;;
  ret (mkConversionResult true output_pdf_path (subject email_data) (from email_data)
         (length (attachments email_data)) (length pdf_list)).

End Orchestrator.

(** ** The HTTP handlers of [main.py] *)

(** What a handler returns.  [JsonError] is
    [jsonify({'success': False, 'error': error}), status]; [JsonResult] is
    [jsonify(result), status] for a conversion result; [JsonConverted] is the
    success envelope of [/convert] (its [pdfBase64] field is the base64
    text of [pdf_data], kept here as the bytes); [SendFile] is the
    [send_file] response of [/convert/download]. *)
Inductive Response :=
| JsonError (status : nat) (error : string)
| JsonResult (status : nat) (result : ConversionResult)
| JsonConverted (pdf_data : list byte) (fileName emailSubject emailFrom : string)
    (attachmentCount totalPages fileSize : nat)
| SendFile (pdf_data : list byte) (download_name : string).

Section Handlers.

Context (E : Env).

Definition bytes_of (s : string) : list byte := String.list_byte_of_string s.

(** [not data] for the value of [request.get_json()]. *)
Definition no_data (data : option (gmap string string)) : bool :=
  match data with
  | None => true
  | Some d => bool_decide (d = ∅)
  end.

Definition data_get (data : option (gmap string string)) (k : string) : option string :=
  d ← data; d !! k.

Definition gdrive_url (gdrive_file_id : string) : string :=
  "https://drive.google.com/uc?export=download&id=" +:+ gdrive_file_id.

Definition html_page_error : string :=
  "Received HTML page instead of email file. Please ensure the file is publicly accessible and the URL is a direct download link.".

(** [header.startswith(b'<!DOCTYPE html>') or header.startswith(b'<html')] *)
Definition is_html_page (header : list byte) : bool :=
  startswith (bytes_of "<!DOCTYPE html>") header
  || startswith (bytes_of "<html") header.

(** [try: c  except: pass] *)
Definition best_effort (c : M unit) : M unit := try_except c (fun _ => ret tt).

(** [POST /convert] *)
Definition convert_email_to_pdf
    (get_json : outcome (option (gmap string string))) : M Response :=
  try_except
    (data <- lift get_json ;;
     if no_data data then ret (JsonError 400 "No JSON data provided")
     else
       let file_url := data_get data "fileUrl" in
       let gdrive_file_id := data_get data "googleDriveFileId" in
       if negb (truthy file_url) && negb (truthy gdrive_file_id) then
         ret (JsonError 400 "Either fileUrl or googleDriveFileId must be provided")
       else
         let file_url :=
           if truthy gdrive_file_id then gdrive_url (default "" gdrive_file_id)
           else default "" file_url in
         hex <- urandom_hex_ E 8 ;;
         let temp_email_path := Path.join (gettempdir E) ("email_" +:+ hex) in
         response <- lift (requests_get E file_url) ;;
         if negb (fst response =? 200) then
           ret (JsonError 400
                  ("Failed to download file: HTTP " +:+ Text.decimal (N.of_nat (fst response))))
         else
           write_file E temp_email_path (snd response) ;;;
           (* Check if we got HTML instead of the actual file *)
           f <- read_file temp_email_path ;;
           let header := take 100 f in
           if is_html_page header then
             unlink temp_email_path ;;;
             ret (JsonError 400 html_page_error)
           else
             (* Process the email *)
             hex <- urandom_hex_ E 8 ;;
             let output_pdf_path :=
               Path.join (gettempdir E) ("output_" +:+ hex +:+ ".pdf") in
             result <- process_email_to_pdf E temp_email_path output_pdf_path ;;
             if negb (success result) then
               best_effort (unlink temp_email_path) ;;;
               ret (JsonResult 500 result)
             else
               pdf_data <- read_file output_pdf_path ;;
               best_effort (unlink temp_email_path ;;; unlink output_pdf_path) ;;;
               hex <- urandom_hex_ E 4 ;;
               ret (JsonConverted pdf_data ("email_printout_" +:+ hex +:+ ".pdf")
                      (email_subject result) (email_from result)
                      (attachment_count result) (total_pages result)
                      (length pdf_data)))
    (fun e => ret (JsonError 500 (str e))).

(** [POST /convert/download] *)
Definition convert_and_download
    (get_json : outcome (option (gmap string string))) : M Response :=
  try_except
    (data <- lift get_json ;;
     if no_data data then ret (JsonError 400 "No JSON data provided")
     else
       let file_url := data_get data "fileUrl" in
       let gdrive_file_id := data_get data "googleDriveFileId" in
       if negb (truthy file_url) && negb (truthy gdrive_file_id) then
         ret (JsonError 400 "Either fileUrl or googleDriveFileId must be provided")
       else
         let file_url :=
           if truthy gdrive_file_id then gdrive_url (default "" gdrive_file_id)
           else default "" file_url in
         hex <- urandom_hex_ E 8 ;;
         let temp_email_path := Path.join (gettempdir E) ("email_" +:+ hex) in
         response <- lift (requests_get E file_url) ;;
         if negb (fst response =? 200) then
           ret (JsonError 400
                  ("Failed to download file: HTTP " +:+ Text.decimal (N.of_nat (fst response))))
         else
           write_file E temp_email_path (snd response) ;;;
           (* Process the email *)
           hex <- urandom_hex_ E 8 ;;
           let output_pdf_path :=
             Path.join (gettempdir E) ("output_" +:+ hex +:+ ".pdf") in
           result <- process_email_to_pdf E temp_email_path output_pdf_path ;;
           if negb (success result) then
             best_effort (unlink temp_email_path) ;;;
             ret (JsonResult 500 result)
           else
             (* Return the PDF file *)
             pdf_data <- read_file output_pdf_path ;;
             ret (SendFile pdf_data "email_printout.pdf"))
    (fun e => ret (JsonError 500 (str e))).

End Handlers.

(** ** The command line of [email_processor.py] *)

(** The script run as a program: the exit status.  With fewer than two
    arguments it prints the usage and exits with 1; otherwise it converts
    [argv[1]] to [argv[2]], and exits with 1 when the conversion raises.
    The result it prints on success is not modelled. *)
Definition main (E : Env) (argv : list string) (w : World) : nat * World :=
  if length argv <? 3 then (1, w)
  else
    let email_file := default "" (argv !! 1) in
    let output_pdf := default "" (argv !! 2) in
    match process_email_to_pdf E email_file output_pdf w with
    | (Return result, w') => (0, w')
    | (Raise e, w') => (1, w')
    end.

(** ** A concrete environment, for running the program *)

Module Run.

Definition bytes (s : string) : list byte := String.list_byte_of_string s.

(** A message as the parser gives it for a file without MIME structure:
    no headers, one text body holding the file's text. *)
Definition plain_message (f : list byte) : Mime.Message :=
  Mime.mkMessage (fun _ => None) false []
    (Return (Str (String.string_of_list_byte f))).

(** Headers of the multipart examples. *)
Definition headers (name : string) : option string :=
  if String.eqb name "From" then Some "alice@example.org"
  else if String.eqb name "To" then Some "bob@example.org"
  else if String.eqb name "Subject" then Some "Report"
  else if String.eqb name "Date" then Some "Mon, 2 Jan 2023 10:00:00 +0000"
  else None.

Definition root_part : Mime.Part :=
  Mime.mkPart "multipart/mixed" "" None None
    (Raise (Exception "multipart content")).

Definition text_part (content : string) : Mime.Part :=
  Mime.mkPart "text/plain" "" None (Some (bytes content)) (Return content).

Definition html_part (content : string) : Mime.Part :=
  Mime.mkPart "text/html" "" None (Some (bytes content)) (Return content).

Definition file_part (name : string) (payload : string) : Mime.Part :=
  Mime.mkPart "application/octet-stream"
    ("attachment; filename=" +:+ name) (Some name) (Some (bytes payload))
    (Raise (Exception "binary content")).

Definition multipart (parts : list Mime.Part) : Mime.Message :=
  Mime.mkMessage headers true (root_part :: parts)
    (Raise (Exception "multipart content")).

(** Lower-casing for the examples: the ASCII letters, and the capital
    letters of the Latin-1 supplement ([U+00C0] to [U+00DE] without the
    multiplication sign), which UTF-8 writes as the byte 195 followed by a
    byte from 128 to 158 and whose small letters lie 32 further. *)
Definition lower_latin1 (d : ascii) : ascii :=
  let n := N_of_ascii d in
  if ((128 <=? n) && (n <=? 158) && negb (n =? 151))%N then ascii_of_N (n + 32) else d.

Fixpoint lower (s : string) : string :=
  match s with
  | EmptyString => EmptyString
  | String c r =>
      if (N_of_ascii c =? 195)%N then
        match r with
        | String d r' => String c (String (lower_latin1 d) (lower r'))
        | EmptyString => String c EmptyString
        end
      else String (Text.lower_char c) (lower r)
  end.

Definition lower_is_lower_ascii (s : string) :
  Text.is_ascii s = true -> lower s = Text.lower_ascii s.
Proof.
  induction s as [|c r IH]; [reflexivity|].
  cbn [Text.is_ascii]. intros [Hc Hr]%andb_true_iff.
  apply N.ltb_lt in Hc.
  cbn [lower Text.lower_ascii].
  destruct (N.eqb_spec (N_of_ascii c) 195) as [Heq|_]; [lia|].
  rewrite (IH Hr). reflexivity.
Qed.

(** The environment: the MIME parser answers [msg] when it is given one and
    reads the file as a plain message otherwise; the .msg decoder accepts
    only files that start with the compound-document magic number; the
    renderer and the merger always succeed. *)
Definition env (msg : option Mime.Message) : Env :=
  mkEnv
    (fun f => Return (default (plain_message f) msg))
    (fun f =>
       if startswith magic f
       then Return (ExtractMsg.mkMessage (Some "carol@example.org") None None
                      (Some "Legacy") None (Some "msg body") None [])
       else Raise (Exception "not a compound document"))
    (fun html => Return (bytes html))
    (fun inputs => Return (concat inputs))
    (fun n => "/tmp/tmp" +:+ Text.decimal (N.of_nat n))
    (fun _ => true)
    String.string_of_list_byte
    lower lower_is_lower_ascii
    "/tmp"
    (fun k n => "r" +:+ Text.decimal (N.of_nat n))
    (fun url =>
       if String.eqb url "https://example.org/login"
       then Return (200, bytes "<html><body>Sign in</body></html>")
       else Return (200, bytes "hello")).

(** A world with one file. *)
Definition world (path : string) (content : list byte) : World :=
  mkWorld {[ path := content ]} 0 0.

End Run.

(** * Properties *)

(** ** The monad *)

Lemma bind_Return {A B} (c : M A) (k : A -> M B) w a w' :
  c w = (Return a, w') -> bind c k w = k a w'.
Proof. unfold bind. intros ->. reflexivity. Qed.

Lemma bind_Raise {A B} (c : M A) (k : A -> M B) w e w' :
  c w = (Raise e, w') -> bind c k w = (Raise e, w').
Proof. unfold bind. intros ->. reflexivity. Qed.

Lemma bind_inv {A B} (c : M A) (k : A -> M B) w b w2 :
  bind c k w = (Return b, w2) ->
  exists a w1, c w = (Return a, w1) /\ k a w1 = (Return b, w2).
Proof.
  unfold bind. destruct (c w) as [[a|e] w1]; intros H.
  - exists a, w1. split; [reflexivity | exact H].
  - discriminate H.
Qed.

Lemma try_except_Return {A} (c : M A) h w a w' :
  c w = (Return a, w') -> try_except c h w = (Return a, w').
Proof. unfold try_except. intros ->. reflexivity. Qed.

Lemma try_except_Raise {A} (c : M A) h w e w' :
  c w = (Raise e, w') -> try_except c h w = h e w'.
Proof. unfold try_except. intros ->. reflexivity. Qed.

Lemma lift_inv {A} (o : outcome A) w a w' :
  lift o w = (Return a, w') -> o = Return a /\ w' = w.
Proof. unfold lift. intros H. injection H as -> ->. by split. Qed.

(** ** Lower-casing *)

Lemma str_lower_empty (E : Env) : str_lower E "" = "".
Proof. by rewrite str_lower_ascii. Qed.

(** ** Type detection *)

Lemma byte_eqb_decide (a b : byte) : Byte.eqb a b = bool_decide (a = b).
Proof.
  destruct (Byte.eqb a b) eqn:H.
  - apply Byte.byte_dec_bl in H. subst. by rewrite bool_decide_eq_true_2.
  - rewrite bool_decide_eq_false_2; [done|].
    intros ->. by rewrite Byte.byte_dec_lb in H.
Qed.

Lemma startswith_magic (f : list byte) :
  startswith magic (take 10 f) = bool_decide (take 4 f = magic).
Proof.
  unfold magic.
  destruct f as [|a [|b [|c [|d r]]]]; simpl; rewrite ?byte_eqb_decide;
    repeat case_bool_decide; simplify_eq; simpl; done.
Qed.

(** C3: an input path without extension is parsed as .msg exactly when the
    first four bytes of the file are D0 CF 11 E0, and as .eml otherwise. *)
Theorem C3_extensionless_detection (E : Env) (path : string) (w : World) (f : list byte) :
  Path.splitext_ext path = "" ->
  files w !! path = Some f ->
  magic = [xd0; xcf; x11; xe0] /\
  step1_parse E path w =
    if bool_decide (take 4 f = magic)
    then parse_msg_file E path w
    else parse_eml_file E path w.
Proof.
  intros Hext Hf. split; [reflexivity|].
  unfold step1_parse, detect_type. rewrite Hext, str_lower_empty.
  cbn [Text.is_empty].
  rewrite <- startswith_magic.
  unfold bind at 1. unfold bind at 1. unfold read_file at 1. rewrite Hf.
  destruct (startswith magic (take 10 f)); reflexivity.
Qed.

Lemma C3_extensionless_detection_witness :
  step1_parse (Run.env None) "/tmp/email_r0"
    (Run.world "/tmp/email_r0" (magic ++ Run.bytes "rest")) =
  parse_msg_file (Run.env None) "/tmp/email_r0"
    (Run.world "/tmp/email_r0" (magic ++ Run.bytes "rest")).
Proof.
  exact (proj2 (C3_extensionless_detection (Run.env None) "/tmp/email_r0"
           (Run.world "/tmp/email_r0" (magic ++ Run.bytes "rest"))
           (magic ++ Run.bytes "rest") eq_refl eq_refl)).
Defined.

(** ** The success flag *)

Lemma process_email_to_pdf_success (E : Env) path out w r w' :
  process_email_to_pdf E path out w = (Return r, w') -> success r = true.
Proof.
  unfold process_email_to_pdf. intros H.
  apply bind_inv in H as (collected & w1 & _ & H).
  apply bind_inv in H as (u & w2 & _ & H).
  unfold ret in H. injection H as <- _. reflexivity.
Qed.

(** [never bad c]: the computation [c] does not return [bad]. *)
Definition never {A} (bad : A) (c : M A) : Prop :=
  forall w, fst (c w) <> Return bad.

Section Never.

Context {A : Type} (bad : A).

Lemma never_ret (a : A) : a <> bad -> never bad (ret a).
Proof. intros H w. cbn. congruence. Qed.

Lemma never_bind {B} (c : M B) (k : B -> M A) :
  (forall b, never bad (k b)) -> never bad (bind c k).
Proof.
  intros H w. unfold bind. destruct (c w) as [[b|e] w'].
  - apply H.
  - cbn. discriminate.
Qed.

Lemma never_try_except (c : M A) (h : exn -> M A) :
  never bad c -> (forall e, never bad (h e)) -> never bad (try_except c h).
Proof.
  intros Hc Hh w. unfold try_except. specialize (Hc w).
  destruct (c w) as [[a|e] w']; [exact Hc | apply Hh].
Qed.

Lemma never_if (b : bool) (c1 c2 : M A) :
  never bad c1 -> never bad c2 -> never bad (if b then c1 else c2).
Proof. destruct b; auto. Qed.

(** After [process_email_to_pdf], only the continuation for a result with
    the flag set matters. *)
Lemma never_bind_process (E : Env) path out (k : ConversionResult -> M A) :
  (forall r, success r = true -> never bad (k r)) ->
  never bad (bind (process_email_to_pdf E path out) k).
Proof.
  intros H w. unfold bind.
  destruct (process_email_to_pdf E path out w) as [[r|e] w'] eqn:Hp.
  - apply H. exact (process_email_to_pdf_success _ _ _ _ _ _ Hp).
  - cbn. discriminate.
Qed.

End Never.

Ltac never_step :=
  first
    [ apply never_try_except; [|intros ?]
    | apply never_bind_process; intros ? ->; cbn [negb]
    | apply never_bind; intros ?
    | apply never_if
    | apply never_ret; discriminate ].

Lemma convert_email_to_pdf_not_result (E : Env) get_json w status result :
  fst (convert_email_to_pdf E get_json w) <> Return (JsonResult status result).
Proof.
  revert w. change (never (JsonResult status result) (convert_email_to_pdf E get_json)).
  unfold convert_email_to_pdf. repeat never_step.
Qed.

Lemma convert_and_download_not_result (E : Env) get_json w status result :
  fst (convert_and_download E get_json w) <> Return (JsonResult status result).
Proof.
  revert w. change (never (JsonResult status result) (convert_and_download E get_json)).
  unfold convert_and_download. repeat never_step.
Qed.

(** C10: [process_email_to_pdf] raises or returns a result whose success flag
    is [True]; neither handler ever answers with [jsonify(result), 500], the
    response of the branch taken when the flag is [False]. *)
Theorem C10_success_always_true (E : Env) (path out : string) (w : World) :
  match fst (process_email_to_pdf E path out w) with
  | Return result => success result = true
  | Raise _ => True
  end /\
  (forall get_json w0 status result,
     fst (convert_email_to_pdf E get_json w0) <> Return (JsonResult status result)) /\
  (forall get_json w0 status result,
     fst (convert_and_download E get_json w0) <> Return (JsonResult status result)).
Proof.
  split; [|split].
  - destruct (process_email_to_pdf E path out w) as [[r|e] w'] eqn:H; [|exact I].
    exact (process_email_to_pdf_success _ _ _ _ _ _ H).
  - intros. apply convert_email_to_pdf_not_result.
  - intros. apply convert_and_download_not_result.
Qed.

(** ** Writing files *)

Lemma write_file_ok (E : Env) path b w :
  can_create E path = true ->
  write_file E path b w = (Return tt, set_file path b w).
Proof.
  intros H. unfold write_file, bind, open_wb, f_write. rewrite H.
  unfold set_file. cbn. by rewrite insert_insert_eq.
Qed.

Lemma write_pdf_ok (E : Env) html path pdf w :
  weasyprint_render E html = Return pdf ->
  can_create E path = true ->
  write_pdf E html path w = (Return tt, set_file path pdf w).
Proof.
  intros Hr Hc. unfold write_pdf, bind, lift. rewrite Hr.
  by apply write_file_ok.
Qed.

Lemma write_pdf_inv (E : Env) html path w u w' :
  write_pdf E html path w = (Return u, w') ->
  exists pdf, weasyprint_render E html = Return pdf /\
              can_create E path = true /\ w' = set_file path pdf w.
Proof.
  unfold write_pdf, bind, lift, write_file, bind, open_wb, f_write.
  destruct (weasyprint_render E html) as [pdf|e]; [|discriminate].
  destruct (can_create E path); [|discriminate].
  intros H. injection H as _ <-. exists pdf. repeat split.
  unfold set_file. cbn. by rewrite insert_insert_eq.
Qed.

Lemma files_set_file path b w : files (set_file path b w) !! path = Some b.
Proof. unfold set_file. cbn. apply lookup_insert_eq. Qed.

Lemma merge_pdfs_inv (E : Env) pdf_list out w u w' :
  merge_pdfs E pdf_list out w = (Return u, w') ->
  exists merged,
    PdfMerger_merge E (existing pdf_list w) = Return merged /\
    w' = set_file out merged w.
Proof.
  unfold merge_pdfs. unfold bind at 1. unfold bind at 1, lift.
  destruct (PdfMerger_merge E (existing pdf_list w)) as [merged|e]; [|discriminate].
  unfold write_file, bind, open_wb, f_write.
  destruct (can_create E out); [|discriminate].
  intros H. injection H as _ <-. exists merged. split; [reflexivity|].
  unfold set_file. cbn. by rewrite insert_insert_eq.
Qed.

(** ** A message without attachments *)

Section NoAttachments.

Context (E : Env) (path out : string) (w w1 : World) (ed : EmailData).
Hypothesis Hparse : step1_parse E path w = (Return ed, w1).
Hypothesis Hnone : attachments ed = [].

Let temp_dir := mkdtemp_name E (temp_count w1).
Let email_pdf_path := Path.join temp_dir "00_email.pdf".

Lemma collect_pdfs_no_attachments pdf_list ed' w' :
  collect_pdfs E path w = (Return (ed', pdf_list), w') ->
  ed' = ed /\ pdf_list = [email_pdf_path] /\
  exists html page,
    create_gmail_html ed = Return html /\
    weasyprint_render E html = Return page /\
    files w' !! email_pdf_path = Some page.
Proof.
  unfold collect_pdfs. rewrite (bind_Return _ _ _ _ _ Hparse). intros H.
  apply bind_inv in H as ([td epp] & w2 & H2 & H).
  unfold step2_email_page in H2.
  apply bind_inv in H2 as (html & w0 & Hhtml & H2).
  apply lift_inv in Hhtml as [Hhtml ->].
  unfold mkdtemp in H2. unfold bind at 1 in H2.
  apply bind_inv in H2 as (u & w3 & Hw & H2).
  unfold ret in H2. injection H2 as <- <- <-.
  apply write_pdf_inv in Hw as (page & Hr & _ & ->).
  unfold step3_attachments in H. rewrite Hnone in H. cbn in H.
  injection H as <- <- <-. repeat split.
  exists html, page. split; [exact Hhtml | split; [exact Hr | apply files_set_file]].
Qed.

Lemma process_no_attachments_result r w' :
  process_email_to_pdf E path out w = (Return r, w') ->
  total_pages r = 1 /\ attachment_count r = 0 /\
  exists html page merged,
    create_gmail_html ed = Return html /\
    weasyprint_render E html = Return page /\
    PdfMerger_merge E [page] = Return merged /\
    files w' !! out = Some merged.
Proof.
  unfold process_email_to_pdf. intros H.
  apply bind_inv in H as ([ed' pl] & w2 & Hc & H).
  apply collect_pdfs_no_attachments in Hc as (-> & -> & html & page & Hhtml & Hr & Hpage).
  apply bind_inv in H as (u & w3 & Hm & H).
  unfold ret in H. injection H as <- <-. cbn [fst snd] in *.
  apply merge_pdfs_inv in Hm as (merged & Hm & ->).
  cbn [existing] in Hm. rewrite Hpage in Hm.
  rewrite Hnone. repeat split.
  exists html, page, merged.
  repeat split; [exact Hhtml | exact Hr | exact Hm | apply files_set_file].
Qed.

Lemma process_no_attachments_returns html page merged :
  create_gmail_html ed = Return html ->
  weasyprint_render E html = Return page ->
  can_create E email_pdf_path = true ->
  PdfMerger_merge E [page] = Return merged ->
  can_create E out = true ->
  exists w',
    process_email_to_pdf E path out w =
      (Return (mkConversionResult true out (subject ed) (from ed) 0 1), w') /\
    files w' !! out = Some merged.
Proof.
  intros Hhtml Hr Hc Hm Hout.
  set (w2 := set_file email_pdf_path page
               (mkWorld (files w1) (S (temp_count w1)) (random_count w1))).
  assert (Hpage : step2_email_page E ed w1 = (Return (temp_dir, email_pdf_path), w2)).
  { unfold step2_email_page. rewrite Hhtml. unfold bind at 1, lift.
    unfold mkdtemp, convert_html_to_pdf. unfold bind at 1.
    erewrite bind_Return by (apply write_pdf_ok; [exact Hr | exact Hc]).
    reflexivity. }
  assert (Hcollect : collect_pdfs E path w = (Return (ed, [email_pdf_path]), w2)).
  { unfold collect_pdfs. rewrite (bind_Return _ _ _ _ _ Hparse).
    rewrite (bind_Return _ _ _ _ _ Hpage). cbn [fst snd].
    unfold step3_attachments. rewrite Hnone. reflexivity. }
  exists (set_file out merged w2).
  unfold process_email_to_pdf. rewrite (bind_Return _ _ _ _ _ Hcollect).
  cbn [fst snd].
  assert (Hmerge : merge_pdfs E [email_pdf_path] out w2 =
                   (Return tt, set_file out merged w2)).
  { unfold merge_pdfs. unfold bind at 1. cbn [existing].
    unfold w2 at 1. rewrite files_set_file.
    unfold bind at 1, lift. rewrite Hm. by apply write_file_ok. }
  rewrite (bind_Return _ _ _ _ _ Hmerge). unfold ret. rewrite Hnone.
  split; [reflexivity | apply files_set_file].
Qed.

End NoAttachments.

(** C7: when the parsed message has no attachment, the merged output is
    built from exactly one input, the rendered email page, and the result
    reports one page and no attachment.  The first part covers every run
    that returns; the second shows that the run does return when the
    renderer, the merger and the two file creations succeed. *)
Theorem C7_zero_attachments (E : Env) (path out : string) (w w1 : World) (ed : EmailData) :
  step1_parse E path w = (Return ed, w1) ->
  attachments ed = [] ->
  (forall r w',
     process_email_to_pdf E path out w = (Return r, w') ->
     total_pages r = 1 /\ attachment_count r = 0 /\
     exists html page merged,
       create_gmail_html ed = Return html /\
       weasyprint_render E html = Return page /\
       PdfMerger_merge E [page] = Return merged /\
       files w' !! out = Some merged) /\
  (forall html page merged,
     create_gmail_html ed = Return html ->
     weasyprint_render E html = Return page ->
     can_create E (Path.join (mkdtemp_name E (temp_count w1)) "00_email.pdf") = true ->
     PdfMerger_merge E [page] = Return merged ->
     can_create E out = true ->
     exists w',
       process_email_to_pdf E path out w =
         (Return (mkConversionResult true out (subject ed) (from ed) 0 1), w') /\
       files w' !! out = Some merged).
Proof.
  intros Hparse Hnone. split.
  - intros r w'. by apply process_no_attachments_result with (w1 := w1).
  - intros html page merged. by apply process_no_attachments_returns.
Qed.

Lemma C7_zero_attachments_witness :
  exists w',
    process_email_to_pdf (Run.env None) "/in/mail.eml" "/out/mail.pdf"
      (Run.world "/in/mail.eml" (Run.bytes "Hello")) =
      (Return (mkConversionResult true "/out/mail.pdf" "" "" 0 1), w') /\
    files w' !! "/out/mail.pdf" =
      Some (Run.bytes
              (gmail_page (mkEmailData "" "" "" "" "" (Str "Hello") (Str "") []) "Hello")).
Proof.
  refine (proj2 (C7_zero_attachments (Run.env None) "/in/mail.eml" "/out/mail.pdf"
                   (Run.world "/in/mail.eml" (Run.bytes "Hello"))
                   (Run.world "/in/mail.eml" (Run.bytes "Hello"))
                   (mkEmailData "" "" "" "" "" (Str "Hello") (Str "") [])
                   _ _)
            (gmail_page (mkEmailData "" "" "" "" "" (Str "Hello") (Str "") []) "Hello")
            (Run.bytes
               (gmail_page (mkEmailData "" "" "" "" "" (Str "Hello") (Str "") []) "Hello"))
            (Run.bytes
               (gmail_page (mkEmailData "" "" "" "" "" (Str "Hello") (Str "") []) "Hello"))
            _ _ _ _ _);
    vm_compute; reflexivity.
Defined.

(** ** Strings *)

Lemma append_assoc (a b c : string) : (a +:+ b) +:+ c = a +:+ (b +:+ c).
Proof.
  induction a as [|x a IH]; [reflexivity|].
  change (String x ((a +:+ b) +:+ c) = String x (a +:+ (b +:+ c))).
  by rewrite IH.
Qed.

Lemma append_nil_r (a : string) : a +:+ "" = a.
Proof.
  induction a as [|x a IH]; [reflexivity|].
  change (String x (a +:+ "") = String x a). by rewrite IH.
Qed.

Lemma replace_app old new (a b : string) :
  Text.replace old new (a +:+ b) = Text.replace old new a +:+ Text.replace old new b.
Proof.
  induction a as [|x a IH]; [reflexivity|].
  change (String x a +:+ b) with (String x (a +:+ b)).
  cbn [Text.replace]. rewrite IH.
  destruct (Ascii.eqb x old); [symmetry; apply append_assoc | reflexivity].
Qed.

(** ** Escaping of the body *)

(** What the text of the body block is meant to be, character by character:
    the entity for each of the three characters, every other character
    itself. *)
Definition entity (c : ascii) : string :=
  if Ascii.eqb c "&" then "&amp;"
  else if Ascii.eqb c "<" then "&lt;"
  else if Ascii.eqb c ">" then "&gt;"
  else String c "".

Fixpoint escape_chars (s : string) : string :=
  match s with
  | EmptyString => EmptyString
  | String c r => entity c +:+ escape_chars r
  end.

Lemma escape_body_chars (s : string) : Html.escape_body s = escape_chars s.
Proof.
  unfold Html.escape_body. induction s as [|c r IH]; [reflexivity|].
  cbn [escape_chars Text.replace]. unfold entity. rewrite <- IH.
  destruct (Ascii.eqb_spec c "&") as [->|Hamp].
  { rewrite !replace_app. reflexivity. }
  cbn [Text.replace].
  destruct (Ascii.eqb_spec c "<") as [->|Hlt].
  { rewrite !replace_app. reflexivity. }
  cbn [Text.replace].
  destruct (Ascii.eqb_spec c ">") as [->|Hgt]; reflexivity.
Qed.


(** The body as the claim words it, for a plain text [text] and an HTML
    body [html]: the text, or the tag-stripped HTML body when the text is
    empty. *)
Definition claimed_body (text html : string) : string :=
  if Text.is_empty text then Re.sub_tags html else text.

(** The same with the fallback of the code when that gives nothing. *)
Definition amended_body (text html : string) : string :=
  Text.or_else (claimed_body text html) "No content".

Lemma body_content_amended (ed : EmailData) (text html : string) :
  body_text ed = Str text -> body_html ed = Str html ->
  body_content ed = Return (Str (amended_body text html)).
Proof.
  unfold body_content, amended_body, claimed_body. intros -> ->.
  destruct text as [|c r]; cbn; [|reflexivity].
  destruct html as [|c r]; [reflexivity|].
  cbn [Text.is_empty negb]. cbv beta iota. unfold Text.or_else, is_true.
  by destruct (Re.sub_tags (String c r)).
Qed.

Lemma create_gmail_html_text (ed : EmailData) (text html : string) :
  body_text ed = Str text -> body_html ed = Str html ->
  create_gmail_html ed =
    Return (gmail_page ed (Html.escape_body (amended_body text html))).
Proof.
  intros Ht Hh. unfold create_gmail_html.
  by rewrite (body_content_amended ed text html Ht Hh).
Qed.

Lemma create_gmail_html_inv (ed : EmailData) (page : string) :
  create_gmail_html ed = Return page ->
  exists body, body_content ed = Return (Str body) /\
               page = gmail_page ed (Html.escape_body body).
Proof.
  unfold create_gmail_html.
  destruct (body_content ed) as [[body|b]|e]; cbn; intros H; try discriminate H.
  injection H as <-. by exists body.
Qed.




(** ** The page depends on names and sizes of the attachments only *)

(** What the renderer reads of an attachment. *)
Definition shown (att : Attachment) : string * N := (filename att, size att).

Lemma attachment_item_shown (a b : Attachment) :
  shown a = shown b -> Html.attachment_item a = Html.attachment_item b.
Proof.
  unfold shown, Html.attachment_item. intros H. injection H as -> ->. reflexivity.
Qed.

Lemma fold_items_shown (l1 l2 : list Attachment) (acc : string) :
  map shown l1 = map shown l2 ->
  fold_left (fun acc att => acc +:+ Html.attachment_item att) l1 acc =
  fold_left (fun acc att => acc +:+ Html.attachment_item att) l2 acc.
Proof.
  revert l2 acc. induction l1 as [|a l1 IH]; intros [|b l2] acc H;
    try discriminate H; [reflexivity|].
  cbn [map] in H. apply (inj2 cons) in H as [Hab Hl]. cbn [fold_left].
  rewrite (attachment_item_shown a b Hab). by apply IH.
Qed.

Lemma attachments_html_shown (ed1 ed2 : EmailData) :
  map shown (attachments ed1) = map shown (attachments ed2) ->
  attachments_html ed1 = attachments_html ed2.
Proof.
  unfold attachments_html. intros H.
  destruct (attachments ed1) as [|a l1] eqn:H1, (attachments ed2) as [|b l2] eqn:H2;
    try discriminate H; [reflexivity|].
  by rewrite (fold_items_shown _ _ _ H).
Qed.

(** C8: two records with the same headers, the same bodies and the same
    attachment names and sizes render to the same page, whatever the
    temporary paths (and content types) their attachment entries hold. *)
Theorem C8_render_deterministic (ed1 ed2 : EmailData) :
  from ed1 = from ed2 ->
  to ed1 = to ed2 ->
  cc ed1 = cc ed2 ->
  subject ed1 = subject ed2 ->
  date ed1 = date ed2 ->
  body_text ed1 = body_text ed2 ->
  body_html ed1 = body_html ed2 ->
  map shown (attachments ed1) = map shown (attachments ed2) ->
  create_gmail_html ed1 = create_gmail_html ed2.
Proof.
  intros Hfrom Hto Hcc Hsubject Hdate Htext Hhtml Hatts.
  unfold create_gmail_html, body_content, gmail_page, Html.cc_row.
  rewrite (attachments_html_shown _ _ Hatts).
  by rewrite Hfrom, Hto, Hcc, Hsubject, Hdate, Htext, Hhtml.
Qed.

Lemma C8_render_deterministic_witness :
  create_gmail_html
    (mkEmailData "alice@example.org" "bob@example.org" "" "Report" "today"
       (Str "See file") (Str "")
       [mkAttachment "a.txt" "/tmp/tmpk3x9/a.txt" "text/plain" 1536]) =
  create_gmail_html
    (mkEmailData "alice@example.org" "bob@example.org" "" "Report" "today"
       (Str "See file") (Str "")
       [mkAttachment "a.txt" "/tmp/tmpq81z/a.txt" "text/plain" 1536]).
Proof.
  apply C8_render_deterministic; reflexivity.
Defined.

(** ** Where the headers and the file names land in the page *)

(** [s] occurs in [t]. *)
Definition occurs_in (s t : string) : Prop := exists a b, t = a +:+ s +:+ b.

Lemma occurs_in_app_r (a s t : string) : occurs_in s t -> occurs_in s (a +:+ t).
Proof.
  intros (x & y & ->). exists (a +:+ x), y. by rewrite append_assoc.
Qed.

Lemma occurs_in_app_l (b s t : string) : occurs_in s t -> occurs_in s (t +:+ b).
Proof.
  intros (x & y & ->). exists x, (y +:+ b). by rewrite !append_assoc.
Qed.

Lemma occurs_in_refl (s : string) : occurs_in s s.
Proof. exists "", "". by rewrite append_nil_r. Qed.

Lemma occurs_in_trans (s t u : string) :
  occurs_in s t -> occurs_in t u -> occurs_in s u.
Proof.
  intros Hst (x & y & ->). by apply occurs_in_app_r, occurs_in_app_l.
Qed.

Lemma fold_items_acc (l : list Attachment) (acc s : string) :
  occurs_in s acc ->
  occurs_in s (fold_left (fun acc att => acc +:+ Html.attachment_item att) l acc).
Proof.
  revert acc. induction l as [|a l IH]; intros acc H; [exact H|].
  cbn [fold_left]. by apply IH, occurs_in_app_l.
Qed.

Lemma fold_items_occurs (l : list Attachment) (acc : string) :
  Forall (fun att =>
            occurs_in (Html.attachment_item att)
              (fold_left (fun acc att => acc +:+ Html.attachment_item att) l acc)) l.
Proof.
  revert acc. induction l as [|a l IH]; intros acc; constructor.
  - cbn [fold_left]. apply fold_items_acc, occurs_in_app_r, occurs_in_refl.
  - apply IH.
Qed.

Lemma attachments_html_occurs (ed : EmailData) :
  Forall (fun att => occurs_in (Html.attachment_item att) (attachments_html ed))
    (attachments ed).
Proof.
  unfold attachments_html. destruct (attachments ed) as [|a l] eqn:H; [constructor|].
  eapply Forall_impl;
    [exact (fold_items_occurs (a :: l)
              (Html.div "email-attachments" +:+
               Html.div "attachments-title" +:+ "Attachments</div>"))|].
  intros att Hatt. apply occurs_in_app_l, Hatt.
Qed.

(** Cut a concatenation at the piece [v]: the pieces before the one in front
    of [v], that piece, and what follows [v]. *)
Ltac cut_value v t :=
  lazymatch t with
  | ?m +:+ (v +:+ ?r) => constr:(("", m, r))
  | ?a +:+ ?r =>
      let p := cut_value v r in
      lazymatch p with
      | (?pre, ?m, ?post) => constr:((a +:+ pre, m, post))
      end
  end.

(** [v] occurs in the page between the piece in front of it and the first
    [n] characters of the text that follows it. *)
Ltac page_occurrence v n :=
  unfold gmail_page; cbv zeta;
  lazymatch goal with
  | |- occurs_in _ ?t =>
      let p := cut_value v t in
      lazymatch p with
      | (?pre, ?m, ?lit +:+ ?rest) =>
          let tail := eval vm_compute in (String.substring n (String.length lit) lit) in
          exists pre, (tail +:+ rest)
      end
  end;
  rewrite !append_assoc; reflexivity.

Lemma subject_occurs (ed : EmailData) (body : string) :
  occurs_in (Html.div "email-subject" +:+ subject ed +:+ "</div>") (gmail_page ed body).
Proof. page_occurrence (subject ed) 6. Qed.

Lemma from_occurs (ed : EmailData) (body : string) :
  occurs_in (Html.span "email-meta-value" +:+ from ed +:+ "</span>") (gmail_page ed body).
Proof. page_occurrence (from ed) 7. Qed.

Lemma to_occurs (ed : EmailData) (body : string) :
  occurs_in (Html.span "email-meta-value" +:+ to ed +:+ "</span>") (gmail_page ed body).
Proof. page_occurrence (to ed) 7. Qed.

Lemma date_occurs (ed : EmailData) (body : string) :
  occurs_in (Html.span "email-meta-value" +:+ date ed +:+ "</span>") (gmail_page ed body).
Proof. page_occurrence (date ed) 7. Qed.

(** The piece [v] itself occurs in the page. *)
Ltac page_piece v :=
  unfold gmail_page; cbv zeta;
  lazymatch goal with
  | |- occurs_in _ ?t =>
      let p := cut_value v t in
      lazymatch p with
      | (?pre, ?m, ?post) => exists (pre +:+ m), post
      end
  end;
  rewrite !append_assoc; reflexivity.

Lemma cc_row_occurs (ed : EmailData) (body : string) :
  occurs_in (Html.cc_row ed) (gmail_page ed body).
Proof. page_piece (Html.cc_row ed). Qed.

Lemma attachments_html_in_page (ed : EmailData) (body : string) :
  occurs_in (attachments_html ed) (gmail_page ed body).
Proof. page_piece (attachments_html ed). Qed.

Lemma body_occurs (ed : EmailData) (body : string) :
  occurs_in (Html.div "email-body" +:+ body +:+ "</div>") (gmail_page ed body).
Proof. page_occurrence body 6. Qed.

Lemma occurs_in_contains (s t : string) :
  occurs_in s t -> Text.contains s t = true.
Proof.
  intros (a & b & ->). induction a as [|c a IH].
  - change ("" +:+ s +:+ b) with (s +:+ b).
    assert (Hp : String.prefix s (s +:+ b) = true).
    { clear. induction s as [|c s IH]; [by destruct b|].
      change (String c s +:+ b) with (String c (s +:+ b)). cbn.
      destruct (ascii_dec c c); [exact IH | contradiction]. }
    destruct (s +:+ b); cbn [Text.contains]; by rewrite Hp.
  - change (String c a +:+ s +:+ b) with (String c (a +:+ s +:+ b)).
    cbn [Text.contains]. rewrite IH. apply orb_true_r.
Qed.

(** C9: the subject, the sender, the recipients, the date, the Cc value
    (when the row is shown) and every attachment name stand in the page
    exactly as they are in the record, between fixed tags; only the body
    passes through the escaping.  This holds of every page the renderer
    returns, and it returns one whenever the two body fields hold text.
    So markup in a header or in a file name reaches the page unescaped, as
    the record of the last part shows. *)
Theorem C9_headers_verbatim :
  (forall (ed : EmailData) (page : string),
     create_gmail_html ed = Return page ->
     occurs_in (Html.div "email-subject" +:+ subject ed +:+ "</div>") page /\
     occurs_in (Html.span "email-meta-value" +:+ from ed +:+ "</span>") page /\
     occurs_in (Html.span "email-meta-value" +:+ to ed +:+ "</span>") page /\
     occurs_in (Html.span "email-meta-value" +:+ date ed +:+ "</span>") page /\
     occurs_in (if Text.is_empty (cc ed) then ""
                else Html.span "email-meta-value" +:+ cc ed +:+ "</span></div>") page /\
     Forall (fun att =>
               occurs_in (Html.div "attachment-item" +:+ "📎 " +:+ filename att +:+ " (")
                 page)
       (attachments ed) /\
     exists body,
       body_content ed = Return (Str body) /\
       occurs_in (Html.div "email-body" +:+ escape_chars body +:+ "</div>") page) /\
  (forall (ed : EmailData) (text html : string),
     body_text ed = Str text -> body_html ed = Str html ->
     exists page, create_gmail_html ed = Return page) /\
  (let ed :=
     mkEmailData "<b>Eve</b>" "<i>Bob</i>" "<u>Carol</u>" "<script>alert(1)</script>"
       "<s>today</s>" (Str "1 < 2") (Str "")
       [mkAttachment "<img src=x>.txt" "/tmp/tmp0/x.txt" "text/plain" 10] in
   exists page,
   create_gmail_html ed = Return page /\
   Text.contains "<b>Eve</b>" page = true /\
   Text.contains "<i>Bob</i>" page = true /\
   Text.contains "<u>Carol</u>" page = true /\
   Text.contains "<script>alert(1)</script>" page = true /\
   Text.contains "<s>today</s>" page = true /\
   Text.contains "<img src=x>.txt" page = true /\
   Text.contains "1 < 2" page = false /\
   Text.contains "1 &lt; 2" page = true).
Proof.
  split; [|split].
  2: { intros ed text html Ht Hh. eexists.
       exact (create_gmail_html_text ed text html Ht Hh). }
  2: { eexists. split; [reflexivity|]. vm_compute. repeat split. }
  intros ed page Hpage.
  apply create_gmail_html_inv in Hpage as (body & Hbody & ->).
  split; [apply subject_occurs|]. split; [apply from_occurs|].
  split; [apply to_occurs|]. split; [apply date_occurs|].
  split; [|split].
  - apply occurs_in_trans with (Html.cc_row ed); [|apply cc_row_occurs].
    unfold Html.cc_row. destruct (Text.is_empty (cc ed)); [apply occurs_in_refl|].
    do 3 apply occurs_in_app_r. apply occurs_in_refl.
  - eapply Forall_impl; [apply attachments_html_occurs|].
    intros att Hatt. cbn beta in Hatt.
    apply occurs_in_trans with (attachments_html ed); [|apply attachments_html_in_page].
    apply occurs_in_trans with (Html.attachment_item att); [|exact Hatt].
    unfold Html.attachment_item.
    exists "", (Text.format_kb (size att) +:+ " KB)</div>").
    by rewrite !append_assoc.
  - exists body. split; [exact Hbody|].
    rewrite <- escape_body_chars. apply body_occurs.
Qed.

(** ** The walk over the parts of a multipart message *)

(** The content of the first part outside the attachment branch that has
    content type [ct] and whose content can be read and is not empty; the
    empty string when there is no such part. *)
Fixpoint first_body (ct : string) (parts : list Mime.Part) : string :=
  match parts with
  | [] => ""
  | part :: r =>
      if negb (is_attachment_part part) && String.eqb (Mime.get_content_type part) ct
      then match Mime.get_content part with
           | Return (String _ _ as c) => c
           | _ => first_body ct r
           end
      else first_body ct r
  end.

(** The first part outside the attachment branch with content type [ct],
    whatever its content: the part the claim speaks of. *)
Definition first_part (ct : string) (parts : list Mime.Part) : option Mime.Part :=
  find (fun part =>
          negb (is_attachment_part part) && String.eqb (Mime.get_content_type part) ct)
    parts.

(** The file names of the parts of the attachment branch, in walk order. *)
Definition attachment_names (parts : list Mime.Part) : list string :=
  omap (fun part =>
          if is_attachment_part part && truthy (Mime.get_filename part)
          then Mime.get_filename part else None)
    parts.

(** What a run of the loop from [ed0] over [parts] may end in.  A body
    field that holds text at the start holds text at the end. *)
Definition walked (parts : list Mime.Part) (ed0 ed : EmailData) : Prop :=
  from ed = from ed0 /\ to ed = to ed0 /\ cc ed = cc ed0 /\
  subject ed = subject ed0 /\ date ed = date ed0 /\
  (forall t0, body_text ed0 = Str t0 ->
     body_text ed =
       Str (if Text.is_empty t0 then first_body "text/plain" parts else t0)) /\
  (forall h0, body_html ed0 = Str h0 ->
     body_html ed =
       Str (if Text.is_empty h0 then first_body "text/html" parts else h0)) /\
  exists new, attachments ed = attachments ed0 ++ new /\
              sublist (map filename new) (attachment_names parts).

Lemma save_attachment_inv (E : Env) ed name ap ct payload w ed' w' :
  save_attachment E ed name ap ct payload w = (Return ed', w') ->
  exists sz, ed' = append_attachment ed (mkAttachment name ap ct sz).
Proof.
  unfold save_attachment. intros H.
  apply bind_inv in H as (u1 & w1 & _ & H).
  apply bind_inv in H as (b & w2 & _ & H).
  apply bind_inv in H as (u2 & w3 & _ & H).
  apply bind_inv in H as (sz & w4 & _ & H).
  unfold ret in H. injection H as <- _. by exists sz.
Qed.

Lemma kept_body (v : Body) (t0 found : string) :
  found = "" \/ is_true v = true ->
  v = Str t0 -> v = Str (if Text.is_empty t0 then found else t0).
Proof.
  intros H ->. destruct H as [-> | H]; [by destruct t0|].
  cbn in H. by destruct t0.
Qed.

Lemma walked_refl_skip (part : Mime.Part) (ed0 : EmailData) :
  first_body "text/plain" [part] = "" \/ is_true (body_text ed0) = true ->
  first_body "text/html" [part] = "" \/ is_true (body_html ed0) = true ->
  walked [part] ed0 ed0.
Proof.
  intros Ht Hh. unfold walked. repeat split.
  - intros t0. by apply kept_body.
  - intros h0. by apply kept_body.
  - exists []. rewrite app_nil_r. split; [reflexivity | apply sublist_nil_l].
Qed.

Lemma first_body_attachment ct (part : Mime.Part) :
  is_attachment_part part = true -> first_body ct [part] = "".
Proof. intros H. cbn. by rewrite H. Qed.

Lemma first_body_other ct (part : Mime.Part) :
  String.eqb (Mime.get_content_type part) ct = false -> first_body ct [part] = "".
Proof. intros H. cbn. rewrite H. by rewrite andb_false_r. Qed.

Lemma taken_body (v : Body) (t0 c : string) :
  is_true v = false -> v = Str t0 ->
  Str c = Str (if Text.is_empty t0
               then match c with String _ _ => c | EmptyString => "" end
               else t0).
Proof. intros H ->. cbn in H. destruct t0; [by destruct c | discriminate H]. Qed.

(** One turn of the loop. *)
Lemma walk_part_walked (E : Env) (ed0 : EmailData) (part : Mime.Part) (w : World) :
  exists ed w', walk_part E ed0 part w = (Return ed, w') /\ walked [part] ed0 ed.
Proof.
  unfold walk_part.
  destruct (is_attachment_part part) eqn:Hatt.
  - (* the attachment branch *)
    assert (Hskip : walked [part] ed0 ed0).
    { apply walked_refl_skip; left; by apply first_body_attachment. }
    destruct (Mime.get_filename part) as [[|c name]|] eqn:Hname;
      [by eexists _, _ | | by eexists _, _].
    unfold bind at 1, mkdtemp, try_except.
    match goal with
    | |- context [save_attachment ?E ?ed ?n ?ap ?ct ?pl ?w0] =>
        destruct (save_attachment E ed n ap ct pl w0) as [[ed'|e] w'] eqn:Hsave
    end.
    + apply save_attachment_inv in Hsave as (sz & ->).
      eexists _, _. split; [reflexivity|].
      destruct Hskip as (_ & _ & _ & _ & _ & Hbt & Hbh & _).
      unfold walked. cbn [from to cc subject date body_text body_html attachments
                            append_attachment].
      repeat split; [exact Hbt | exact Hbh |].
      eexists. split; [reflexivity|].
      unfold attachment_names. cbn. rewrite Hatt, Hname. cbn. reflexivity.
    + by eexists _, _.
  - destruct (String.eqb (Mime.get_content_type part) "text/plain") eqn:Hplain.
    + (* a text/plain part *)
      assert (Hhtml : String.eqb (Mime.get_content_type part) "text/html" = false).
      { apply String.eqb_eq in Hplain. by rewrite Hplain. }
      destruct (is_true (body_text ed0)) eqn:Hfull; cbn [andb negb].
      * rewrite Hhtml. cbn [andb]. eexists _, _. split; [reflexivity|].
        apply walked_refl_skip; [by right | left; by apply first_body_other].
      * unfold try_except, bind, lift, ret.
        destruct (Mime.get_content part) as [c|e] eqn:Hc.
        -- eexists _, _. split; [reflexivity|].
           unfold walked. cbn [from to cc subject date body_text body_html attachments
                                 set_body_text].
           rewrite (first_body_other "text/html" _ Hhtml).
           cbn [first_body]. rewrite Hatt, Hplain, Hc. cbn [negb andb].
           repeat split.
           ++ intros t0. by apply taken_body.
           ++ intros h0. apply kept_body. by left.
           ++ exists []. rewrite app_nil_r. split; [reflexivity | apply sublist_nil_l].
        -- eexists _, _. split; [reflexivity|].
           apply walked_refl_skip; left.
           ++ cbn. by rewrite Hatt, Hplain, Hc.
           ++ by apply first_body_other.
    + cbn [andb].
      destruct (String.eqb (Mime.get_content_type part) "text/html") eqn:Hhtml.
      * (* a text/html part *)
        destruct (is_true (body_html ed0)) eqn:Hfull; cbn [andb negb].
        -- eexists _, _. split; [reflexivity|].
           apply walked_refl_skip; [left; by apply first_body_other | by right].
        -- unfold try_except, bind, lift, ret.
           destruct (Mime.get_content part) as [c|e] eqn:Hc.
           ++ eexists _, _. split; [reflexivity|].
              unfold walked. cbn [from to cc subject date body_text body_html attachments
                                    set_body_html].
              rewrite (first_body_other "text/plain" _ Hplain).
              cbn [first_body]. rewrite Hatt, Hhtml, Hc. cbn [negb andb].
              repeat split.
              ** intros t0. apply kept_body. by left.
              ** intros h0. by apply taken_body.
              ** exists []. rewrite app_nil_r. split; [reflexivity | apply sublist_nil_l].
           ++ eexists _, _. split; [reflexivity|].
              apply walked_refl_skip; left.
              ** by apply first_body_other.
              ** cbn. by rewrite Hatt, Hhtml, Hc.
      * cbn [andb]. eexists _, _. split; [reflexivity|].
        apply walked_refl_skip; left; by apply first_body_other.
Qed.

Lemma first_body_cons ct (part : Mime.Part) (r : list Mime.Part) :
  first_body ct (part :: r) =
    if Text.is_empty (first_body ct [part]) then first_body ct r
    else first_body ct [part].
Proof.
  cbn [first_body].
  destruct (negb (is_attachment_part part) && String.eqb (Mime.get_content_type part) ct);
    [|reflexivity].
  by destruct (Mime.get_content part) as [[|c s]|e].
Qed.

Lemma walked_cons (part : Mime.Part) (r : list Mime.Part) (ed0 ed1 ed : EmailData) :
  walked [part] ed0 ed1 -> walked r ed1 ed -> walked (part :: r) ed0 ed.
Proof.
  intros (Hf1 & Ht1 & Hc1 & Hs1 & Hd1 & Hbt1 & Hbh1 & new1 & Ha1 & Hn1)
         (Hf & Ht & Hc & Hs & Hd & Hbt & Hbh & new & Ha & Hn).
  unfold walked.
  rewrite (first_body_cons "text/plain" part r), (first_body_cons "text/html" part r).
  repeat split; try congruence.
  - intros t0 H0. rewrite (Hbt _ (Hbt1 _ H0)). f_equal.
    destruct (Text.is_empty t0) eqn:He; [reflexivity | by rewrite He].
  - intros h0 H0. rewrite (Hbh _ (Hbh1 _ H0)). f_equal.
    destruct (Text.is_empty h0) eqn:He; [reflexivity | by rewrite He].
  - exists (new1 ++ new). split.
    + by rewrite Ha, Ha1, app_assoc.
    + rewrite map_app. change (part :: r) with ([part] ++ r).
      unfold attachment_names. rewrite omap_app. by apply sublist_app.
Qed.

Lemma walked_nil (ed0 : EmailData) : walked [] ed0 ed0.
Proof.
  unfold walked. repeat split.
  - intros t0 ->. by destruct t0.
  - intros h0 ->. by destruct h0.
  - exists []. rewrite app_nil_r. split; [reflexivity | apply sublist_nil_l].
Qed.

(** The whole loop: it never raises, and ends in a record as described. *)
Lemma walk_walked (E : Env) (parts : list Mime.Part) (ed0 : EmailData) (w : World) :
  exists ed w',
    for_each parts (walk_part E) ed0 w = (Return ed, w') /\ walked parts ed0 ed.
Proof.
  revert ed0 w. induction parts as [|part r IH]; intros ed0 w.
  - exists ed0, w. split; [reflexivity | apply walked_nil].
  - destruct (walk_part_walked E ed0 part w) as (ed1 & w1 & Hstep & H1).
    destruct (IH ed1 w1) as (ed & w' & Hrest & Hr).
    exists ed, w'. split.
    + cbn [for_each]. by rewrite (bind_Return _ _ _ _ _ Hstep).
    + by apply walked_cons with ed1.
Qed.

(** C5, as amended: a part takes the attachment branch exactly when its
    disposition contains [attachment] or it has a file name; the parse of a
    multipart message returns, its attachments come from those parts, in
    walk order, and its text (HTML) body is the content of the first other
    part of type text/plain (text/html) whose content can be read and is not
    empty; a part of that type met earlier with empty or unreadable content
    does not stop a later one from being taken. *)
Theorem C5_multipart_walk (E : Env) (path : string) (w : World) (f : list byte)
    (msg : Mime.Message) :
  files w !! path = Some f ->
  BytesParser_parse E f = Return msg ->
  Mime.is_multipart msg = true ->
  (forall part,
     is_attachment_part part = true <->
     Text.contains "attachment" (Mime.content_disposition part) = true \/
     truthy (Mime.get_filename part) = true) /\
  exists ed w',
    parse_eml_file E path w = (Return ed, w') /\
    body_text ed = Str (first_body "text/plain" (Mime.walk msg)) /\
    body_html ed = Str (first_body "text/html" (Mime.walk msg)) /\
    sublist (map filename (attachments ed)) (attachment_names (Mime.walk msg)).
Proof.
  intros Hf Hparse Hmulti. split.
  { intros part. unfold is_attachment_part. apply orb_true_iff. }
  unfold parse_eml_file. unfold bind at 1. unfold read_file at 1. rewrite Hf.
  unfold bind at 1, lift. rewrite Hparse, Hmulti.
  match goal with
  | |- context [for_each ?l ?b ?ed0 ?w0] =>
      destruct (walk_walked E l ed0 w0)
        as (ed & w' & Hrun & _ & _ & _ & _ & _ & Hbt & Hbh & new & Ha & Hn)
  end.
  exists ed, w'. split; [exact Hrun|].
  cbn in Ha. subst new.
  split; [exact (Hbt "" eq_refl)|]. split; [exact (Hbh "" eq_refl) | assumption].
Qed.

Lemma C5_multipart_walk_witness :
  exists ed w',
    parse_eml_file
      (Run.env (Some (Run.multipart
                        [Run.html_part "<p>Hi</p>"; Run.text_part "Hi";
                         Run.text_part "later"; Run.file_part "a.txt" "aaa"])))
      "/in/mail.eml" (Run.world "/in/mail.eml" (Run.bytes "raw")) = (Return ed, w') /\
    body_text ed = Str "Hi" /\ body_html ed = Str "<p>Hi</p>" /\
    sublist (map filename (attachments ed)) ["a.txt"].
Proof.
  exact (proj2 (C5_multipart_walk
                  (Run.env (Some (Run.multipart
                                    [Run.html_part "<p>Hi</p>"; Run.text_part "Hi";
                                     Run.text_part "later"; Run.file_part "a.txt" "aaa"])))
                  "/in/mail.eml" (Run.world "/in/mail.eml" (Run.bytes "raw"))
                  (Run.bytes "raw") _ eq_refl eq_refl eq_refl)).
Defined.

(** C5 as stated fails when the first text/plain part is empty: the body is
    then taken from the next one, which is not ignored. *)
Lemma C5_counterexample :
  let parts := [Run.text_part ""; Run.text_part "second"] in
  let msg := Run.multipart parts in
  first_part "text/plain" (Mime.walk msg) = Some (Run.text_part "") /\
  Mime.get_content (Run.text_part "") = Return "" /\
  exists ed w',
    parse_eml_file (Run.env (Some msg)) "/in/mail.eml"
      (Run.world "/in/mail.eml" (Run.bytes "raw")) = (Return ed, w') /\
    body_text ed = Str "second".
Proof.
  cbv zeta. split; [reflexivity|]. split; [reflexivity|].
  eexists _, _. split; [vm_compute; reflexivity | reflexivity].
Qed.

(** ** Files are only added *)

(** [w'] has every file of [w], at least as many temporary directories
    drawn, and the same number of random names drawn. *)
Definition extends (w w' : World) : Prop :=
  (forall p, is_Some (files w !! p) -> is_Some (files w' !! p)) /\
  temp_count w <= temp_count w' /\
  random_count w' = random_count w.

(** [c] only adds: whatever it returns or raises, the world it leaves
    extends the one it started in. *)
Definition growing {A} (c : M A) : Prop := forall w, extends w (snd (c w)).

Lemma extends_refl (w : World) : extends w w.
Proof. split; [by intros p Hp | split; reflexivity]. Qed.

Lemma extends_trans (w1 w2 w3 : World) :
  extends w1 w2 -> extends w2 w3 -> extends w1 w3.
Proof.
  intros (Hf1 & Ht1 & Hr1) (Hf2 & Ht2 & Hr2). split; [|split].
  - intros p Hp. by apply Hf2, Hf1.
  - lia.
  - congruence.
Qed.

Lemma extends_set_file (path : string) (b : list byte) (w : World) :
  extends w (set_file path b w).
Proof.
  split; [|split; [reflexivity | reflexivity]].
  intros p Hp. unfold set_file. cbn.
  destruct (decide (path = p)) as [->|Hne].
  - rewrite lookup_insert_eq. by eexists.
  - by rewrite lookup_insert_ne.
Qed.

Section Growing.

Context (E : Env).

Lemma growing_ret {A} (a : A) : growing (ret a).
Proof. intros w. apply extends_refl. Qed.

Lemma growing_raise {A} (e : exn) : growing (@raise A e).
Proof. intros w. apply extends_refl. Qed.

Lemma growing_lift {A} (o : outcome A) : growing (lift o).
Proof. intros w. apply extends_refl. Qed.

Lemma growing_bind {A B} (c : M A) (k : A -> M B) :
  growing c -> (forall a, growing (k a)) -> growing (bind c k).
Proof.
  intros Hc Hk w. unfold bind. specialize (Hc w).
  destruct (c w) as [[a|e] w1]; cbn [snd] in *; [|exact Hc].
  eapply extends_trans; [exact Hc | apply Hk].
Qed.

Lemma growing_try_except {A} (c : M A) (h : exn -> M A) :
  growing c -> (forall e, growing (h e)) -> growing (try_except c h).
Proof.
  intros Hc Hh w. unfold try_except. specialize (Hc w).
  destruct (c w) as [[a|e] w1]; cbn [snd] in *; [exact Hc|].
  eapply extends_trans; [exact Hc | apply Hh].
Qed.

Lemma growing_for_each {A S} (l : list A) (body : S -> A -> M S) (s : S) :
  (forall s x, growing (body s x)) -> growing (for_each l body s).
Proof.
  intros Hb. revert s. induction l as [|x r IH]; intros s; cbn [for_each].
  - apply growing_ret.
  - apply growing_bind; [apply Hb | intros s'; apply IH].
Qed.

Lemma growing_read_file (path : string) : growing (read_file path).
Proof.
  intros w. unfold read_file. destruct (files w !! path); apply extends_refl.
Qed.

Lemma growing_open_wb (path : string) : growing (open_wb E path).
Proof.
  intros w. unfold open_wb.
  destruct (can_create E path); [apply extends_set_file | apply extends_refl].
Qed.

Lemma growing_f_write (path : string) (b : list byte) : growing (f_write path b).
Proof. intros w. apply extends_set_file. Qed.

Lemma growing_mkdtemp : growing (mkdtemp E).
Proof.
  intros w. unfold mkdtemp, extends. cbn.
  split; [by intros p Hp | split; [lia | reflexivity]].
Qed.

End Growing.

(** One step of a proof that a computation only adds. *)
Ltac growing_step E :=
  first
    [ apply growing_ret
    | apply growing_raise
    | apply growing_lift
    | apply growing_read_file
    | apply (growing_open_wb E)
    | apply growing_f_write
    | apply (growing_mkdtemp E)
    | apply growing_bind; [|intros ?]
    | apply growing_try_except; [|intros ?]
    | apply growing_for_each; intros ? ?
    | progress cbv beta zeta
    | lazymatch goal with
      | |- growing (if ?b then _ else _) => destruct b
      | |- growing (match ?x with _ => _ end) => destruct x
      end ].

Section GrowingPipeline.

Context (E : Env).

Lemma growing_write_file path b : growing (write_file E path b).
Proof. unfold write_file. repeat growing_step E. Qed.

Lemma growing_write_pdf html path : growing (write_pdf E html path).
Proof. unfold write_pdf. repeat (first [apply growing_write_file | growing_step E]). Qed.

Lemma growing_getsize path : growing (getsize path).
Proof. unfold getsize. repeat growing_step E. Qed.

Lemma growing_copy src dst : growing (copy E src dst).
Proof. unfold copy. repeat (first [apply growing_write_file | growing_step E]). Qed.

Lemma growing_save_attachment ed name ap ct payload :
  growing (save_attachment E ed name ap ct payload).
Proof. unfold save_attachment. repeat (first [apply growing_getsize | growing_step E]). Qed.

Lemma growing_walk_part ed part : growing (walk_part E ed part).
Proof.
  unfold walk_part. repeat (first [apply growing_save_attachment | growing_step E]).
Qed.

Lemma growing_parse_eml_file path : growing (parse_eml_file E path).
Proof. unfold parse_eml_file. repeat (first [apply growing_walk_part | growing_step E]). Qed.

Lemma growing_parse_msg_file path : growing (parse_msg_file E path).
Proof.
  unfold parse_msg_file, msg_attachment.
  repeat (first [apply growing_save_attachment | growing_step E]).
Qed.

Lemma growing_convert_attachment_to_pdf ap out :
  growing (convert_attachment_to_pdf E ap out).
Proof.
  unfold convert_attachment_to_pdf, convert_attachment_try, convert_attachment_except,
    convert_html_to_pdf.
  repeat (first [ apply growing_write_pdf | apply growing_copy
                | apply growing_parse_eml_file | apply growing_parse_msg_file
                | growing_step E ]).
Qed.

Lemma growing_convert_attachments temp_dir idx l pdf_list :
  growing (convert_attachments E temp_dir idx l pdf_list).
Proof.
  revert idx pdf_list. induction l as [|att r IH]; intros idx pdf_list;
    cbn [convert_attachments].
  - apply growing_ret.
  - apply growing_bind; [apply growing_convert_attachment_to_pdf | intros b; apply IH].
Qed.

Lemma growing_merge_pdfs pdf_list out : growing (merge_pdfs E pdf_list out).
Proof.
  unfold merge_pdfs. apply growing_bind; [intros w; apply extends_refl | intros inputs].
  repeat (first [apply growing_write_file | growing_step E]).
Qed.

Lemma growing_collect_pdfs path : growing (collect_pdfs E path).
Proof.
  unfold collect_pdfs, step1_parse, detect_type, step2_email_page, step3_attachments,
    convert_html_to_pdf.
  repeat (first [ apply growing_write_pdf | apply growing_parse_eml_file
                | apply growing_parse_msg_file | apply growing_convert_attachments
                | growing_step E ]).
Qed.

Lemma growing_process_email_to_pdf path out : growing (process_email_to_pdf E path out).
Proof.
  unfold process_email_to_pdf.
  repeat (first [apply growing_collect_pdfs | apply growing_merge_pdfs | growing_step E]).
Qed.

End GrowingPipeline.

(** ** The order of the merge *)

Section SortedFacts.

Context {A : Type} (key : A -> string).

(** [a] may stand before [b]: its key is not greater. *)
Definition key_le (a b : A) : Prop := String.le (key a) (key b).

#[local] Instance key_le_trans : Transitive key_le.
Proof. intros a b c. unfold key_le. apply transitivity. Qed.

Lemma ltb_false_le (x y : string) : String.ltb y x = false -> String.le x y.
Proof.
  unfold String.ltb, String.le, String.leb. rewrite (String.compare_antisym x y).
  by destruct (String.compare y x).
Qed.

Lemma ltb_true_le (x y : string) : String.ltb y x = true -> String.le y x.
Proof.
  unfold String.ltb, String.le, String.leb. by destruct (String.compare y x).
Qed.

Lemma ltb_irrefl (x : string) : String.ltb x x = false.
Proof.
  unfold String.ltb. pose proof (String.compare_antisym x x) as H.
  by destruct (String.compare x x).
Qed.

Lemma insert_by_key_Permutation (x : A) (l : list A) :
  insert_by_key key x l ≡ₚ x :: l.
Proof.
  induction l as [|y r IH]; [reflexivity|]. cbn [insert_by_key].
  destruct (String.ltb (key y) (key x)); [|reflexivity].
  rewrite IH. apply Permutation_swap.
Qed.

Lemma sorted_Permutation (l : list A) : sorted key l ≡ₚ l.
Proof.
  induction l as [|x l IH]; [reflexivity|]. cbn [sorted foldr].
  rewrite insert_by_key_Permutation. by constructor.
Qed.

Lemma insert_by_key_HdRel (a x : A) (l : list A) :
  key_le a x -> HdRel key_le a l -> HdRel key_le a (insert_by_key key x l).
Proof.
  intros Hax Hl. destruct l as [|y r]; cbn [insert_by_key]; [by constructor|].
  destruct (String.ltb (key y) (key x)); constructor; [|exact Hax].
  by inversion Hl.
Qed.

Lemma insert_by_key_Sorted (x : A) (l : list A) :
  Sorted key_le l -> Sorted key_le (insert_by_key key x l).
Proof.
  induction l as [|y r IH]; intros Hl; cbn [insert_by_key].
  - by repeat constructor.
  - inversion Hl as [|? ? Hr Hy]; subst.
    destruct (String.ltb (key y) (key x)) eqn:Hlt.
    + constructor; [by apply IH|].
      apply insert_by_key_HdRel; [|exact Hy]. by apply ltb_true_le.
    + constructor; [exact Hl|]. constructor. by apply ltb_false_le.
Qed.

Lemma sorted_Sorted (l : list A) : Sorted key_le (sorted key l).
Proof.
  induction l as [|x l IH]; [constructor|]. by apply insert_by_key_Sorted.
Qed.

Lemma sorted_StronglySorted (l : list A) : StronglySorted key_le (sorted key l).
Proof. apply Sorted_StronglySorted; [apply _ | apply sorted_Sorted]. Qed.

(** Stability: the elements of one key keep their order. *)
Lemma insert_by_key_stable (k : string) (x : A) (l : list A) :
  filter (fun a => key a = k) (insert_by_key key x l) =
  filter (fun a => key a = k) (x :: l).
Proof.
  induction l as [|y r IH]; [reflexivity|]. cbn [insert_by_key].
  destruct (String.ltb (key y) (key x)) eqn:Hlt; [|reflexivity].
  rewrite filter_cons, IH, !filter_cons.
  destruct (decide (key y = k)) as [Hy|Hy], (decide (key x = k)) as [Hx|Hx];
    try reflexivity.
  rewrite Hy, Hx, ltb_irrefl in Hlt. discriminate Hlt.
Qed.

Lemma sorted_stable (k : string) (l : list A) :
  filter (fun a => key a = k) (sorted key l) = filter (fun a => key a = k) l.
Proof.
  induction l as [|x l IH]; [reflexivity|]. cbn [sorted foldr].
  rewrite insert_by_key_stable, !filter_cons. fold (sorted key l). by rewrite IH.
Qed.

Lemma StronglySorted_sublist (R : relation A) (k l : list A) :
  sublist k l -> StronglySorted R l -> StronglySorted R k.
Proof.
  induction 1 as [|x k l Hkl IH|x k l Hkl IH]; intros Hl.
  - constructor.
  - apply StronglySorted_inv in Hl as [Hl Hx]. constructor; [by apply IH|].
    rewrite Forall_forall in Hx |- *. intros y Hy. apply Hx.
    by eapply elem_of_sublist.
  - apply StronglySorted_inv in Hl as [Hl _]. by apply IH.
Qed.

End SortedFacts.

(** The sorted list depends on the keys of the elements only. *)
Lemma insert_by_key_ext {A} (k1 k2 : A -> string) (x : A) (l : list A) :
  k1 x = k2 x -> Forall (fun y => k1 y = k2 y) l ->
  insert_by_key k1 x l = insert_by_key k2 x l.
Proof.
  intros Hx. induction 1 as [|y r Hy Hr IH]; [reflexivity|].
  cbn [insert_by_key]. by rewrite Hx, Hy, IH.
Qed.

Lemma sorted_ext {A} (k1 k2 : A -> string) (l : list A) :
  Forall (fun y => k1 y = k2 y) l -> sorted k1 l = sorted k2 l.
Proof.
  induction 1 as [|x r Hx Hr IH]; [reflexivity|].
  cbn [sorted foldr]. fold (sorted k1 r) (sorted k2 r). rewrite IH.
  apply insert_by_key_ext; [exact Hx|].
  by rewrite (sorted_Permutation k2 r).
Qed.

Lemma sublist_map {A B} (f : A -> B) (k l : list A) :
  sublist k l -> sublist (map f k) (map f l).
Proof. induction 1; cbn; by constructor. Qed.

Lemma sublist_same_length {A} (k l : list A) :
  sublist k l -> length k = length l -> k = l.
Proof.
  induction 1 as [|x k0 l0 Hkl IH|x k0 l0 Hkl IH]; intros Hlen.
  - reflexivity.
  - f_equal. apply IH. cbn in Hlen. lia.
  - apply sublist_length in Hkl. cbn in Hlen. lia.
Qed.

(** [enumerate(l, start=idx)] *)
Fixpoint enumerate_from (idx : N) (l : list Attachment) : list (N * Attachment) :=
  match l with
  | [] => []
  | att :: r => (idx, att) :: enumerate_from (idx + 1) r
  end.

Lemma enumerate_from_snd (idx : N) (l : list Attachment) :
  map snd (enumerate_from idx l) = l.
Proof.
  revert idx. induction l as [|a l IH]; intros idx; [reflexivity|].
  cbn. by rewrite IH.
Qed.

(** The loop of step 3 appends, in order, the PDF paths of some of the
    enumerated attachments: those whose conversion returned [True]. *)
Lemma convert_attachments_kept (E : Env) temp_dir idx l pdf_list w pdf_list' w' :
  convert_attachments E temp_dir idx l pdf_list w = (Return pdf_list', w') ->
  exists kept,
    sublist kept (enumerate_from idx l) /\
    pdf_list' = pdf_list ++ map (fun ia => att_pdf_path temp_dir ia.1 ia.2) kept.
Proof.
  revert idx pdf_list w. induction l as [|att r IH]; intros idx pdf_list w H.
  - cbn in H. injection H as <- _. exists []. by rewrite app_nil_r.
  - cbn [convert_attachments] in H.
    apply bind_inv in H as (converted & w1 & _ & H).
    apply IH in H as (kept & Hsub & ->). destruct converted.
    + exists ((idx, att) :: kept). split; [by constructor|].
      by rewrite <- app_assoc.
    + exists kept. split; [by constructor | reflexivity].
Qed.

(** ** The list handed to the merger *)

Lemma write_file_inv (E : Env) path b w u w' :
  write_file E path b w = (Return u, w') -> w' = set_file path b w.
Proof.
  unfold write_file, bind, open_wb, f_write.
  destruct (can_create E path); [|discriminate].
  intros H. injection H as _ <-. unfold set_file. cbn. by rewrite insert_insert_eq.
Qed.

(** Whatever [convert_attachment_to_pdf] returns, it has written the output
    path: every branch of the [try] block ends with the write, and so does
    the [except] block. *)
Lemma convert_attachment_try_written (E : Env) ap out name ext w b w1 :
  convert_attachment_try E ap out name ext w = (Return b, w1) ->
  is_Some (files w1 !! out).
Proof.
  unfold convert_attachment_try, convert_html_to_pdf, copy.
  destruct (one_of ext [".eml"; ".msg"]).
  { intros H. apply bind_inv in H as (nested & w2 & _ & H).
    apply bind_inv in H as (html & w3 & _ & H).
    apply bind_inv in H as (u & w4 & Hw & H).
    unfold ret in H. injection H as _ <-.
    apply write_pdf_inv in Hw as (pdf & _ & _ & ->). rewrite files_set_file. by eexists. }
  destruct (String.eqb ext ".pdf").
  { intros H. apply bind_inv in H as (u & w2 & Hc & H).
    unfold ret in H. injection H as _ <-.
    apply bind_inv in Hc as (f & w3 & _ & Hw).
    apply write_file_inv in Hw as ->. rewrite files_set_file. by eexists. }
  destruct (one_of ext [".txt"; ".log"; ".csv"]).
  { intros H. apply bind_inv in H as (f & w2 & _ & H).
    apply bind_inv in H as (u & w3 & Hw & H).
    unfold ret in H. injection H as _ <-.
    apply write_pdf_inv in Hw as (pdf & _ & _ & ->). rewrite files_set_file. by eexists. }
  destruct (one_of ext [".png"; ".jpg"; ".jpeg"; ".gif"; ".bmp"]).
  { intros H. apply bind_inv in H as (u & w3 & Hw & H).
    unfold ret in H. injection H as _ <-.
    apply write_pdf_inv in Hw as (pdf & _ & _ & ->). rewrite files_set_file. by eexists. }
  intros H. apply bind_inv in H as (u & w3 & Hw & H).
  unfold ret in H. injection H as _ <-.
  apply write_pdf_inv in Hw as (pdf & _ & _ & ->). rewrite files_set_file. by eexists.
Qed.

Lemma convert_attachment_to_pdf_written (E : Env) ap out w b w1 :
  convert_attachment_to_pdf E ap out w = (Return b, w1) ->
  is_Some (files w1 !! out).
Proof.
  unfold convert_attachment_to_pdf. cbv zeta. unfold try_except.
  match goal with
  | |- context [convert_attachment_try ?E ?a ?o ?n ?x ?w0] =>
      destruct (convert_attachment_try E a o n x w0) as [[b0|e] w0'] eqn:Htry
  end.
  - intros H. injection H as _ <-. by apply convert_attachment_try_written in Htry.
  - unfold convert_attachment_except. cbv zeta. intros H.
    apply bind_inv in H as (u & w3 & Hw & H).
    unfold ret in H. injection H as _ <-.
    apply write_pdf_inv in Hw as (pdf & _ & _ & ->). rewrite files_set_file. by eexists.
Qed.

(** The conversions of the loop of step 3, run in order from the world
    [w]: [conversions E temp_dir idx l w flags w'] holds when the
    conversion of each attachment of [l], numbered from [idx], returns, in
    the world the one before it left; [flags] lists the values returned
    and [w'] is the world after the last. *)
Inductive conversions (E : Env) (temp_dir : string) :
    N -> list Attachment -> World -> list bool -> World -> Prop :=
| conversions_nil idx w : conversions E temp_dir idx [] w [] w
| conversions_cons idx att r w converted w1 flags w' :
    convert_attachment_to_pdf E (path att) (att_pdf_path temp_dir idx att) w =
      (Return converted, w1) ->
    conversions E temp_dir (idx + 1) r w1 flags w' ->
    conversions E temp_dir idx (att :: r) w (converted :: flags) w'.

(** The elements of [l] whose flag is [true]. *)
Fixpoint keep {A} (flags : list bool) (l : list A) : list A :=
  match flags, l with
  | converted :: flags, x :: r => if converted then x :: keep flags r else keep flags r
  | _, _ => []
  end.

Lemma keep_sublist {A} (flags : list bool) (l : list A) : sublist (keep flags l) l.
Proof.
  revert l. induction flags as [|b flags IH]; intros [|x r]; cbn;
    try apply sublist_nil_l.
  destruct b; constructor; apply IH.
Qed.

Lemma keep_all {A} (flags : list bool) (l : list A) :
  length flags = length l -> Forall (fun converted => converted = true) flags ->
  keep flags l = l.
Proof.
  revert l. induction flags as [|b flags IH]; intros [|x r] Hlen Hall;
    try discriminate Hlen; [reflexivity|].
  apply Forall_cons in Hall as [-> Hall]. cbn. f_equal. apply IH; [|exact Hall].
  cbn in Hlen. lia.
Qed.

Lemma conversions_length (E : Env) temp_dir idx l w flags w' :
  conversions E temp_dir idx l w flags w' -> length flags = length l.
Proof. induction 1; cbn; congruence. Qed.

(** The loop returns exactly when every conversion returns, and then it has
    appended, in order, the PDF paths of the attachments whose conversion
    returned [True], and of no other. *)
Lemma convert_attachments_conversions (E : Env) temp_dir idx l pdf_list w pdf_list' w' :
  convert_attachments E temp_dir idx l pdf_list w = (Return pdf_list', w') <->
  exists flags,
    conversions E temp_dir idx l w flags w' /\
    pdf_list' =
      pdf_list ++
      map (fun ia => att_pdf_path temp_dir ia.1 ia.2) (keep flags (enumerate_from idx l)).
Proof.
  split.
  - revert idx pdf_list w. induction l as [|att r IH]; intros idx pdf_list w H.
    + cbn in H. injection H as <- <-. exists []. split; [constructor|].
      by rewrite app_nil_r.
    + cbn [convert_attachments] in H.
      apply bind_inv in H as (converted & w1 & Hconv & H).
      apply IH in H as (flags & Hrun & ->).
      exists (converted :: flags). split; [by econstructor|].
      destruct converted; cbn [enumerate_from keep map]; [|reflexivity].
      by rewrite <- app_assoc.
  - intros (flags & Hrun & ->). revert pdf_list.
    induction Hrun as [idx w|idx att r w converted w1 flags w' Hconv Hrun IH];
      intros pdf_list.
    + cbn. by rewrite app_nil_r.
    + cbn [convert_attachments]. rewrite (bind_Return _ _ _ _ _ Hconv).
      rewrite IH. destruct converted; cbn [enumerate_from keep map]; [|reflexivity].
      by rewrite <- app_assoc.
Qed.

(** The PDFs of the attachments that were kept are there when the loop
    ends. *)
Lemma conversions_written (E : Env) temp_dir idx l w flags w' :
  conversions E temp_dir idx l w flags w' ->
  extends w w' /\
  Forall (fun ia => is_Some (files w' !! att_pdf_path temp_dir ia.1 ia.2))
    (keep flags (enumerate_from idx l)).
Proof.
  induction 1 as [idx w|idx att r w converted w1 flags w' Hconv Hrun [Hext IH]].
  - split; [apply extends_refl | constructor].
  - assert (Hstep : extends w w1).
    { pose proof (growing_convert_attachment_to_pdf E (path att)
                    (att_pdf_path temp_dir idx att) w) as Hg.
      by rewrite Hconv in Hg. }
    split; [by apply extends_trans with w1|].
    cbn [enumerate_from keep]. destruct converted; [|exact IH].
    constructor; [|exact IH]. cbn [fst snd].
    apply Hext. by apply convert_attachment_to_pdf_written in Hconv.
Qed.

(** When every listed path exists, the merger gets one input per path. *)
Lemma existing_all (pdf_list : list string) (w : World) :
  Forall (fun p => is_Some (files w !! p)) pdf_list ->
  Forall2 (fun p b => files w !! p = Some b) pdf_list (existing pdf_list w).
Proof.
  induction 1 as [|p r [b Hb] Hr IH]; [constructor|].
  cbn [existing]. rewrite Hb. by constructor.
Qed.

Lemma step2_email_page_inv (E : Env) ed w temp_dir email_pdf_path w' :
  step2_email_page E ed w = (Return (temp_dir, email_pdf_path), w') ->
  email_pdf_path = Path.join temp_dir "00_email.pdf" /\
  is_Some (files w' !! email_pdf_path).
Proof.
  unfold step2_email_page, convert_html_to_pdf. intros H.
  apply bind_inv in H as (html & w0 & _ & H).
  unfold mkdtemp in H. unfold bind at 1 in H.
  apply bind_inv in H as (u & w3 & Hw & H).
  unfold ret in H. injection H as <- <- <-.
  apply write_pdf_inv in Hw as (page & _ & _ & ->).
  split; [reflexivity|]. rewrite files_set_file. by eexists.
Qed.

(** C4: the list handed to [merge_pdfs] is the path of the email page
    followed by the PDF paths, named by position and file name, of the
    attachments taken in the order of [sorted(..., key=filename.lower())],
    those whose conversion returned [True] and no other; every path of the
    list exists when the merge starts, so [merge_pdfs] gives the merger the
    contents of these files, one input per path, in this order, and what
    the merger returns is written to the output path.  The sorted list is
    a rearrangement of the attachments, non-decreasing in the lower-cased
    file name, with equal keys in their original order.  For the names
    B.txt, a.txt, C.txt the order is a.txt, B.txt, C.txt. *)
Theorem C4_merge_order (E : Env) (path : string) (w w3 : World)
    (ed : EmailData) (pdf_list : list string) :
  collect_pdfs E path w = (Return (ed, pdf_list), w3) ->
  (exists w1 temp_dir w2 flags inputs,
     let sorted_attachments := sorted (sort_key E) (attachments ed) in
     let kept := keep flags (enumerate_from 1 sorted_attachments) in
     step1_parse E path w = (Return ed, w1) /\
     step2_email_page E ed w1 =
       (Return (temp_dir, Path.join temp_dir "00_email.pdf"), w2) /\
     conversions E temp_dir 1 sorted_attachments w2 flags w3 /\
     pdf_list =
       Path.join temp_dir "00_email.pdf" ::
       map (fun ia => att_pdf_path temp_dir ia.1 ia.2) kept /\
     Forall2 (fun p b => files w3 !! p = Some b) pdf_list inputs /\
     (forall out,
        merge_pdfs E pdf_list out w3 =
          (merged <- lift (PdfMerger_merge E inputs) ;; write_file E out merged) w3) /\
     (forall out,
        process_email_to_pdf E path out w =
          (merge_pdfs E pdf_list out ;;;
           ret (mkConversionResult true out (subject ed) (from ed)
                  (length (attachments ed)) (length pdf_list))) w3) /\
     (forall out r w',
        process_email_to_pdf E path out w = (Return r, w') ->
        exists merged,
          PdfMerger_merge E inputs = Return merged /\
          files w' !! out = Some merged /\
          total_pages r = length pdf_list) /\
     StronglySorted (key_le (sort_key E)) (map snd kept) /\
     (Forall (fun converted => converted = true) flags ->
      map snd kept = sorted_attachments) /\
     (length pdf_list = 1 + length (attachments ed) ->
      map snd kept = sorted_attachments) /\
     sorted_attachments ≡ₚ attachments ed /\
     StronglySorted (key_le (sort_key E)) sorted_attachments /\
     (forall k, filter (fun a => sort_key E a = k) sorted_attachments =
                filter (fun a => sort_key E a = k) (attachments ed))) /\
  map filename
    (sorted (sort_key E)
       [mkAttachment "B.txt" "/tmp/tmp0/B.txt" "text/plain" 3;
        mkAttachment "a.txt" "/tmp/tmp1/a.txt" "text/plain" 3;
        mkAttachment "C.txt" "/tmp/tmp2/C.txt" "text/plain" 3]) =
    ["a.txt"; "B.txt"; "C.txt"].
Proof.
  intros Hcollect. split.
  2: { rewrite (sorted_ext (sort_key E) (fun att => Text.lower_ascii (filename att))).
       - reflexivity.
       - repeat constructor; by apply str_lower_ascii. }
  pose proof Hcollect as Hc. unfold collect_pdfs in Hc.
  apply bind_inv in Hc as (ed' & w1 & Hparse & Hc).
  apply bind_inv in Hc as ([temp_dir email_pdf_path] & w2 & Hpage & Hc).
  apply bind_inv in Hc as (pl' & w3' & Hatts & Hc).
  unfold ret in Hc. injection Hc as -> -> ->.
  cbn [fst snd] in Hatts. unfold step3_attachments in Hatts.
  destruct (step2_email_page_inv _ _ _ _ _ _ Hpage) as [-> Hpdf].
  assert (Hrun : convert_attachments E temp_dir 1 (sorted (sort_key E) (attachments ed))
                   [Path.join temp_dir "00_email.pdf"] w2 = (Return pdf_list, w3)).
  { destruct (attachments ed) as [|a l]; exact Hatts. }
  clear Hatts.
  apply convert_attachments_conversions in Hrun as (flags & Hrun & Hlist).
  destruct (conversions_written _ _ _ _ _ _ _ Hrun) as [Hext Hkept].
  assert (Hprocess : forall out,
            process_email_to_pdf E path out w =
              (merge_pdfs E pdf_list out ;;;
               ret (mkConversionResult true out (subject ed) (from ed)
                      (length (attachments ed)) (length pdf_list))) w3).
  { intros out. unfold process_email_to_pdf.
    by rewrite (bind_Return _ _ _ _ _ Hcollect). }
  exists w1, temp_dir, w2, flags, (existing pdf_list w3). cbv zeta.
  split; [exact Hparse|]. split; [exact Hpage|]. split; [exact Hrun|].
  split; [exact Hlist|]. split.
  { apply existing_all. rewrite Hlist. constructor; [by apply Hext|].
    apply Forall_map. exact Hkept. }
  split; [reflexivity|]. split; [exact Hprocess|]. split.
  { intros out r w' H. rewrite Hprocess in H.
    apply bind_inv in H as (u & w4 & Hmerge & H).
    unfold ret in H. injection H as <- <-.
    apply merge_pdfs_inv in Hmerge as (merged & Hmerger & ->).
    exists merged. split; [exact Hmerger|]. split; [apply files_set_file | reflexivity]. }
  split.
  { apply StronglySorted_sublist with (sorted (sort_key E) (attachments ed)).
    - rewrite <- (enumerate_from_snd 1 (sorted (sort_key E) (attachments ed))) at 2.
      apply sublist_map, keep_sublist.
    - apply sorted_StronglySorted. }
  split.
  { intros Hall. rewrite keep_all; [apply enumerate_from_snd | | exact Hall].
    rewrite (conversions_length _ _ _ _ _ _ _ Hrun).
    by rewrite <- (length_map snd (enumerate_from _ _)), enumerate_from_snd. }
  split.
  { intros Hlen.
    rewrite (sublist_same_length _ _
               (keep_sublist flags
                  (enumerate_from 1 (sorted (sort_key E) (attachments ed)))));
      [apply enumerate_from_snd|].
    rewrite Hlist, length_app, length_map in Hlen. cbn [length] in Hlen.
    rewrite <- (length_map snd (enumerate_from _ _)), enumerate_from_snd.
    rewrite (Permutation_length (sorted_Permutation (sort_key E) (attachments ed))).
    lia. }
  split; [apply sorted_Permutation|]. split; [apply sorted_StronglySorted|].
  intros k. apply sorted_stable.
Qed.

(** A message whose attachments are named [É.xyz], [è.xyz] and [z.xyz]: the
    lower-cased names are [é.xyz], [è.xyz], [z.xyz], so the pages are merged
    in the order z, è, É. *)
Lemma C4_merge_order_witness :
  let E := Run.env (Some (Run.multipart
                            [Run.text_part "See files"; Run.file_part "É.xyz" "eee";
                             Run.file_part "è.xyz" "ee"; Run.file_part "z.xyz" "z"])) in
  let w := Run.world "/in/mail.eml" (Run.bytes "raw") in
  let pdf_list := ["/tmp/tmp3/00_email.pdf"; "/tmp/tmp3/01_z.xyz.pdf";
                   "/tmp/tmp3/02_è.xyz.pdf"; "/tmp/tmp3/03_É.xyz.pdf"] in
  exists ed inputs merged,
    collect_pdfs E "/in/mail.eml" w =
      (Return (ed, pdf_list), snd (collect_pdfs E "/in/mail.eml" w)) /\
    map filename (attachments ed) = ["É.xyz"; "è.xyz"; "z.xyz"] /\
    Forall2 (fun p b => files (snd (collect_pdfs E "/in/mail.eml" w)) !! p = Some b)
      pdf_list inputs /\
    PdfMerger_merge E inputs = Return merged /\
    files (snd (process_email_to_pdf E "/in/mail.eml" "/out/mail.pdf" w))
      !! "/out/mail.pdf" = Some merged.
Proof.
  cbv zeta.
  assert (Hrun :
    exists ed,
      collect_pdfs
        (Run.env (Some (Run.multipart
                          [Run.text_part "See files"; Run.file_part "É.xyz" "eee";
                           Run.file_part "è.xyz" "ee"; Run.file_part "z.xyz" "z"])))
        "/in/mail.eml" (Run.world "/in/mail.eml" (Run.bytes "raw")) =
      (Return (ed, ["/tmp/tmp3/00_email.pdf"; "/tmp/tmp3/01_z.xyz.pdf";
                    "/tmp/tmp3/02_è.xyz.pdf"; "/tmp/tmp3/03_É.xyz.pdf"]),
       snd (collect_pdfs
              (Run.env (Some (Run.multipart
                                [Run.text_part "See files"; Run.file_part "É.xyz" "eee";
                                 Run.file_part "è.xyz" "ee"; Run.file_part "z.xyz" "z"])))
              "/in/mail.eml" (Run.world "/in/mail.eml" (Run.bytes "raw")))) /\
      map filename (attachments ed) = ["É.xyz"; "è.xyz"; "z.xyz"]).
  { eexists. split; [vm_compute; reflexivity | reflexivity]. }
  destruct Hrun as (ed & Hrun & Hnames).
  destruct (proj1 (C4_merge_order _ _ _ _ _ _ Hrun))
    as (w1 & temp_dir & w2 & flags & inputs & _ & _ & _ & _ & Hinputs & _ & _ & Hout & _).
  destruct (Hout "/out/mail.pdf"
              (mkConversionResult true "/out/mail.pdf" "Report" "alice@example.org" 3 4)
              (snd (process_email_to_pdf
                      (Run.env (Some (Run.multipart
                                        [Run.text_part "See files";
                                         Run.file_part "É.xyz" "eee";
                                         Run.file_part "è.xyz" "ee";
                                         Run.file_part "z.xyz" "z"])))
                      "/in/mail.eml" "/out/mail.pdf"
                      (Run.world "/in/mail.eml" (Run.bytes "raw"))))
              ltac:(vm_compute; reflexivity))
    as (merged & Hmerger & Hfile & _).
  exists ed, inputs, merged.
  split; [exact Hrun|]. split; [exact Hnames|]. split; [exact Hinputs|].
  split; [exact Hmerger | exact Hfile].
Defined.

(** ** A conversion that raises *)

(** What the [except] block of [convert_attachment_to_pdf] does: when the
    [try] block raises, and the error page can be rendered and written, the
    placeholder made from the first 200 characters of the message is
    written and the function returns [False]; the loop of step 3 then goes
    on to the next attachment with the list of PDFs unchanged. *)
Lemma except_block_returns_false (E : Env) (attachment_path output_pdf_path : string)
    (w w1 : World) (e : exn) (pdf : list byte) :
  convert_attachment_try E attachment_path output_pdf_path
    (Path.basename attachment_path)
    (str_lower E (Path.splitext_ext (Path.basename attachment_path))) w = (Raise e, w1) ->
  weasyprint_render E
    (Templates.error_template (Path.basename attachment_path) (Text.take 200 (str e)))
    = Return pdf ->
  can_create E output_pdf_path = true ->
  convert_attachment_to_pdf E attachment_path output_pdf_path w =
    (Return false, set_file output_pdf_path pdf w1) /\
  files (set_file output_pdf_path pdf w1) !! output_pdf_path = Some pdf /\
  forall temp_dir idx att r pdf_list,
    path att = attachment_path ->
    att_pdf_path temp_dir idx att = output_pdf_path ->
    convert_attachments E temp_dir idx (att :: r) pdf_list w =
    convert_attachments E temp_dir (idx + 1) r pdf_list (set_file output_pdf_path pdf w1).
Proof.
  intros Htry Hrender Hcreate.
  assert (Hconv : convert_attachment_to_pdf E attachment_path output_pdf_path w =
                  (Return false, set_file output_pdf_path pdf w1)).
  { unfold convert_attachment_to_pdf. cbv zeta.
    rewrite (try_except_Raise _ _ _ _ _ Htry).
    unfold convert_attachment_except. cbv zeta.
    by rewrite (bind_Return _ _ _ _ _ (write_pdf_ok _ _ _ _ _ Hrender Hcreate)). }
  split; [exact Hconv|]. split; [apply files_set_file|].
  intros temp_dir idx att r pdf_list Hpath Hout.
  cbn [convert_attachments]. cbv zeta. rewrite Hpath, Hout.
  by rewrite (bind_Return _ _ _ _ _ Hconv).
Qed.

(** C1 at a failing input: a message with two attachments, [broken.msg],
    which is not a valid .msg file, and [data.xyz], of a type the converter
    does not know.  The conversion of [broken.msg] raises; the [except]
    block writes the error placeholder to the attachment's PDF path and
    returns [False], so the caller does not append that path: the
    placeholder is written but never merged, and the result counts two
    pages for two attachments.  The placeholder of [data.xyz], whose branch
    returns [True], is merged. *)
Theorem C1_error_placeholder_not_merged :
  let E := Run.env (Some (Run.multipart
                            [Run.text_part "See files";
                             Run.file_part "broken.msg" "garbage";
                             Run.file_part "data.xyz" "12345"])) in
  let w := Run.world "/in/mail.eml" (Run.bytes "raw") in
  exists ed w',
    collect_pdfs E "/in/mail.eml" w =
      (Return (ed, ["/tmp/tmp2/00_email.pdf"; "/tmp/tmp2/02_data.xyz.pdf"]), w') /\
    map path (attachments ed) = ["/tmp/tmp0/broken.msg"; "/tmp/tmp1/data.xyz"] /\
    fst (convert_attachment_to_pdf E "/tmp/tmp0/broken.msg" "/tmp/tmp2/01_broken.msg.pdf"
           (Run.world "/tmp/tmp0/broken.msg" (Run.bytes "garbage"))) = Return false /\
    fst (convert_attachment_to_pdf E "/tmp/tmp1/data.xyz" "/tmp/tmp2/02_data.xyz.pdf"
           (Run.world "/tmp/tmp1/data.xyz" (Run.bytes "12345"))) = Return true /\
    files w' !! "/tmp/tmp2/01_broken.msg.pdf" =
      Some (Run.bytes (Templates.error_template "broken.msg" "not a compound document")) /\
    files w' !! "/tmp/tmp2/02_data.xyz.pdf" =
      Some (Run.bytes (Templates.unsupported_template "data.xyz" ".xyz")) /\
    fst (process_email_to_pdf E "/in/mail.eml" "/out/mail.pdf" w) =
      Return (mkConversionResult true "/out/mail.pdf" "Report" "alice@example.org" 2 2).
Proof.
  cbv zeta. eexists _, _. split; [vm_compute; reflexivity|].
  split; [reflexivity|]. repeat split; vm_compute; reflexivity.
Qed.

(** ** An HTML page instead of an email *)

(** The URL a request resolves to. *)
Definition resolved_url (d : gmap string string) : string :=
  if truthy (d !! "googleDriveFileId")
  then gdrive_url (default "" (d !! "googleDriveFileId"))
  else default "" (d !! "fileUrl").

(** [/convert] rejects a download that starts like an HTML page: it removes
    the temporary file and answers 400; the world it leaves shows no trace
    of a conversion (no temporary directory drawn, no other file written). *)
Lemma convert_email_to_pdf_html_page (E : Env) (d : gmap string string) (w : World)
    (body : list byte) :
  d <> ∅ ->
  truthy (d !! "fileUrl") || truthy (d !! "googleDriveFileId") = true ->
  requests_get E (resolved_url d) = Return (200, body) ->
  can_create E (Path.join (gettempdir E)
                  ("email_" +:+ urandom_hex E 8 (random_count w))) = true ->
  is_html_page (take 100 body) = true ->
  convert_email_to_pdf E (Return (Some d)) w =
    (Return (JsonError 400 html_page_error),
     mkWorld
       (delete (Path.join (gettempdir E) ("email_" +:+ urandom_hex E 8 (random_count w)))
          (<[Path.join (gettempdir E) ("email_" +:+ urandom_hex E 8 (random_count w)) := body]>
             (files w)))
       (temp_count w) (S (random_count w))).
Proof.
  intros Hd Hurl Hget Hcreate Hhtml.
  unfold convert_email_to_pdf.
  apply try_except_Return.
  unfold bind at 1, lift. unfold no_data. rewrite bool_decide_eq_false_2 by exact Hd.
  cbn [data_get mbind option_bind].
  replace (negb (truthy (d !! "fileUrl")) && negb (truthy (d !! "googleDriveFileId")))
    with false by (rewrite <- negb_orb, Hurl; reflexivity).
  unfold bind at 1, urandom_hex_.
  fold (resolved_url d). unfold bind at 1, lift. rewrite Hget. cbn [fst snd Nat.eqb negb].
  erewrite bind_Return by (apply write_file_ok; exact Hcreate).
  unfold bind at 1, read_file at 1. rewrite files_set_file. rewrite Hhtml.
  unfold bind, unlink, ret. rewrite files_set_file. reflexivity.
Qed.

(** C2 at a failing input: the URL answers 200 with an HTML sign-in page.
    [/convert] rejects it with the 400 envelope; [/convert/download] has no
    such check, runs the conversion on the page and sends the resulting PDF
    (the page's text rendered as the body of an email). *)
Theorem C2_download_skips_html_check :
  let E := Run.env None in
  let request := Return (Some ({[ "fileUrl" := "https://example.org/login" ]}
                               : gmap string string)) in
  let w := mkWorld ∅ 0 0 in
  let page := Run.bytes "<html><body>Sign in</body></html>" in
  requests_get E "https://example.org/login" = Return (200, page) /\
  is_html_page (take 100 page) = true /\
  fst (convert_email_to_pdf E request w) = Return (JsonError 400 html_page_error) /\
  exists html,
    create_gmail_html
      (mkEmailData "" "" "" "" "" (Str "<html><body>Sign in</body></html>") (Str "") []) =
      Return html /\
    fst (convert_and_download E request w) =
      Return (SendFile (Run.bytes html) "email_printout.pdf").
Proof.
  cbv zeta. split; [reflexivity|]. split; [reflexivity|].
  split; [vm_compute; reflexivity|].
  eexists. split; [reflexivity|]. vm_compute. reflexivity.
Qed.


(** * Further properties of the pipeline *)

(** ** Files are only added, at the level of the whole conversion *)

(** X5: a conversion never removes a file: whether it returns or raises,
    every file present before is present after, the count of temporary
    directories has not gone down, and no random name was drawn. *)
Theorem process_only_adds_files (E : Env) (path out : string) (w : World) :
  let w' := snd (process_email_to_pdf E path out w) in
  (forall p, is_Some (files w !! p) -> is_Some (files w' !! p)) /\
  temp_count w <= temp_count w' /\
  random_count w' = random_count w.
Proof. apply growing_process_email_to_pdf. Qed.

(** ** The type of the input file *)

Lemma detect_type_extension (E : Env) (path : string) (w : World) :
  str_lower E (Path.splitext_ext path) <> "" ->
  detect_type E path w = (Return (str_lower E (Path.splitext_ext path)), w).
Proof.
  intros H. unfold detect_type.
  destruct (str_lower E (Path.splitext_ext path)); [contradiction | reflexivity].
Qed.

(** X1: an input whose extension is neither .eml nor .msg (in any letter
    case) is refused with [ValueError("Unsupported file type: <ext>")]
    before anything is read or written. *)
Theorem unsupported_extension_raises (E : Env) (path out : string) (w : World) :
  str_lower E (Path.splitext_ext path) <> "" ->
  str_lower E (Path.splitext_ext path) <> ".eml" ->
  str_lower E (Path.splitext_ext path) <> ".msg" ->
  process_email_to_pdf E path out w =
    (Raise (Exception ("Unsupported file type: " +:+ str_lower E (Path.splitext_ext path))),
     w).
Proof.
  intros Hext Heml Hmsg.
  unfold process_email_to_pdf, collect_pdfs, step1_parse.
  apply bind_Raise, bind_Raise.
  rewrite (bind_Return _ _ _ _ _ (detect_type_extension E path w Hext)).
  apply String.eqb_neq in Heml, Hmsg. by rewrite Heml, Hmsg.
Qed.

Lemma unsupported_extension_raises_witness :
  process_email_to_pdf (Run.env None) "/in/photo.PNG" "/out/photo.pdf"
    (Run.world "/in/photo.PNG" (Run.bytes "raw")) =
  (Raise (Exception "Unsupported file type: .png"),
   Run.world "/in/photo.PNG" (Run.bytes "raw")).
Proof.
  apply (unsupported_extension_raises (Run.env None) "/in/photo.PNG" "/out/photo.pdf");
    vm_compute; discriminate.
Defined.

(** X2: when the path has an extension, the extension alone decides, in any
    letter case, and the content is not looked at: a file named [.eml] goes
    to the .eml parser even if it starts with the compound-document magic
    number, a file named [.msg] to the .msg parser whatever it holds, and
    any other extension is refused. *)
Theorem extension_decides_parser (E : Env) (path : string) (w : World) :
  str_lower E (Path.splitext_ext path) <> "" ->
  step1_parse E path w =
    if String.eqb (str_lower E (Path.splitext_ext path)) ".eml"
    then parse_eml_file E path w
    else if String.eqb (str_lower E (Path.splitext_ext path)) ".msg"
    then parse_msg_file E path w
    else (Raise (unsupported_file_type (str_lower E (Path.splitext_ext path))), w).
Proof.
  intros H. unfold step1_parse.
  rewrite (bind_Return _ _ _ _ _ (detect_type_extension E path w H)).
  destruct (String.eqb _ ".eml"); [reflexivity|].
  destruct (String.eqb _ ".msg"); reflexivity.
Qed.

Lemma extension_decides_parser_witness :
  step1_parse (Run.env None) "/in/Mail.EML"
    (Run.world "/in/Mail.EML" (magic ++ Run.bytes "not really a .msg")) =
  parse_eml_file (Run.env None) "/in/Mail.EML"
    (Run.world "/in/Mail.EML" (magic ++ Run.bytes "not really a .msg")).
Proof.
  apply (extension_decides_parser (Run.env None) "/in/Mail.EML"
           (Run.world "/in/Mail.EML" (magic ++ Run.bytes "not really a .msg"))).
  vm_compute. discriminate.
Defined.

(** ** The merger *)

Lemma existing_omap (pdf_list : list string) (w : World) :
  existing pdf_list w = omap (fun p => files w !! p) pdf_list.
Proof.
  induction pdf_list as [|p r IH]; [reflexivity|]. cbn [existing omap list_omap].
  rewrite IH. by destruct (files w !! p).
Qed.

(** X3: a listed path that does not exist is skipped without error: the
    merge gives what it gives for the list without that path. *)
Theorem merge_pdfs_skips_missing (E : Env) (before after : list string) (p out : string)
    (w : World) :
  files w !! p = None ->
  merge_pdfs E (before ++ p :: after) out w = merge_pdfs E (before ++ after) out w.
Proof.
  intros Hp. unfold merge_pdfs. unfold bind at 1 3.
  rewrite !existing_omap, !omap_app. cbn [omap list_omap]. by rewrite Hp.
Qed.

Lemma merge_pdfs_skips_missing_witness :
  merge_pdfs (Run.env None) ["/t/00_email.pdf"; "/t/01_gone.pdf"] "/out/o.pdf"
    (Run.world "/t/00_email.pdf" (Run.bytes "page")) =
  merge_pdfs (Run.env None) ["/t/00_email.pdf"] "/out/o.pdf"
    (Run.world "/t/00_email.pdf" (Run.bytes "page")).
Proof.
  apply (merge_pdfs_skips_missing (Run.env None) ["/t/00_email.pdf"] []).
  reflexivity.
Defined.

(** ** What a successful conversion leaves *)

Lemma collect_pdfs_length (E : Env) path w ed pdf_list w' :
  collect_pdfs E path w = (Return (ed, pdf_list), w') ->
  1 <= length pdf_list <= 1 + length (attachments ed).
Proof.
  unfold collect_pdfs. intros H.
  apply bind_inv in H as (ed' & w1 & _ & H).
  apply bind_inv in H as ([temp_dir email_pdf_path] & w2 & _ & H).
  apply bind_inv in H as (pl & w3 & Hatts & H).
  unfold ret in H. injection H as -> -> _.
  cbn [fst snd] in Hatts. unfold step3_attachments in Hatts.
  assert (Hrun : convert_attachments E temp_dir 1 (sorted (sort_key E) (attachments ed))
                   [email_pdf_path] w2 = (Return pdf_list, w3)).
  { destruct (attachments ed) as [|a l]; exact Hatts. }
  apply convert_attachments_kept in Hrun as (kept & Hsub & ->).
  apply sublist_length in Hsub.
  rewrite <- (length_map snd (enumerate_from _ _)), enumerate_from_snd in Hsub.
  rewrite (Permutation_length (sorted_Permutation (sort_key E) (attachments ed))) in Hsub.
  cbn [app length]. rewrite length_map. lia.
Qed.

(** X4: when the conversion returns, the output path holds the bytes the
    merger produced, the result names that path, and [total_pages] (the
    number of PDFs merged, not of pages) is at least 1 and at most one more
    than [attachment_count]. *)
Theorem process_success_output (E : Env) (path out : string) (w w' : World)
    (r : ConversionResult) :
  process_email_to_pdf E path out w = (Return r, w') ->
  output_path r = out /\
  (exists inputs merged,
     PdfMerger_merge E inputs = Return merged /\ files w' !! out = Some merged) /\
  1 <= total_pages r <= 1 + attachment_count r.
Proof.
  unfold process_email_to_pdf. intros H.
  apply bind_inv in H as ([ed pl] & w1 & Hc & H).
  apply bind_inv in H as (u & w2 & Hm & H).
  unfold ret in H. injection H as <- <-. cbn [fst snd] in *.
  apply merge_pdfs_inv in Hm as (merged & Hm & ->).
  split; [reflexivity|]. split.
  - exists (existing pl w1), merged. split; [exact Hm | apply files_set_file].
  - by apply collect_pdfs_length in Hc.
Qed.

Lemma process_success_output_witness :
  exists inputs merged,
    PdfMerger_merge (Run.env None) inputs = Return merged /\
    files (snd (process_email_to_pdf (Run.env None) "/in/mail.eml" "/out/mail.pdf"
                  (Run.world "/in/mail.eml" (Run.bytes "Hello"))))
      !! "/out/mail.pdf" = Some merged.
Proof.
  refine (proj1 (proj2 (process_success_output (Run.env None) "/in/mail.eml"
                          "/out/mail.pdf" (Run.world "/in/mail.eml" (Run.bytes "Hello"))
                          _ (mkConversionResult true "/out/mail.pdf" "" "" 0 1) _))).
  vm_compute. reflexivity.
Defined.

(** ** What the parsers extract *)

(** The entry a part with a file name gives, when its file can be created in
    the [n]-th temporary directory and it has a payload. *)
Definition saved_attachment (E : Env) (n : nat) (part : Mime.Part) : option Attachment :=
  match Mime.get_filename part, Mime.get_payload part with
  | Some (String _ _ as name), Some b =>
      let attachment_path := Path.join (mkdtemp_name E n) name in
      if can_create E attachment_path
      then Some (mkAttachment name attachment_path (Mime.get_content_type part)
                   (N.of_nat (length b)))
      else None
  | _, _ => None
  end.

(** The entries of a walk that starts with [n] temporary directories drawn:
    every part with a file name takes the next directory, whether or not
    its extraction succeeds. *)
Fixpoint saved_attachments (E : Env) (n : nat) (parts : list Mime.Part) : list Attachment :=
  match parts with
  | [] => []
  | part :: r =>
      option_list (saved_attachment E n part) ++
      saved_attachments E (if truthy (Mime.get_filename part) then S n else n) r
  end.

(** The number of parts with a file name. *)
Definition named_parts (parts : list Mime.Part) : nat :=
  length (filter (fun part => truthy (Mime.get_filename part) = true) parts).

Lemma getsize_set_file (path : string) (b : list byte) (w : World) :
  getsize path (set_file path b w) = (Return (N.of_nat (length b)), set_file path b w).
Proof. unfold getsize, bind, read_file. by rewrite files_set_file. Qed.

Lemma set_file_twice (path : string) (b1 b2 : list byte) (w : World) :
  set_file path b2 (set_file path b1 w) = set_file path b2 w.
Proof. unfold set_file. cbn. by rewrite insert_insert_eq. Qed.

(** The [try] around the extraction of one attachment, in all its cases. *)
Lemma save_attachment_cases (E : Env) ed name ap ct payload w :
  try_except (save_attachment E ed name ap ct payload) (fun _ => ret ed) w =
    if can_create E ap then
      match payload with
      | Some b =>
          (Return (append_attachment ed (mkAttachment name ap ct (N.of_nat (length b)))),
           set_file ap b w)
      | None => (Return ed, set_file ap [] w)
      end
    else (Return ed, w).
Proof.
  unfold try_except, save_attachment. unfold bind at 1, open_wb.
  destruct (can_create E ap); [|reflexivity].
  destruct payload as [b|].
  - unfold bind at 1, ret at 1. unfold bind at 1, f_write. rewrite set_file_twice.
    unfold bind at 1. by rewrite getsize_set_file.
  - reflexivity.
Qed.

(** A turn of the loop that leaves the attachments as they are. *)
Ltac attachments_unchanged :=
  eexists _, _; split; [reflexivity|];
  cbn; rewrite app_nil_r; split; reflexivity.

Lemma walk_part_saved (E : Env) (ed0 : EmailData) (part : Mime.Part) (w : World) :
  exists ed w',
    walk_part E ed0 part w = (Return ed, w') /\
    attachments ed = attachments ed0 ++ option_list (saved_attachment E (temp_count w) part) /\
    temp_count w' =
      (if truthy (Mime.get_filename part) then S (temp_count w) else temp_count w).
Proof.
  unfold walk_part, saved_attachment, is_attachment_part.
  destruct (Mime.get_filename part) as [[|c name]|] eqn:Hname; cbn [truthy Text.is_empty negb].
  - (* an empty file name *)
    rewrite orb_false_r.
    destruct (Text.contains "attachment" (Mime.content_disposition part));
      [attachments_unchanged|].
    destruct (String.eqb (Mime.get_content_type part) "text/plain"
              && negb (is_true (body_text ed0))).
    { unfold try_except, bind, lift, ret.
      destruct (Mime.get_content part); attachments_unchanged. }
    destruct (String.eqb (Mime.get_content_type part) "text/html"
              && negb (is_true (body_html ed0))).
    { unfold try_except, bind, lift, ret.
      destruct (Mime.get_content part); attachments_unchanged. }
    attachments_unchanged.
  - (* a file name: the attachment branch *)
    rewrite orb_true_r. unfold bind at 1, mkdtemp.
    rewrite save_attachment_cases. cbv zeta.
    destruct (Mime.get_payload part) as [b|];
      destruct (can_create E _); try attachments_unchanged.
    eexists _, _. split; [reflexivity|]. split; reflexivity.
  - (* no file name *)
    rewrite orb_false_r.
    destruct (Text.contains "attachment" (Mime.content_disposition part));
      [attachments_unchanged|].
    destruct (String.eqb (Mime.get_content_type part) "text/plain"
              && negb (is_true (body_text ed0))).
    { unfold try_except, bind, lift, ret.
      destruct (Mime.get_content part); attachments_unchanged. }
    destruct (String.eqb (Mime.get_content_type part) "text/html"
              && negb (is_true (body_html ed0))).
    { unfold try_except, bind, lift, ret.
      destruct (Mime.get_content part); attachments_unchanged. }
    attachments_unchanged.
Qed.

Lemma walk_saved (E : Env) (parts : list Mime.Part) (ed0 : EmailData) (w : World) :
  exists ed w',
    for_each parts (walk_part E) ed0 w = (Return ed, w') /\
    attachments ed = attachments ed0 ++ saved_attachments E (temp_count w) parts /\
    temp_count w' = temp_count w + named_parts parts.
Proof.
  revert ed0 w. induction parts as [|part r IH]; intros ed0 w.
  - exists ed0, w. cbn. by rewrite app_nil_r, Nat.add_0_r.
  - destruct (walk_part_saved E ed0 part w) as (ed1 & w1 & Hstep & Ha1 & Ht1).
    destruct (IH ed1 w1) as (ed & w' & Hrest & Ha & Ht).
    exists ed, w'. split; [|split].
    + cbn [for_each]. by rewrite (bind_Return _ _ _ _ _ Hstep).
    + rewrite Ha, Ha1, Ht1, <- app_assoc. reflexivity.
    + rewrite Ht, Ht1. unfold named_parts. rewrite filter_cons.
      destruct (truthy (Mime.get_filename part)); cbn.
      * rewrite decide_True by done. cbn. lia.
      * rewrite decide_False by done. reflexivity.
Qed.

Lemma attachment_names_cons (part : Mime.Part) (r : list Mime.Part) :
  attachment_names (part :: r) =
    match (if is_attachment_part part && truthy (Mime.get_filename part)
           then Mime.get_filename part else None) with
    | Some name => name :: attachment_names r
    | None => attachment_names r
    end.
Proof. reflexivity. Qed.

Lemma saved_attachments_names (E : Env) (n : nat) (parts : list Mime.Part) :
  (forall p, can_create E p = true) ->
  Forall (fun part => truthy (Mime.get_filename part) = true ->
                      is_Some (Mime.get_payload part)) parts ->
  map filename (saved_attachments E n parts) = attachment_names parts.
Proof.
  intros Hcreate Hparts. revert n.
  induction Hparts as [|part r Hpart Hr IH]; intros n; [reflexivity|].
  cbn [saved_attachments]. rewrite map_app, IH, attachment_names_cons.
  unfold saved_attachment, is_attachment_part.
  destruct (Mime.get_filename part) as [[|c name]|] eqn:Hname;
    cbn [truthy Text.is_empty negb]; rewrite ?andb_false_r; try reflexivity.
  rewrite orb_true_r. cbn [andb].
  destruct Hpart as [b Hb]; [reflexivity|]. rewrite Hb. cbv zeta.
  by rewrite Hcreate.
Qed.

(** X6: the attachments of a multipart message are exactly the parts with a
    file name whose file could be created and whose payload could be
    written, in walk order, each saved under its own name in a temporary
    directory of its own; a part whose extraction fails is left out and the
    parse goes on.  When no extraction fails there is one attachment per
    part with a file name. *)
Theorem parse_eml_attachments (E : Env) (path : string) (w : World) (f : list byte)
    (msg : Mime.Message) :
  files w !! path = Some f ->
  BytesParser_parse E f = Return msg ->
  Mime.is_multipart msg = true ->
  exists ed w',
    parse_eml_file E path w = (Return ed, w') /\
    attachments ed = saved_attachments E (temp_count w) (Mime.walk msg) /\
    temp_count w' = temp_count w + named_parts (Mime.walk msg) /\
    ((forall p, can_create E p = true) ->
     Forall (fun part => truthy (Mime.get_filename part) = true ->
                         is_Some (Mime.get_payload part)) (Mime.walk msg) ->
     map filename (attachments ed) = attachment_names (Mime.walk msg) /\
     length (attachments ed) = named_parts (Mime.walk msg)).
Proof.
  intros Hf Hparse Hmulti.
  unfold parse_eml_file. unfold bind at 1. unfold read_file at 1. rewrite Hf.
  unfold bind at 1, lift. rewrite Hparse, Hmulti.
  match goal with
  | |- context [for_each ?l ?b ?ed0 ?w0] =>
      destruct (walk_saved E l ed0 w0) as (ed & w' & Hrun & Ha & Ht)
  end.
  exists ed, w'. cbn [attachments app] in Ha.
  split; [exact Hrun|]. split; [exact Ha|]. split; [exact Ht|].
  intros Hcreate Hparts. rewrite Ha.
  pose proof (saved_attachments_names E (temp_count w) _ Hcreate Hparts) as Hnames.
  split; [exact Hnames|].
  rewrite <- (length_map filename), Hnames.
  clear. unfold named_parts.
  induction (Mime.walk msg) as [|part r IH]; [reflexivity|].
  rewrite attachment_names_cons, filter_cons. unfold is_attachment_part.
  destruct (Mime.get_filename part) as [[|c name]|];
    cbn [truthy Text.is_empty negb]; rewrite ?andb_false_r, ?orb_true_r; cbn [andb].
  - rewrite decide_False by done. exact IH.
  - rewrite decide_True by done. cbn [length]. by rewrite <- IH.
  - rewrite decide_False by done. exact IH.
Qed.

Lemma parse_eml_attachments_witness :
  exists ed w',
    parse_eml_file
      (Run.env (Some (Run.multipart
                        [Run.text_part "Hi"; Run.file_part "b.txt" "bbb";
                         Mime.mkPart "application/pdf" "attachment" (Some "lost.pdf") None
                           (Raise (Exception "binary content"));
                         Run.file_part "a.txt" "a"])))
      "/in/mail.eml" (Run.world "/in/mail.eml" (Run.bytes "raw")) = (Return ed, w') /\
    attachments ed =
      [mkAttachment "b.txt" "/tmp/tmp0/b.txt" "application/octet-stream" 3;
       mkAttachment "a.txt" "/tmp/tmp2/a.txt" "application/octet-stream" 1] /\
    temp_count w' = 3.
Proof.
  destruct (parse_eml_attachments
              (Run.env (Some (Run.multipart
                        [Run.text_part "Hi"; Run.file_part "b.txt" "bbb";
                         Mime.mkPart "application/pdf" "attachment" (Some "lost.pdf") None
                           (Raise (Exception "binary content"));
                         Run.file_part "a.txt" "a"])))
              "/in/mail.eml" (Run.world "/in/mail.eml" (Run.bytes "raw"))
              (Run.bytes "raw") _ eq_refl eq_refl eq_refl)
    as (ed & w' & Hrun & Ha & Ht & _).
  exists ed, w'. split; [exact Hrun|]. split; [exact Ha | exact Ht].
Defined.

(** X7: when a part has a file name but no payload to write, its file has
    already been created: the attachment is dropped, the parse goes on, and
    an empty file stays behind in the directory drawn for it. *)
Theorem extraction_failure_leaves_empty_file (E : Env) (ed : EmailData)
    (part : Mime.Part) (w : World) (name : string) :
  Mime.get_filename part = Some name ->
  name <> "" ->
  Mime.get_payload part = None ->
  can_create E (Path.join (mkdtemp_name E (temp_count w)) name) = true ->
  walk_part E ed part w =
    (Return ed,
     set_file (Path.join (mkdtemp_name E (temp_count w)) name) []
       (mkWorld (files w) (S (temp_count w)) (random_count w))).
Proof.
  intros Hname Hne Hpayload Hcreate.
  unfold walk_part, is_attachment_part. rewrite Hname, Hpayload.
  destruct name as [|c name]; [contradiction|].
  cbn [truthy Text.is_empty negb]. rewrite orb_true_r.
  unfold bind at 1, mkdtemp. rewrite save_attachment_cases. by rewrite Hcreate.
Qed.

Lemma extraction_failure_leaves_empty_file_witness :
  walk_part (Run.env None)
    (mkEmailData "" "" "" "" "" (Str "") (Str "") [])
    (Mime.mkPart "application/pdf" "attachment" (Some "lost.pdf") None
       (Raise (Exception "binary content")))
    (mkWorld ∅ 0 0) =
  (Return (mkEmailData "" "" "" "" "" (Str "") (Str "") []),
   set_file "/tmp/tmp0/lost.pdf" [] (mkWorld ∅ 1 0)).
Proof.
  apply (extraction_failure_leaves_empty_file (Run.env None) _ _ (mkWorld ∅ 0 0) "lost.pdf");
    first [reflexivity | discriminate].
Defined.

(** X8: the file name of a part is joined to the temporary directory as it
    is: an absolute name replaces the directory, so the payload is written
    at that very path, over whatever file was there, and the attachment
    entry points to it. *)
Theorem absolute_filename_escapes_temp_dir (E : Env) (ed : EmailData)
    (part : Mime.Part) (w : World) (rest : string) (b : list byte) :
  Mime.get_filename part = Some (String "/" rest) ->
  Mime.get_payload part = Some b ->
  can_create E (String "/" rest) = true ->
  walk_part E ed part w =
    (Return (append_attachment ed
               (mkAttachment (String "/" rest) (String "/" rest)
                  (Mime.get_content_type part) (N.of_nat (length b)))),
     set_file (String "/" rest) b
       (mkWorld (files w) (S (temp_count w)) (random_count w))).
Proof.
  intros Hname Hpayload Hcreate.
  unfold walk_part, is_attachment_part. rewrite Hname, Hpayload.
  cbn [truthy Text.is_empty negb]. rewrite orb_true_r.
  unfold bind at 1, mkdtemp. rewrite save_attachment_cases.
  change (Path.join (mkdtemp_name E (temp_count w)) (String "/" rest))
    with (String "/" rest).
  by rewrite Hcreate.
Qed.

Lemma absolute_filename_escapes_temp_dir_witness :
  walk_part (Run.env None)
    (mkEmailData "" "" "" "" "" (Str "") (Str "") [])
    (Run.file_part "/home/user/.profile" "payload")
    (Run.world "/home/user/.profile" (Run.bytes "original")) =
  (Return (mkEmailData "" "" "" "" "" (Str "") (Str "")
             [mkAttachment "/home/user/.profile" "/home/user/.profile"
                "application/octet-stream" 7]),
   set_file "/home/user/.profile" (Run.bytes "payload")
     (mkWorld {[ "/home/user/.profile" := Run.bytes "original" ]} 1 0)).
Proof.
  apply (absolute_filename_escapes_temp_dir (Run.env None)
           (mkEmailData "" "" "" "" "" (Str "") (Str "") [])
           (Run.file_part "/home/user/.profile" "payload")
           (Run.world "/home/user/.profile" (Run.bytes "original"))
           "home/user/.profile" (Run.bytes "payload"));
    reflexivity.
Defined.

(** X9: a message that is not multipart gives its whole content as the text
    body, whatever its content type (text, or a bytes object for content
    that is not text), an empty HTML body and no attachment; content that
    cannot be read gives an empty text body instead of an error; nothing is
    written. *)
Theorem parse_eml_not_multipart (E : Env) (path : string) (w : World) (f : list byte)
    (msg : Mime.Message) :
  files w !! path = Some f ->
  BytesParser_parse E f = Return msg ->
  Mime.is_multipart msg = false ->
  parse_eml_file E path w =
    (Return
       (mkEmailData (header msg "From") (header msg "To") (header msg "CC")
          (header msg "Subject") (header msg "Date")
          (match Mime.msg_get_content msg with Return c => c | Raise _ => Str "" end)
          (Str "") []),
     w).
Proof.
  intros Hf Hparse Hmulti.
  unfold parse_eml_file. unfold bind at 1. unfold read_file at 1. rewrite Hf.
  unfold bind at 1, lift. rewrite Hparse, Hmulti.
  unfold try_except, bind, ret. by destruct (Mime.msg_get_content msg).
Qed.

Lemma parse_eml_not_multipart_witness :
  parse_eml_file (Run.env None) "/in/page.eml"
    (Run.world "/in/page.eml" (Run.bytes "<p>Hi</p>")) =
  (Return (mkEmailData "" "" "" "" "" (Str "<p>Hi</p>") (Str "") []),
   Run.world "/in/page.eml" (Run.bytes "<p>Hi</p>")).
Proof.
  apply (parse_eml_not_multipart (Run.env None) "/in/page.eml"
           (Run.world "/in/page.eml" (Run.bytes "<p>Hi</p>")) (Run.bytes "<p>Hi</p>")
           (Run.plain_message (Run.bytes "<p>Hi</p>")));
    reflexivity.
Defined.

(** The name under which an attachment of a .msg file is saved. *)
Definition msg_filename (attachment : ExtractMsg.Attachment) : string :=
  default "unknown"
    (or_ (or_ (ExtractMsg.longFilename attachment) (ExtractMsg.shortFilename attachment))
         (Some "unknown")).

(** The entry an attachment of a .msg file gives, when its file can be
    created in [temp_dir] and its data are bytes. *)
Definition msg_saved_attachment (E : Env) (temp_dir : string)
    (attachment : ExtractMsg.Attachment) : option Attachment :=
  let name := msg_filename attachment in
  let attachment_path := Path.join temp_dir name in
  if can_create E attachment_path then
    match ExtractMsg.data attachment with
    | Some b =>
        Some (mkAttachment name attachment_path "application/octet-stream"
                (N.of_nat (length b)))
    | None => None
    end
  else None.

Lemma msg_filename_not_empty (attachment : ExtractMsg.Attachment) :
  msg_filename attachment <> "".
Proof.
  unfold msg_filename, or_.
  destruct (ExtractMsg.longFilename attachment) as [[|c s]|];
    destruct (ExtractMsg.shortFilename attachment) as [[|c' s']|]; cbn; discriminate.
Qed.

Lemma msg_attachments_saved (E : Env) (temp_dir : string)
    (l : list ExtractMsg.Attachment) (ed0 : EmailData) (w : World) :
  exists ed w',
    for_each l (msg_attachment E temp_dir) ed0 w = (Return ed, w') /\
    attachments ed = attachments ed0 ++ omap (msg_saved_attachment E temp_dir) l /\
    from ed = from ed0 /\ to ed = to ed0 /\ cc ed = cc ed0 /\
    subject ed = subject ed0 /\ date ed = date ed0 /\
    body_text ed = body_text ed0 /\ body_html ed = body_html ed0 /\
    temp_count w' = temp_count w.
Proof.
  revert ed0 w. induction l as [|a l IH]; intros ed0 w.
  - exists ed0, w. cbn. rewrite app_nil_r. repeat split.
  - cbn [for_each]. unfold bind at 1, msg_attachment at 1. fold (msg_filename a).
    rewrite save_attachment_cases.
    change (omap (msg_saved_attachment E temp_dir) (a :: l))
      with (match msg_saved_attachment E temp_dir a with
            | Some x => x :: omap (msg_saved_attachment E temp_dir) l
            | None => omap (msg_saved_attachment E temp_dir) l
            end).
    unfold msg_saved_attachment at 1. cbv zeta.
    destruct (can_create E (Path.join temp_dir (msg_filename a))).
    + destruct (ExtractMsg.data a) as [b|].
      * match goal with
        | |- context [for_each l _ ?ed1 ?w1] =>
            destruct (IH ed1 w1) as (ed & w' & Hrun & Ha & Hrest)
        end.
        exists ed, w'. split; [exact Hrun|]. split; [|exact Hrest].
        rewrite Ha. cbn [attachments append_attachment]. by rewrite <- app_assoc.
      * match goal with
        | |- context [for_each l _ ?ed1 ?w1] =>
            destruct (IH ed1 w1) as (ed & w' & Hrun & Ha & Hrest)
        end.
        exists ed, w'. split; [exact Hrun|]. split; [exact Ha | exact Hrest].
    + destruct (IH ed0 w) as (ed & w' & Hrun & Ha & Hrest).
      exists ed, w'. split; [exact Hrun|]. split; [exact Ha | exact Hrest].
Qed.

(** X10: parsing a .msg file draws one temporary directory, and every
    attachment whose extraction succeeds is saved in it under its long name,
    else its short name, else [unknown] (never an empty name), with content
    type application/octet-stream; missing header or body fields become
    empty strings, and an HTML body is kept as the bytes the library
    returns; an attachment whose extraction fails is left out. *)
Theorem parse_msg_file_record (E : Env) (file_path : string) (w : World) (f : list byte)
    (msg : ExtractMsg.Message) :
  files w !! file_path = Some f ->
  extract_msg_Message E f = Return msg ->
  exists ed w',
    parse_msg_file E file_path w = (Return ed, w') /\
    temp_count w' = S (temp_count w) /\
    attachments ed =
      omap (msg_saved_attachment E (mkdtemp_name E (temp_count w)))
        (ExtractMsg.attachments msg) /\
    Forall (fun att =>
              filename att <> "" /\
              path att = Path.join (mkdtemp_name E (temp_count w)) (filename att) /\
              content_type att = "application/octet-stream")
      (attachments ed) /\
    from ed = or_empty (ExtractMsg.sender msg) /\
    to ed = or_empty (ExtractMsg.to msg) /\
    cc ed = or_empty (ExtractMsg.cc msg) /\
    subject ed = or_empty (ExtractMsg.subject msg) /\
    date ed = or_empty (ExtractMsg.date msg) /\
    body_text ed = Str (or_empty (ExtractMsg.body msg)) /\
    body_html ed = html_body_or_empty (ExtractMsg.htmlBody msg).
Proof.
  intros Hf Hparse.
  unfold parse_msg_file. unfold bind at 1. unfold read_file at 1. rewrite Hf.
  unfold bind at 1, lift. rewrite Hparse. unfold bind at 1, mkdtemp.
  match goal with
  | |- context [for_each ?l ?b ?ed0 ?w0] =>
      destruct (msg_attachments_saved E (mkdtemp_name E (temp_count w)) l ed0 w0)
        as (ed & w' & Hrun & Ha & H1 & H2 & H3 & H4 & H5 & H6 & H7 & Ht)
  end.
  exists ed, w'. cbn in Ha, H1, H2, H3, H4, H5, H6, H7, Ht.
  split; [exact Hrun|]. split; [exact Ht|]. split; [exact Ha|].
  split; [|by repeat split].
  rewrite Ha. clear. induction (ExtractMsg.attachments msg) as [|a l IH]; [constructor|].
  change (omap ?g (a :: l))
    with (match g a with Some x => x :: omap g l | None => omap g l end).
  unfold msg_saved_attachment at 1. cbv zeta.
  destruct (can_create E _); [|exact IH].
  destruct (ExtractMsg.data a); [|exact IH].
  constructor; [|exact IH]. cbn. split; [apply msg_filename_not_empty | done].
Qed.

Lemma parse_msg_file_record_witness :
  exists ed w',
    parse_msg_file (Run.env None) "/in/old.msg"
      (Run.world "/in/old.msg" (magic ++ Run.bytes "ole")) = (Return ed, w') /\
    temp_count w' = 1 /\ attachments ed = [] /\
    from ed = "carol@example.org" /\ to ed = "" /\ subject ed = "Legacy".
Proof.
  destruct (parse_msg_file_record (Run.env None) "/in/old.msg"
              (Run.world "/in/old.msg" (magic ++ Run.bytes "ole"))
              (magic ++ Run.bytes "ole") _ eq_refl eq_refl)
    as (ed & w' & Hrun & Ht & Ha & _ & Hfrom & Hto & _ & Hsubj & _).
  exists ed, w'. repeat split; assumption.
Defined.

(** ** The dispatch on the extension of an attachment *)



(** The extensions [convert_attachment_to_pdf] has a conversion for. *)
Definition known_extensions : list string :=
  [".eml"; ".msg"; ".pdf"; ".txt"; ".log"; ".csv";
   ".png"; ".jpg"; ".jpeg"; ".gif"; ".bmp"].

Lemma one_of_known_false (ext : string) (l : list string) :
  one_of ext known_extensions = false ->
  (forall x, In x l -> In x known_extensions) ->
  one_of ext l = false.
Proof.
  unfold one_of. intros Hk Hl. destruct (existsb (String.eqb ext) l) eqn:H; [|reflexivity].
  apply existsb_exists in H as (x & Hx & Heq).
  assert (existsb (String.eqb ext) known_extensions = true) as Hc.
  { apply existsb_exists. exists x. split; [by apply Hl | exact Heq]. }
  congruence.
Qed.

(** X12: an attachment of any other extension (or of none) gets the
    placeholder that names the file and the extension, and counts as
    converted; the attachment itself is not read, so this holds even when its
    file is missing. *)
Theorem unsupported_attachment_placeholder (E : Env)
    (attachment_path output_pdf_path : string) (w : World) (pdf : list byte) :
  one_of (str_lower E (Path.splitext_ext (Path.basename attachment_path)))
    known_extensions = false ->
  weasyprint_render E
    (Templates.unsupported_template (Path.basename attachment_path)
       (str_lower E (Path.splitext_ext (Path.basename attachment_path)))) = Return pdf ->
  can_create E output_pdf_path = true ->
  convert_attachment_to_pdf E attachment_path output_pdf_path w =
    (Return true, set_file output_pdf_path pdf w).
Proof.
  intros Hext Hrender Hcreate.
  unfold convert_attachment_to_pdf. cbv zeta. apply try_except_Return.
  unfold convert_attachment_try.
  rewrite (one_of_known_false _ [".eml"; ".msg"] Hext) by (cbn; tauto).
  rewrite (one_of_known_false _ [".txt"; ".log"; ".csv"] Hext) by (cbn; tauto).
  rewrite (one_of_known_false _ [".png"; ".jpg"; ".jpeg"; ".gif"; ".bmp"] Hext)
    by (cbn; tauto).
  assert (Hpdf : String.eqb (str_lower E (Path.splitext_ext (Path.basename attachment_path)))
                   ".pdf" = false).
  { pose proof (one_of_known_false _ [".pdf"] Hext) as H. unfold one_of in H. cbn in H.
    rewrite orb_false_r in H. apply H. tauto. }
  rewrite Hpdf. cbv zeta.
  by rewrite (bind_Return _ _ _ _ _ (write_pdf_ok _ _ _ _ _ Hrender Hcreate)).
Qed.

Lemma unsupported_attachment_placeholder_witness :
  convert_attachment_to_pdf (Run.env None) "/tmp/tmp0/data.xyz" "/tmp/tmp1/01_data.xyz.pdf"
    (mkWorld ∅ 2 0) =
  (Return true,
   set_file "/tmp/tmp1/01_data.xyz.pdf"
     (Run.bytes (Templates.unsupported_template "data.xyz" ".xyz")) (mkWorld ∅ 2 0)).
Proof.
  apply (unsupported_attachment_placeholder (Run.env None) "/tmp/tmp0/data.xyz"
           "/tmp/tmp1/01_data.xyz.pdf"); reflexivity.
Defined.

(** ** The body of the page *)

Lemma contains_char_cons (x c : ascii) (t : string) :
  Text.contains (String x "") (String c t) =
    Ascii.eqb x c || Text.contains (String x "") t.
Proof.
  cbn [Text.contains String.prefix].
  destruct (ascii_dec x c) as [->|Hne].
  - rewrite Ascii.eqb_refl. by destruct t.
  - apply Ascii.eqb_neq in Hne. by rewrite Hne.
Qed.

Lemma contains_char_app (x : ascii) (a b : string) :
  Text.contains (String x "") (a +:+ b) =
    Text.contains (String x "") a || Text.contains (String x "") b.
Proof.
  induction a as [|c a IH].
  - change ("" +:+ b) with b. by destruct b.
  - change (String c a +:+ b) with (String c (a +:+ b)).
    rewrite !contains_char_cons, IH. apply orb_assoc.
Qed.

(** X13: the escaped body holds no [<] and no [>], whatever the body was:
    nothing in it can open or close a tag of the page. *)
Theorem escaped_body_has_no_angle_bracket (s : string) :
  Text.contains "<" (Html.escape_body s) = false /\
  Text.contains ">" (Html.escape_body s) = false.
Proof.
  rewrite escape_body_chars.
  induction s as [|c r [IH1 IH2]]; [split; reflexivity|].
  cbn [escape_chars]. rewrite !contains_char_app, IH1, IH2, !orb_false_r.
  unfold entity.
  destruct (Ascii.eqb_spec c "&") as [->|Hamp]; [split; reflexivity|].
  destruct (Ascii.eqb_spec c "<") as [->|Hlt]; [split; reflexivity|].
  destruct (Ascii.eqb_spec c ">") as [->|Hgt]; [split; reflexivity|].
  rewrite !contains_char_cons. cbn [Text.contains String.prefix orb].
  rewrite !orb_false_r. split; apply Ascii.eqb_neq; congruence.
Qed.

(** ** Stripping the tags of an HTML body *)

Lemma tag_match_not_lt (c : ascii) (r : string) :
  Ascii.eqb c "<" = false -> Re.tag_match (String c r) = None.
Proof. intros H. unfold Re.tag_match. destruct r; [reflexivity|]. by rewrite H. Qed.

Lemma contains_lt_cons (c : ascii) (r : string) :
  Text.contains "<" (String c r) = false ->
  Ascii.eqb c "<" = false /\ Text.contains "<" r = false.
Proof.
  rewrite contains_char_cons. intros [H1 H2]%orb_false_elim.
  split; [by rewrite Ascii.eqb_sym | exact H2].
Qed.

(** X14: a text without [<] passes through the tag stripping unchanged. *)
Theorem sub_tags_without_lt (s : string) :
  Text.contains "<" s = false -> Re.sub_tags s = s.
Proof.
  unfold Re.sub_tags. induction s as [|c r IH]; intros H; [reflexivity|].
  apply contains_lt_cons in H as [Hc Hr].
  cbn [Re.sub_tags_go]. rewrite (tag_match_not_lt c r Hc). by rewrite (IH Hr).
Qed.

Lemma sub_tags_without_lt_witness :
  Re.sub_tags "Total: 5 > 3 & rising" = "Total: 5 > 3 & rising".
Proof. apply sub_tags_without_lt. reflexivity. Defined.

Lemma tag_tail_plain (t b : string) :
  Text.contains "<" t = false ->
  Text.contains ">" t = false ->
  Re.tag_tail (t +:+ ">" +:+ b) = Some (S (String.length t)).
Proof.
  induction t as [|c t IH]; intros Hlt Hgt; [reflexivity|].
  change (String c t +:+ ">" +:+ b) with (String c (t +:+ ">" +:+ b)).
  apply contains_lt_cons in Hlt as [Hc Hlt].
  rewrite contains_char_cons in Hgt. apply orb_false_elim in Hgt as [Hc' Hgt].
  rewrite Ascii.eqb_sym in Hc'.
  cbn [Re.tag_tail String.length]. rewrite Hc', Hc, (IH Hlt Hgt). reflexivity.
Qed.

Lemma sub_tags_go_skip (x y : string) :
  Re.sub_tags_go (String.length x) (x +:+ y) = Re.sub_tags_go 0 y.
Proof.
  induction x as [|c x IH]; [reflexivity|].
  change (String c x +:+ y) with (String c (x +:+ y)). exact IH.
Qed.

Lemma length_append (a b : string) :
  String.length (a +:+ b) = String.length a + String.length b.
Proof.
  induction a as [|c a IH]; [reflexivity|].
  change (String c a +:+ b) with (String c (a +:+ b)). cbn [String.length].
  by rewrite IH.
Qed.

(** X15: a simple tag is deleted whole.  When the text before it has no
    [<], and the tag is a [<], a non-empty text without [<] or [>], and a
    [>], the result is the text before it followed by the stripping of what
    comes after it. *)
Theorem sub_tags_simple_tag (a t b : string) :
  Text.contains "<" a = false ->
  t <> "" ->
  Text.contains "<" t = false ->
  Text.contains ">" t = false ->
  Re.sub_tags (a +:+ "<" +:+ t +:+ ">" +:+ b) = a +:+ Re.sub_tags b.
Proof.
  intros Ha Ht Hlt Hgt. unfold Re.sub_tags.
  induction a as [|c a IH].
  - change ("" +:+ "<" +:+ t +:+ ">" +:+ b) with (String "<" (t +:+ ">" +:+ b)).
    destruct t as [|c t]; [contradiction|].
    change ("" +:+ Re.sub_tags_go 0 b) with (Re.sub_tags_go 0 b).
    change (String c t +:+ ">" +:+ b) with (String c (t +:+ ">" +:+ b)).
    apply contains_lt_cons in Hlt as [Hc Hlt].
    rewrite contains_char_cons in Hgt. apply orb_false_elim in Hgt as [_ Hgt].
    cbn [Re.sub_tags_go]. unfold Re.tag_match.
    rewrite Hc. cbn [Ascii.eqb Bool.eqb andb negb].
    rewrite (tag_tail_plain t b Hlt Hgt). cbn [fmap option_fmap option_map Nat.add].
    rewrite <- (sub_tags_go_skip (String c (t +:+ ">")) b).
    change (String c (t +:+ ">") +:+ b) with (String c ((t +:+ ">") +:+ b)).
    rewrite append_assoc. cbn [String.length]. rewrite length_append.
    cbn [String.length]. by rewrite Nat.add_1_r.
  - change (String c a +:+ "<" +:+ t +:+ ">" +:+ b)
      with (String c (a +:+ "<" +:+ t +:+ ">" +:+ b)).
    change (String c a +:+ Re.sub_tags_go 0 b) with (String c (a +:+ Re.sub_tags_go 0 b)).
    apply contains_lt_cons in Ha as [Hc Ha].
    cbn [Re.sub_tags_go]. rewrite (tag_match_not_lt c _ Hc). by rewrite (IH Ha).
Qed.

Lemma sub_tags_simple_tag_witness :
  Re.sub_tags ("Dear " +:+ "<" +:+ "b class=x" +:+ ">" +:+ "Bob</b>, hello") =
  "Dear " +:+ Re.sub_tags "Bob</b>, hello".
Proof. apply sub_tags_simple_tag; first [reflexivity | discriminate]. Defined.

(** ** The handlers: what a request is answered with *)

(** The request names a file: [fileUrl] or [googleDriveFileId] is given and
    not empty. *)
Definition usable (d : gmap string string) : Prop :=
  truthy (d !! "fileUrl") || truthy (d !! "googleDriveFileId") = true.

Lemma usable_not_empty (d : gmap string string) : usable d -> d <> ∅.
Proof. intros H ->. unfold usable in H. by rewrite !lookup_empty in H. Qed.

(** The first steps of a handler on a usable request, up to the download. *)
Ltac handler_prefix d Hu :=
  unfold bind at 1, lift; unfold no_data;
  rewrite (bool_decide_eq_false_2 _ (usable_not_empty d Hu));
  cbn [data_get mbind option_bind];
  replace (negb (truthy (d !! "fileUrl")) && negb (truthy (d !! "googleDriveFileId")))
    with false by (rewrite <- negb_orb, Hu; reflexivity);
  unfold bind at 1, urandom_hex_;
  fold (resolved_url d).

(** On a usable request a handler looks at the request only to resolve the
    URL. *)
Lemma convert_email_to_pdf_by_url (E : Env) :
  exists F, forall d w,
    usable d -> convert_email_to_pdf E (Return (Some d)) w = F (resolved_url d) w.
Proof.
  eexists. intros d w Hu. unfold convert_email_to_pdf, try_except.
  handler_prefix d Hu.
  generalize (resolved_url d). revert w. intros w u.
  pattern u, w.
  match goal with |- ?G u w => instantiate (1 := fun u w => _) end.
  reflexivity.
Qed.

Lemma convert_and_download_by_url (E : Env) :
  exists F, forall d w,
    usable d -> convert_and_download E (Return (Some d)) w = F (resolved_url d) w.
Proof.
  eexists. intros d w Hu. unfold convert_and_download, try_except.
  handler_prefix d Hu.
  generalize (resolved_url d). revert w. intros w u.
  pattern u, w.
  match goal with |- ?G u w => instantiate (1 := fun u w => _) end.
  reflexivity.
Qed.

(** X16: a handler never lets an exception out: whatever the request, the
    download and the conversion do, it returns a response. *)
Theorem handlers_always_answer (E : Env)
    (get_json : outcome (option (gmap string string))) (w : World) :
  (exists r w', convert_email_to_pdf E get_json w = (Return r, w')) /\
  (exists r w', convert_and_download E get_json w = (Return r, w')).
Proof.
  split.
  - unfold convert_email_to_pdf, try_except.
    match goal with |- context [match ?c w with _ => _ end] =>
      destruct (c w) as [[r|e] w'] end; eexists _, _; reflexivity.
  - unfold convert_and_download, try_except.
    match goal with |- context [match ?c w with _ => _ end] =>
      destruct (c w) as [[r|e] w'] end; eexists _, _; reflexivity.
Qed.

(** X17: what both handlers answer before any download, by the outcome of
    [request.get_json()].  When it returns [None] or an empty object, the
    answer is 400 with the message that no JSON was provided; when it
    returns an object in which both [fileUrl] and [googleDriveFileId] are
    missing or empty, 400 with the message that one of them must be
    provided; when it raises, as it does for a request without a JSON
    body, the call being inside the handler's [try], the answer is 500
    with the message of the exception.  In each case nothing is fetched or
    written. *)
Theorem request_validation (E : Env) (data : option (gmap string string)) (w : World) :
  no_data data = true \/
  (truthy (data_get data "fileUrl") = false /\
   truthy (data_get data "googleDriveFileId") = false) ->
  (convert_email_to_pdf E (Return data) w =
     (Return (JsonError 400
                (if no_data data then "No JSON data provided"
                 else "Either fileUrl or googleDriveFileId must be provided")), w) /\
   convert_and_download E (Return data) w =
     (Return (JsonError 400
                (if no_data data then "No JSON data provided"
                 else "Either fileUrl or googleDriveFileId must be provided")), w)) /\
  (forall e,
     convert_email_to_pdf E (Raise e) w = (Return (JsonError 500 (str e)), w) /\
     convert_and_download E (Raise e) w = (Return (JsonError 500 (str e)), w)).
Proof.
  intros H. split; [split|].
  - unfold convert_email_to_pdf, try_except. unfold bind at 1, lift.
    destruct (no_data data); [reflexivity|].
    destruct H as [H | [H1 H2]]; [discriminate|]. by rewrite H1, H2.
  - unfold convert_and_download, try_except. unfold bind at 1, lift.
    destruct (no_data data); [reflexivity|].
    destruct H as [H | [H1 H2]]; [discriminate|]. by rewrite H1, H2.
  - intros e. split; reflexivity.
Qed.

Lemma request_validation_witness :
  (convert_email_to_pdf (Run.env None) (Return (Some ∅)) (mkWorld ∅ 0 0) =
     (Return (JsonError 400 "No JSON data provided"), mkWorld ∅ 0 0) /\
   convert_and_download (Run.env None) (Return (Some ∅)) (mkWorld ∅ 0 0) =
     (Return (JsonError 400 "No JSON data provided"), mkWorld ∅ 0 0)) /\
  convert_email_to_pdf (Run.env None)
    (Raise (Exception "415 Unsupported Media Type")) (mkWorld ∅ 0 0) =
    (Return (JsonError 500 "415 Unsupported Media Type"), mkWorld ∅ 0 0).
Proof.
  generalize (request_validation (Run.env None) (Some ∅) (mkWorld ∅ 0 0)).
  vm_compute. intros H.
  split; [apply H; left; reflexivity|].
  exact (proj1 (proj2 (H (or_introl eq_refl)) (Exception "415 Unsupported Media Type"))).
Defined.

(** X18: when [googleDriveFileId] is given, [fileUrl] does not count: the
    request is answered as if [fileUrl] held anything else, or nothing. *)
Theorem drive_id_overrides_file_url (E : Env) (d : gmap string string) (url : string)
    (w : World) :
  truthy (d !! "googleDriveFileId") = true ->
  resolved_url (<["fileUrl" := url]> d) =
    "https://drive.google.com/uc?export=download&id=" +:+
    default "" (d !! "googleDriveFileId") /\
  convert_email_to_pdf E (Return (Some (<["fileUrl" := url]> d))) w =
    convert_email_to_pdf E (Return (Some d)) w /\
  convert_and_download E (Return (Some (<["fileUrl" := url]> d))) w =
    convert_and_download E (Return (Some d)) w.
Proof.
  intros Hid.
  assert (Hlookup : (<["fileUrl" := url]> d) !! "googleDriveFileId"
                    = d !! "googleDriveFileId") by (by rewrite lookup_insert_ne).
  assert (Hurl : resolved_url (<["fileUrl" := url]> d) = resolved_url d).
  { unfold resolved_url. by rewrite Hlookup, Hid. }
  assert (Hu : usable d) by (unfold usable; by rewrite Hid, orb_true_r).
  assert (Hu' : usable (<["fileUrl" := url]> d))
    by (unfold usable; by rewrite Hlookup, Hid, orb_true_r).
  split; [|split].
  - rewrite Hurl. unfold resolved_url. by rewrite Hid.
  - destruct (convert_email_to_pdf_by_url E) as [F HF]. by rewrite !HF, Hurl.
  - destruct (convert_and_download_by_url E) as [F HF]. by rewrite !HF, Hurl.
Qed.

Lemma drive_id_overrides_file_url_witness :
  convert_email_to_pdf (Run.env None)
    (Return (Some (<["fileUrl" := "https://example.org/other"]>
                     {[ "googleDriveFileId" := "ABC123" ]})))
    (mkWorld ∅ 0 0) =
  convert_email_to_pdf (Run.env None)
    (Return (Some {[ "googleDriveFileId" := "ABC123" ]})) (mkWorld ∅ 0 0).
Proof.
  apply (drive_id_overrides_file_url (Run.env None) {[ "googleDriveFileId" := "ABC123" ]}
           "https://example.org/other" (mkWorld ∅ 0 0)).
  reflexivity.
Defined.

(** X19: when the download answers with a status other than 200, both
    handlers answer 400 with a message that names the status; no file is
    written and no conversion is started: only one random name was drawn. *)
Theorem download_failure_answers_400 (E : Env) (d : gmap string string) (w : World)
    (status : nat) (body : list byte) :
  usable d ->
  requests_get E (resolved_url d) = Return (status, body) ->
  status <> 200 ->
  convert_email_to_pdf E (Return (Some d)) w =
    (Return (JsonError 400
               ("Failed to download file: HTTP " +:+ Text.decimal (N.of_nat status))),
     mkWorld (files w) (temp_count w) (S (random_count w))) /\
  convert_and_download E (Return (Some d)) w =
    (Return (JsonError 400
               ("Failed to download file: HTTP " +:+ Text.decimal (N.of_nat status))),
     mkWorld (files w) (temp_count w) (S (random_count w))).
Proof.
  intros Hu Hget Hstatus. apply Nat.eqb_neq in Hstatus.
  split.
  - unfold convert_email_to_pdf. apply try_except_Return.
    handler_prefix d Hu. unfold bind at 1, lift. rewrite Hget.
    cbn [fst snd]. by rewrite Hstatus.
  - unfold convert_and_download. apply try_except_Return.
    handler_prefix d Hu. unfold bind at 1, lift. rewrite Hget.
    cbn [fst snd]. by rewrite Hstatus.
Qed.

(** An environment whose downloads all answer with the given status. *)
Definition answering (status : nat) (body : string) (E : Env) : Env :=
  mkEnv (BytesParser_parse E) (extract_msg_Message E) (weasyprint_render E)
    (PdfMerger_merge E) (mkdtemp_name E) (can_create E) (decode_utf8_ignore E)
    (str_lower E) (str_lower_ascii E) (gettempdir E) (urandom_hex E)
    (fun _ => Return (status, String.list_byte_of_string body)).

Lemma download_failure_answers_400_witness :
  convert_email_to_pdf (answering 404 "Not Found" (Run.env None))
    (Return (Some {[ "fileUrl" := "https://example.org/gone.eml" ]})) (mkWorld ∅ 0 0) =
  (Return (JsonError 400 "Failed to download file: HTTP 404"), mkWorld ∅ 0 1).
Proof.
  refine (proj1 (download_failure_answers_400 (answering 404 "Not Found" (Run.env None))
                   {[ "fileUrl" := "https://example.org/gone.eml" ]} (mkWorld ∅ 0 0)
                   404 (Run.bytes "Not Found") _ _ _));
    [reflexivity | reflexivity | discriminate].
Defined.

(** ** The temporary files of a request *)

Lemma append_inj_l (a s1 s2 : string) : a +:+ s1 = a +:+ s2 -> s1 = s2.
Proof.
  induction a as [|c a IH]; intros H; [exact H|].
  change (String c (a +:+ s1) = String c (a +:+ s2)) in H.
  injection H as H. by apply IH.
Qed.

(** The downloaded email and the output PDF never share a path. *)
Lemma email_path_not_output_path (dir x y : string) :
  Path.join dir ("email_" +:+ x) <> Path.join dir ("output_" +:+ y).
Proof.
  unfold Path.join.
  change ("email_" +:+ x) with (String "e" ("mail_" +:+ x)).
  change ("output_" +:+ y) with (String "o" ("utput_" +:+ y)).
  cbn [Ascii.eqb Bool.eqb Path.sep andb].
  destruct (Text.is_empty dir || Path.ends_with_sep dir); intros H.
  - apply append_inj_l in H. discriminate H.
  - apply append_inj_l in H. discriminate H.
Qed.

Lemma process_output_written (E : Env) path out w r w' :
  process_email_to_pdf E path out w = (Return r, w') ->
  is_Some (files w' !! out).
Proof.
  unfold process_email_to_pdf. intros H.
  apply bind_inv in H as (collected & w1 & _ & H).
  apply bind_inv in H as (u & w2 & Hm & H).
  unfold ret in H. injection H as _ <-.
  apply merge_pdfs_inv in Hm as (merged & _ & ->).
  rewrite files_set_file. by eexists.
Qed.

Lemma read_file_ok (path : string) (b : list byte) (w : World) :
  files w !! path = Some b -> read_file path w = (Return b, w).
Proof. unfold read_file. by intros ->. Qed.

(** The clean-up of [/convert] when both files are there. *)
Lemma cleanup_ok (a b : string) (w : World) (x y : list byte) :
  a <> b ->
  files w !! a = Some x ->
  files w !! b = Some y ->
  best_effort (unlink a ;;; unlink b) w =
    (Return tt, mkWorld (delete b (delete a (files w))) (temp_count w) (random_count w)).
Proof.
  intros Hne Ha Hb. unfold best_effort, try_except, bind, unlink, ret.
  rewrite Ha. cbn [files]. rewrite lookup_delete_ne by exact Hne. by rewrite Hb.
Qed.

Section RequestFiles.

Context (E : Env) (d : gmap string string) (w : World) (body : list byte).

(** The paths a handler draws for the downloaded email and for the output. *)
Definition temp_email_path : string :=
  Path.join (gettempdir E) ("email_" +:+ urandom_hex E 8 (random_count w)).

Definition output_pdf_path : string :=
  Path.join (gettempdir E)
    ("output_" +:+ urandom_hex E 8 (S (random_count w)) +:+ ".pdf").

(** The world in which the conversion starts: the download is stored and
    two random names have been drawn. *)
Definition downloaded : World :=
  mkWorld (<[temp_email_path := body]> (files w)) (temp_count w)
    (S (S (random_count w))).

Hypothesis Husable : usable d.
Hypothesis Hget : requests_get E (resolved_url d) = Return (200, body).
Hypothesis Hcreate : can_create E temp_email_path = true.

Lemma convert_and_download_success r w2 :
  process_email_to_pdf E temp_email_path output_pdf_path downloaded = (Return r, w2) ->
  exists pdf_data,
    files w2 !! output_pdf_path = Some pdf_data /\
    convert_and_download E (Return (Some d)) w =
      (Return (SendFile pdf_data "email_printout.pdf"), w2).
Proof.
  intros Hp.
  destruct (process_output_written _ _ _ _ _ _ Hp) as [pdf_data Hout].
  exists pdf_data. split; [exact Hout|].
  unfold convert_and_download. apply try_except_Return.
  handler_prefix d Husable. unfold bind at 1, lift. rewrite Hget.
  cbn [fst snd Nat.eqb negb].
  erewrite bind_Return by (apply write_file_ok; exact Hcreate).
  unfold bind at 1, urandom_hex_.
  change (process_email_to_pdf E _ _ _)
    with (process_email_to_pdf E temp_email_path output_pdf_path downloaded).
  rewrite (bind_Return _ _ _ _ _ Hp).
  rewrite (process_email_to_pdf_success _ _ _ _ _ _ Hp). cbn [negb].
  erewrite bind_Return by (apply read_file_ok; exact Hout). reflexivity.
Qed.

Lemma convert_email_to_pdf_success r w2 :
  is_html_page (take 100 body) = false ->
  process_email_to_pdf E temp_email_path output_pdf_path downloaded = (Return r, w2) ->
  exists pdf_data,
    files w2 !! output_pdf_path = Some pdf_data /\
    convert_email_to_pdf E (Return (Some d)) w =
      (Return (JsonConverted pdf_data
                 ("email_printout_" +:+ urandom_hex E 4 (S (S (random_count w))) +:+ ".pdf")
                 (email_subject r) (email_from r) (attachment_count r) (total_pages r)
                 (length pdf_data)),
       mkWorld (delete output_pdf_path (delete temp_email_path (files w2)))
         (temp_count w2) (S (S (S (random_count w))))).
Proof.
  intros Hhtml Hp.
  destruct (process_output_written _ _ _ _ _ _ Hp) as [pdf_data Hout].
  destruct (growing_process_email_to_pdf E temp_email_path output_pdf_path downloaded)
    as (Hfiles & _ & Hrandom).
  rewrite Hp in Hfiles, Hrandom. cbn [snd] in Hfiles, Hrandom.
  destruct (Hfiles temp_email_path) as [kept Hkept].
  { unfold downloaded. cbn. rewrite lookup_insert_eq. by eexists. }
  exists pdf_data. split; [exact Hout|].
  unfold convert_email_to_pdf. apply try_except_Return.
  handler_prefix d Husable. unfold bind at 1, lift. rewrite Hget.
  cbn [fst snd Nat.eqb negb].
  erewrite bind_Return by (apply write_file_ok; exact Hcreate).
  unfold bind at 1, read_file at 1. rewrite files_set_file. rewrite Hhtml.
  unfold bind at 1, urandom_hex_.
  change (process_email_to_pdf E _ _ _)
    with (process_email_to_pdf E temp_email_path output_pdf_path downloaded).
  rewrite (bind_Return _ _ _ _ _ Hp).
  rewrite (process_email_to_pdf_success _ _ _ _ _ _ Hp). cbn [negb].
  erewrite bind_Return by (apply read_file_ok; exact Hout).
  erewrite bind_Return
    by (apply cleanup_ok with (x := kept) (y := pdf_data);
        [apply email_path_not_output_path | exact Hkept | exact Hout]).
  unfold bind, urandom_hex_, ret. cbn [files temp_count random_count].
  rewrite Hrandom. reflexivity.
Qed.

End RequestFiles.

(** X20: when [/convert] succeeds, the response carries the bytes of the
    merged PDF and their number, with the subject, sender and counts of the
    conversion result, and both temporary files (the downloaded email and
    the output PDF) are removed before it answers. *)
Theorem convert_success_removes_temp_files (E : Env) (d : gmap string string)
    (w w2 : World) (body : list byte) (r : ConversionResult) :
  usable d ->
  requests_get E (resolved_url d) = Return (200, body) ->
  can_create E (temp_email_path E w) = true ->
  is_html_page (take 100 body) = false ->
  process_email_to_pdf E (temp_email_path E w) (output_pdf_path E w)
    (downloaded E w body) = (Return r, w2) ->
  exists pdf_data file_name w',
    convert_email_to_pdf E (Return (Some d)) w =
      (Return (JsonConverted pdf_data file_name (email_subject r) (email_from r)
                 (attachment_count r) (total_pages r) (length pdf_data)), w') /\
    files w2 !! output_pdf_path E w = Some pdf_data /\
    files w' !! temp_email_path E w = None /\
    files w' !! output_pdf_path E w = None.
Proof.
  intros Hu Hget Hcreate Hhtml Hp.
  destruct (convert_email_to_pdf_success E d w body Hu Hget Hcreate r w2 Hhtml Hp)
    as (pdf_data & Hout & Hrun).
  eexists pdf_data, _, _. split; [exact Hrun|]. split; [exact Hout|].
  cbn [files]. split.
  - rewrite lookup_delete_ne by (apply not_eq_sym, email_path_not_output_path).
    apply lookup_delete_eq.
  - apply lookup_delete_eq.
Qed.

Lemma convert_success_removes_temp_files_witness :
  let w' := snd (convert_email_to_pdf (Run.env None)
                   (Return (Some {[ "fileUrl" := "https://example.org/mail" ]}))
                   (mkWorld ∅ 0 0)) in
  files w' !! "/tmp/email_r0" = None /\ files w' !! "/tmp/output_r1.pdf" = None.
Proof.
  destruct (convert_success_removes_temp_files (Run.env None)
              {[ "fileUrl" := "https://example.org/mail" ]} (mkWorld ∅ 0 0)
              (snd (process_email_to_pdf (Run.env None) "/tmp/email_r0" "/tmp/output_r1.pdf"
                      (downloaded (Run.env None) (mkWorld ∅ 0 0) (Run.bytes "hello"))))
              (Run.bytes "hello")
              (mkConversionResult true "/tmp/output_r1.pdf" "" "" 0 1))
    as (pdf_data & file_name & w' & Hrun & _ & Htemp & Hout);
    try (vm_compute; reflexivity).
  cbv zeta. rewrite Hrun. split; [exact Htemp | exact Hout].
Defined.

(** X21: when [/convert/download] succeeds, it sends the bytes of the merged
    PDF under the name [email_printout.pdf] and removes nothing: the
    downloaded email and the output PDF are both still there afterwards. *)
Theorem download_success_keeps_temp_files (E : Env) (d : gmap string string)
    (w w2 : World) (body : list byte) (r : ConversionResult) :
  usable d ->
  requests_get E (resolved_url d) = Return (200, body) ->
  can_create E (temp_email_path E w) = true ->
  process_email_to_pdf E (temp_email_path E w) (output_pdf_path E w)
    (downloaded E w body) = (Return r, w2) ->
  exists pdf_data,
    convert_and_download E (Return (Some d)) w =
      (Return (SendFile pdf_data "email_printout.pdf"), w2) /\
    files w2 !! output_pdf_path E w = Some pdf_data /\
    is_Some (files w2 !! temp_email_path E w).
Proof.
  intros Hu Hget Hcreate Hp.
  destruct (convert_and_download_success E d w body Hu Hget Hcreate r w2 Hp)
    as (pdf_data & Hout & Hrun).
  exists pdf_data. split; [exact Hrun|]. split; [exact Hout|].
  destruct (growing_process_email_to_pdf E (temp_email_path E w) (output_pdf_path E w)
              (downloaded E w body)) as (Hfiles & _ & _).
  rewrite Hp in Hfiles. apply Hfiles.
  unfold downloaded. cbn. rewrite lookup_insert_eq. by eexists.
Qed.

Lemma download_success_keeps_temp_files_witness :
  let w' := snd (convert_and_download (Run.env None)
                   (Return (Some {[ "fileUrl" := "https://example.org/mail" ]}))
                   (mkWorld ∅ 0 0)) in
  is_Some (files w' !! "/tmp/email_r0") /\ is_Some (files w' !! "/tmp/output_r1.pdf").
Proof.
  destruct (download_success_keeps_temp_files (Run.env None)
              {[ "fileUrl" := "https://example.org/mail" ]} (mkWorld ∅ 0 0)
              (snd (process_email_to_pdf (Run.env None) "/tmp/email_r0" "/tmp/output_r1.pdf"
                      (downloaded (Run.env None) (mkWorld ∅ 0 0) (Run.bytes "hello"))))
              (Run.bytes "hello")
              (mkConversionResult true "/tmp/output_r1.pdf" "" "" 0 1))
    as (pdf_data & Hrun & Hout & Htemp);
    try (vm_compute; reflexivity).
  cbv zeta. rewrite Hrun. split; [exact Htemp | by eexists].
Defined.

(** ** The command line *)

(** X22: the exit status of the script is 0 exactly when two arguments are
    given and the conversion returns, and 1 otherwise; with status 0 the
    output file named by the second argument has been written; with fewer
    than two arguments nothing is touched. *)
Theorem main_exit_status (E : Env) (argv : list string) (w : World) :
  (fst (main E argv w) = 0 <->
   3 <= length argv /\
   exists r w',
     process_email_to_pdf E (default "" (argv !! 1)) (default "" (argv !! 2)) w
       = (Return r, w')) /\
  (fst (main E argv w) = 0 \/ fst (main E argv w) = 1) /\
  (fst (main E argv w) = 0 ->
   is_Some (files (snd (main E argv w)) !! default "" (argv !! 2))) /\
  (length argv < 3 -> main E argv w = (1, w)).
Proof.
  unfold main. destruct (length argv <? 3) eqn:Hlen.
  - apply Nat.ltb_lt in Hlen. cbn [fst snd]. repeat split; try discriminate; auto.
    intros [H _]. lia.
  - apply Nat.ltb_ge in Hlen. cbv zeta.
    destruct (process_email_to_pdf E (default "" (argv !! 1)) (default "" (argv !! 2)) w)
      as [[r|e] w'] eqn:Hp; cbn [fst snd].
    + repeat split; auto; try lia.
      * by eexists _, _.
      * intros _. by apply process_output_written in Hp.
    + repeat split; auto; try discriminate; try lia.
      intros [_ (r & w'' & H)]. discriminate H.
Qed.

(** ** An email attached to an email *)

(** X23: an attached .eml file is parsed and rendered as one page, like the
    top-level email, and that is all: its own attachments are saved by the
    parse and listed on the page, but none of them is converted, so the
    conversion of an attachment never goes deeper than one level.  (The
    page is the one [create_gmail_html] returns for the nested message.) *)
Theorem nested_email_is_one_page (E : Env) (attachment_path output_pdf_path : string)
    (w w1 : World) (nested_email : EmailData) (html : string) (pdf : list byte) :
  str_lower E (Path.splitext_ext (Path.basename attachment_path)) = ".eml" ->
  parse_eml_file E attachment_path w = (Return nested_email, w1) ->
  create_gmail_html nested_email = Return html ->
  weasyprint_render E html = Return pdf ->
  can_create E output_pdf_path = true ->
  convert_attachment_to_pdf E attachment_path output_pdf_path w =
    (Return true, set_file output_pdf_path pdf w1).
Proof.
  intros Hext Hparse Hhtml Hrender Hcreate.
  unfold convert_attachment_to_pdf. cbv zeta. rewrite Hext.
  apply try_except_Return. unfold convert_attachment_try.
  cbn [one_of existsb String.eqb Ascii.eqb Bool.eqb orb andb].
  rewrite (bind_Return _ _ _ _ _ Hparse). rewrite Hhtml. unfold bind at 1, lift.
  unfold convert_html_to_pdf.
  by rewrite (bind_Return _ _ _ _ _ (write_pdf_ok _ _ _ _ _ Hrender Hcreate)).
Qed.

Lemma nested_email_is_one_page_witness :
  let E := Run.env (Some (Run.multipart
                            [Run.text_part "inner"; Run.file_part "deep.txt" "deep"])) in
  let w := Run.world "/tmp/tmp0/inner.eml" (Run.bytes "raw") in
  let nested :=
    mkEmailData "alice@example.org" "bob@example.org" "" "Report"
      "Mon, 2 Jan 2023 10:00:00 +0000" (Str "inner") (Str "")
      [mkAttachment "deep.txt" "/tmp/tmp0/deep.txt" "application/octet-stream" 4] in
  convert_attachment_to_pdf E "/tmp/tmp0/inner.eml" "/tmp/tmp9/01_inner.eml.pdf" w =
    (Return true,
     set_file "/tmp/tmp9/01_inner.eml.pdf" (Run.bytes (gmail_page nested "inner"))
       (snd (parse_eml_file E "/tmp/tmp0/inner.eml" w))).
Proof.
  cbv zeta.
  apply (nested_email_is_one_page
           (Run.env (Some (Run.multipart
                             [Run.text_part "inner"; Run.file_part "deep.txt" "deep"])))
           "/tmp/tmp0/inner.eml" "/tmp/tmp9/01_inner.eml.pdf"
           (Run.world "/tmp/tmp0/inner.eml" (Run.bytes "raw"))
           (snd (parse_eml_file
                   (Run.env (Some (Run.multipart
                                     [Run.text_part "inner";
                                      Run.file_part "deep.txt" "deep"])))
                   "/tmp/tmp0/inner.eml"
                   (Run.world "/tmp/tmp0/inner.eml" (Run.bytes "raw"))))
           (mkEmailData "alice@example.org" "bob@example.org" "" "Report"
              "Mon, 2 Jan 2023 10:00:00 +0000" (Str "inner") (Str "")
              [mkAttachment "deep.txt" "/tmp/tmp0/deep.txt" "application/octet-stream" 4])
           (gmail_page
              (mkEmailData "alice@example.org" "bob@example.org" "" "Report"
                 "Mon, 2 Jan 2023 10:00:00 +0000" (Str "inner") (Str "")
                 [mkAttachment "deep.txt" "/tmp/tmp0/deep.txt"
                    "application/octet-stream" 4])
              "inner"));
    vm_compute; reflexivity.
Defined.

(** ** Bodies that are not text *)

Lemma create_gmail_html_bytes_text (ed : EmailData) (b : list byte) :
  b <> [] -> body_text ed = Bytes b ->
  create_gmail_html ed = Raise (Exception "a bytes-like object is required, not 'str'").
Proof.
  intros Hb Ht. unfold create_gmail_html, body_content. rewrite Ht.
  destruct b as [|x b]; [contradiction | reflexivity].
Qed.

Lemma create_gmail_html_bytes_html (ed : EmailData) (b : list byte) :
  b <> [] -> is_true (body_text ed) = false -> body_html ed = Bytes b ->
  create_gmail_html ed =
    Raise (Exception "cannot use a string pattern on a bytes-like object").
Proof.
  intros Hb Ht Hh. unfold create_gmail_html, body_content. rewrite Ht, Hh.
  destruct b as [|x b]; [contradiction | reflexivity].
Qed.

(** X24: the renderer has no page for a body that is a bytes object.  A
    non-empty bytes object as plain-text body reaches the three [replace]
    calls, whose text arguments it refuses; with an empty plain-text body,
    a non-empty bytes object as HTML body reaches [re.sub], whose text
    pattern cannot be used on it.  Either way [create_gmail_html] raises
    [TypeError]. *)
Theorem bytes_body_is_not_rendered (ed : EmailData) (b : list byte) :
  b <> [] ->
  (body_text ed = Bytes b ->
   create_gmail_html ed =
     Raise (Exception "a bytes-like object is required, not 'str'")) /\
  (is_true (body_text ed) = false -> body_html ed = Bytes b ->
   create_gmail_html ed =
     Raise (Exception "cannot use a string pattern on a bytes-like object")).
Proof.
  intros Hb. split.
  - by apply create_gmail_html_bytes_text.
  - by apply create_gmail_html_bytes_html.
Qed.

Lemma bytes_body_is_not_rendered_witness :
  create_gmail_html
    (mkEmailData "carol@example.org" "" "" "Legacy" "" (Str "")
       (Bytes (Run.bytes "<p>Hi</p>")) []) =
  Raise (Exception "cannot use a string pattern on a bytes-like object").
Proof.
  apply (proj2 (bytes_body_is_not_rendered
                  (mkEmailData "carol@example.org" "" "" "Legacy" "" (Str "")
                     (Bytes (Run.bytes "<p>Hi</p>")) [])
                  (Run.bytes "<p>Hi</p>") ltac:(vm_compute; discriminate)));
    reflexivity.
Defined.

(** An environment whose .msg decoder answers with the given message. *)
Definition decoding (msg : ExtractMsg.Message) (E : Env) : Env :=
  mkEnv (BytesParser_parse E) (fun _ => Return msg) (weasyprint_render E)
    (PdfMerger_merge E) (mkdtemp_name E) (can_create E) (decode_utf8_ignore E)
    (str_lower E) (str_lower_ascii E) (gettempdir E) (urandom_hex E) (requests_get E).

(** X25: a .msg file that has an HTML body and no plain-text body is not
    converted: the parser stores the HTML body as the bytes the library
    returns, the renderer raises [TypeError] on it at [re.sub], and the
    exception leaves [process_email_to_pdf] before any page is written. *)
Theorem html_only_msg_is_not_converted (E : Env) (path out : string) (w : World)
    (f : list byte) (msg : ExtractMsg.Message) (b : list byte) :
  str_lower E (Path.splitext_ext path) = ".msg" ->
  files w !! path = Some f ->
  extract_msg_Message E f = Return msg ->
  truthy (ExtractMsg.body msg) = false ->
  ExtractMsg.htmlBody msg = Some b ->
  b <> [] ->
  exists ed w',
    parse_msg_file E path w = (Return ed, w') /\
    body_text ed = Str "" /\ body_html ed = Bytes b /\
    process_email_to_pdf E path out w =
      (Raise (Exception "cannot use a string pattern on a bytes-like object"), w').
Proof.
  intros Hext Hf Hparse Hbody Hhtml Hb.
  assert (Hrun : exists ed w',
            parse_msg_file E path w = (Return ed, w') /\
            body_text ed = Str "" /\ body_html ed = Bytes b).
  { unfold parse_msg_file. unfold bind at 1. unfold read_file at 1. rewrite Hf.
    unfold bind at 1, lift. rewrite Hparse. unfold bind at 1, mkdtemp.
    match goal with
    | |- context [for_each ?l ?body ?ed0 ?w0] =>
        destruct (msg_attachments_saved E (mkdtemp_name E (temp_count w)) l ed0 w0)
          as (ed & w' & Hrun & _ & _ & _ & _ & _ & _ & H6 & H7 & _)
    end.
    exists ed, w'. split; [exact Hrun|].
    cbn [body_text body_html] in H6, H7. rewrite H6, H7, Hhtml. split.
    - unfold or_empty, or_. rewrite Hbody. reflexivity.
    - destruct b as [|x b]; [contradiction | reflexivity]. }
  destruct Hrun as (ed & w' & Hrun & Ht & Hh).
  exists ed, w'. split; [exact Hrun|]. split; [exact Ht|]. split; [exact Hh|].
  assert (Hne : str_lower E (Path.splitext_ext path) <> "") by (rewrite Hext; discriminate).
  assert (Hstep1 : step1_parse E path w = (Return ed, w')).
  { unfold step1_parse.
    rewrite (bind_Return _ _ _ _ _ (detect_type_extension E path w Hne)).
    rewrite Hext. exact Hrun. }
  unfold process_email_to_pdf, collect_pdfs. apply bind_Raise.
  rewrite (bind_Return _ _ _ _ _ Hstep1). apply bind_Raise.
  unfold step2_email_page. apply bind_Raise. unfold lift.
  rewrite (create_gmail_html_bytes_html ed b Hb); [reflexivity | | exact Hh].
  by rewrite Ht.
Qed.

Lemma html_only_msg_is_not_converted_witness :
  let msg :=
    ExtractMsg.mkMessage (Some "carol@example.org") None None (Some "Legacy") None
      None (Some (Run.bytes "<p>Hi</p>")) [] in
  fst (process_email_to_pdf (decoding msg (Run.env None)) "/in/old.msg" "/out/old.pdf"
         (Run.world "/in/old.msg" (magic ++ Run.bytes "ole"))) =
  Raise (Exception "cannot use a string pattern on a bytes-like object").
Proof.
  cbv zeta.
  destruct (html_only_msg_is_not_converted
              (decoding
                 (ExtractMsg.mkMessage (Some "carol@example.org") None None (Some "Legacy")
                    None None (Some (Run.bytes "<p>Hi</p>")) [])
                 (Run.env None))
              "/in/old.msg" "/out/old.pdf"
              (Run.world "/in/old.msg" (magic ++ Run.bytes "ole"))
              (magic ++ Run.bytes "ole")
              (ExtractMsg.mkMessage (Some "carol@example.org") None None (Some "Legacy")
                 None None (Some (Run.bytes "<p>Hi</p>")) [])
              (Run.bytes "<p>Hi</p>")
              eq_refl eq_refl eq_refl eq_refl eq_refl ltac:(vm_compute; discriminate))
    as (ed & w' & _ & _ & _ & Hrun).
  by rewrite Hrun.
Defined.

(** X26: a message that is not multipart and whose content is not text is
    not converted either: [get_content] returns its decoded payload, a
    bytes object, the parser stores it as the plain-text body, and the
    renderer raises [TypeError] at the first [replace]. *)
Theorem binary_single_part_is_not_converted (E : Env) (path out : string) (w : World)
    (f : list byte) (msg : Mime.Message) (b : list byte) :
  str_lower E (Path.splitext_ext path) = ".eml" ->
  files w !! path = Some f ->
  BytesParser_parse E f = Return msg ->
  Mime.is_multipart msg = false ->
  Mime.msg_get_content msg = Return (Bytes b) ->
  b <> [] ->
  process_email_to_pdf E path out w =
    (Raise (Exception "a bytes-like object is required, not 'str'"), w).
Proof.
  intros Hext Hf Hparse Hmulti Hcontent Hb.
  assert (Hne : str_lower E (Path.splitext_ext path) <> "") by (rewrite Hext; discriminate).
  assert (Hrun : parse_eml_file E path w =
                 (Return
                    (mkEmailData (header msg "From") (header msg "To") (header msg "CC")
                       (header msg "Subject") (header msg "Date") (Bytes b) (Str "") []),
                  w)).
  { unfold parse_eml_file. unfold bind at 1. unfold read_file at 1. rewrite Hf.
    unfold bind at 1, lift. rewrite Hparse, Hmulti.
    unfold try_except, bind, ret. by rewrite Hcontent. }
  match type of Hrun with
  | _ = (Return ?ed, _) => assert (Hstep1 : step1_parse E path w = (Return ed, w))
  end.
  { unfold step1_parse.
    rewrite (bind_Return _ _ _ _ _ (detect_type_extension E path w Hne)).
    rewrite Hext. exact Hrun. }
  unfold process_email_to_pdf, collect_pdfs. apply bind_Raise.
  rewrite (bind_Return _ _ _ _ _ Hstep1). apply bind_Raise.
  unfold step2_email_page. apply bind_Raise. unfold lift.
  rewrite create_gmail_html_bytes_text with (b := b);
    [reflexivity | exact Hb | reflexivity].
Qed.

Lemma binary_single_part_is_not_converted_witness :
  let msg :=
    Mime.mkMessage Run.headers false [] (Return (Bytes (Run.bytes "%PDF-1.4"))) in
  process_email_to_pdf (Run.env (Some msg)) "/in/scan.eml" "/out/scan.pdf"
    (Run.world "/in/scan.eml" (Run.bytes "raw")) =
  (Raise (Exception "a bytes-like object is required, not 'str'"),
   Run.world "/in/scan.eml" (Run.bytes "raw")).
Proof.
  cbv zeta.
  apply (binary_single_part_is_not_converted
           (Run.env (Some (Mime.mkMessage Run.headers false []
                             (Return (Bytes (Run.bytes "%PDF-1.4"))))))
           "/in/scan.eml" "/out/scan.pdf"
           (Run.world "/in/scan.eml" (Run.bytes "raw")) (Run.bytes "raw")
           (Mime.mkMessage Run.headers false [] (Return (Bytes (Run.bytes "%PDF-1.4"))))
           (Run.bytes "%PDF-1.4"));
    first [reflexivity | vm_compute; discriminate].
Defined.

(** ** Slices of text *)

